(** * Armenian-symbol OCR pipeline for a UAV: a shallow embedding and its properties

    The development follows the Python sources module by module:

    - [Py]        : the fragment of Python semantics the code relies on
                    (exceptions, [min], string whitespace, the stable sort);
    - [Telemetry] : [flight_controller_module/mavlink_handler.py];
    - [GPS]       : [flight_controller_module/gps_data.py];
    - [Detector]  : [vision_module/symbol_detector.py];
    - [OCR]       : [vision_module/ocr_processor.py];
    - [Logger]    : [data_module/excel_logger.py].

    Part I holds the definitions, Part II the theorems together with the
    sample inputs they are tried on.

    Numbers.  Python floats that carry pixel ratios, scores and clock readings
    are modelled as exact rationals ([Q]): every property proved about them
    below is an order property with a margin far above one unit in the last
    place.  The e7 coordinate encoding is the exception: its round trip is a
    statement about binary64 rounding, so [GPS.format_for_competition], and
    the logger that calls it, are modelled on the kernel's binary64 numbers
    ([PrimFloat]). *)

From Stdlib Require Import ZArith QArith Qabs Lia Lqa List Bool Floats Sorted Permutation.
From stdpp Require Import gmap strings list.

(* ===================================================================== *)
(** * Part I: the embedding                                               *)
(* ===================================================================== *)

Module Py.

(** Exceptions raised by the modelled code or by its collaborators. *)
Inductive exn : Type :=
| ZeroDivisionError
| ValueError
| OverflowError
| AttributeError
| TypeError
| LibraryError (msg : string).

(** A computation either raises or returns. *)
Inductive exc (A : Type) : Type :=
| Raise (e : exn)
| Return (a : A).
Arguments Raise {A} e.
Arguments Return {A} a.

Definition bind {A B : Type} (m : exc A) (k : A -> exc B) : exc B :=
  match m with
  | Raise e => Raise e
  | Return a => k a
  end.

(** [try: body / except Exception as e: return handler e]. *)
Definition try_except {A : Type} (body : exc A) (handler : exn -> A) : exc A :=
  match body with
  | Raise e => Return (handler e)
  | Return a => Return a
  end.

(** Strict comparison on rationals, as a boolean. *)
Definition Qltb (x y : Q) : bool := negb (Qle_bool y x).

(** [min(a, b)] on numbers: the first argument unless the second is smaller. *)
Definition py_min (a b : Q) : Q := if Qltb b a then b else a.

(** True division [a / b]: raises ZeroDivisionError on a zero divisor. *)
Definition py_div (a b : Q) : exc Q :=
  if Qeq_bool b 0 then Raise ZeroDivisionError else Return (a / b)%Q.

(** *** Strings: a [str] is its sequence of Unicode code points. *)

Definition pystr : Type := list Z.

(** [str.isspace] for one character: the code points CPython treats as
    whitespace in [strip()] and [split()]. *)
Definition is_space (c : Z) : bool :=
  (((0x09 <=? c) && (c <=? 0x0D)) || ((0x1C <=? c) && (c <=? 0x20))
   || (c =? 0x85) || (c =? 0xA0) || (c =? 0x1680)
   || ((0x2000 <=? c) && (c <=? 0x200A))
   || (c =? 0x2028) || (c =? 0x2029) || (c =? 0x202F) || (c =? 0x205F)
   || (c =? 0x3000))%Z.

Fixpoint lstrip (s : pystr) : pystr :=
  match s with
  | [] => []
  | c :: s' => if is_space c then lstrip s' else s
  end.

Definition rstrip (s : pystr) : pystr := rev (lstrip (rev s)).

(** [s.strip()]. *)
Definition strip (s : pystr) : pystr := lstrip (rstrip s).

(** [s.replace(old, new)] for a one-character [old]. *)
Definition replace (old : Z) (new : pystr) (s : pystr) : pystr :=
  flat_map (fun c => if (c =? old)%Z then new else [c]) s.

(** [s.split()]: the maximal runs of non-whitespace characters; [word] is
    the run being read. *)
Fixpoint split_from (word : pystr) (s : pystr) : list pystr :=
  match s with
  | [] => match word with [] => [] | _ => [word] end
  | c :: s' =>
      if is_space c
      then match word with [] => split_from [] s' | _ => word :: split_from [] s' end
      else split_from (word ++ [c]) s'
  end.

Definition split (s : pystr) : list pystr := split_from [] s.

(** [sep.join(parts)]. *)
Fixpoint join (sep : pystr) (parts : list pystr) : pystr :=
  match parts with
  | [] => []
  | [x] => x
  | x :: rest => x ++ sep ++ join sep rest
  end.

Section Sort.
Context {A : Type} (key : A -> Q).

(** Insertion that keeps [x] in front of the elements whose key is not
    smaller: the step of a stable ascending sort that uses only [<]. *)
Fixpoint insert_stable (x : A) (l : list A) : list A :=
  match l with
  | [] => [x]
  | y :: l' => if Qltb (key y) (key x) then y :: insert_stable x l' else x :: y :: l'
  end.

(** A stable ascending sort by [key].  [list.sort] is stable, and on keys
    that are totally ordered every stable sort returns this list. *)
Fixpoint sort_stable (l : list A) : list A :=
  match l with
  | [] => []
  | x :: l' => insert_stable x (sort_stable l')
  end.

(** [l.sort(key=key, reverse=rev)]: with [reverse=True] CPython reverses the
    list, sorts it stably in ascending order and reverses the result. *)
Definition py_sort (reverse : bool) (l : list A) : list A :=
  if reverse then rev (sort_stable (rev l)) else sort_stable l.

End Sort.

End Py.

Notation "'try!' x ':=' m 'in' k" := (Py.bind m (fun x => k))
(at level 10, x name, m at level 100, k at level 200).

(* --------------------------------------------------------------------- *)
(** ** flight_controller_module/mavlink_handler.py                        *)
(* --------------------------------------------------------------------- *)

Module Telemetry.
Import Py.
Local Open Scope Q_scope.

(** The dictionary stored in [self.last_gps_data].  The key
    ['satellites_visible'] is absent until a GPS_RAW_INT message adds it. *)
Record gps_data : Type := {
  lat : Q;
  lon : Q;
  alt : Q;
  relative_alt : Q;
  vx : Q;
  vy : Q;
  vz : Q;
  hdg : Q;
  timestamp : Q;
  fix_quality : Z;
  satellites_visible : option Z
}.

(** Integer fields of a MAVLink GLOBAL_POSITION_INT message. *)
Record position_int : Type := {
  msg_lat : Z;
  msg_lon : Z;
  msg_alt : Z;
  msg_relative_alt : Z;
  msg_vx : Z;
  msg_vy : Z;
  msg_vz : Z;
  msg_hdg : Z
}.

(** What [msg.get_type()] distinguishes.  For GPS_RAW_INT the two options
    are [hasattr(msg, 'fix_type')] and [getattr(msg, 'satellites_visible', 0)]. *)
Inductive message : Type :=
| GLOBAL_POSITION_INT (p : position_int)
| GPS_RAW_INT (fix_type : option Z) (sats : option Z)
| OTHER (msg_type : string).

(** [self.last_gps_data]: [None] or a dictionary. *)
Definition store : Type := option gps_data.

Definition set_fix (d : gps_data) (fix_type : Z) (sats : Z) : gps_data :=
  {| lat := lat d; lon := lon d; alt := alt d; relative_alt := relative_alt d;
     vx := vx d; vy := vy d; vz := vz d; hdg := hdg d;
     timestamp := timestamp d;
     fix_quality := fix_type;
     satellites_visible := Some sats |}.

(** [process_message]; [now] is the value of [time.time()]. *)
Definition process_message (now : Q) (msg : message) (st : store) : store :=
  match msg with
  | GLOBAL_POSITION_INT p =>
      Some {| lat := inject_Z (msg_lat p) / 1e7;
              lon := inject_Z (msg_lon p) / 1e7;
              alt := inject_Z (msg_alt p) / 1000;
              relative_alt := inject_Z (msg_relative_alt p) / 1000;
              vx := inject_Z (msg_vx p) / 100;
              vy := inject_Z (msg_vy p) / 100;
              vz := inject_Z (msg_vz p) / 100;
              hdg := inject_Z (msg_hdg p) / 100;
              timestamp := now;
              fix_quality := 3;
              satellites_visible := None |}
  | GPS_RAW_INT (Some fix_type) sats =>
      match st with
      | Some d => Some (set_fix d fix_type (default 0%Z sats))
      | None => None
      end
  | GPS_RAW_INT None _ => st
  | OTHER _ => st
  end.

(** The reader loop applied to a finite trace of (clock, message) pairs. *)
Fixpoint process_all (trace : list (Q * message)) (st : store) : store :=
  match trace with
  | [] => st
  | (now, msg) :: rest => process_all rest (process_message now msg st)
  end.

(** [get_current_gps]: a copy of the dictionary when one is stored and it is
    less than 5.0 seconds old, otherwise [None]. *)
Definition get_current_gps (now : Q) (st : store) : option gps_data :=
  match st with
  | Some d => if Qltb (now - timestamp d) 5.0 then Some d else None
  | None => None
  end.

(** The readiness test of [main_loop] (main_controller.py):
    [if not gps_data or gps_data.get('fix_quality', 0) < 3: ... continue]. *)
Definition main_loop_gps_ready (gps : option gps_data) : bool :=
  match gps with
  | None => false
  | Some d => negb (fix_quality d <? 3)%Z
  end.

(** The messages that write the key ['fix_quality'] of a stored dictionary:
    GPS_RAW_INT messages that have a [fix_type]. *)
Definition overrides_fix (msg : message) : bool :=
  match msg with
  | GPS_RAW_INT (Some _) _ => true
  | _ => false
  end.

(** What [is_armed] returns: [False], or the integer [base_mode & flag]. *)
Inductive false_or_int : Type :=
| PyFalse
| PyInt (n : Z).

(** The truth value Python gives to such a result ([if not self.mavlink.is_armed()]). *)
Definition truthy (v : false_or_int) : bool :=
  match v with
  | PyFalse => false
  | PyInt n => negb (n =? 0)%Z
  end.

Section Armed.
(** [mavutil.mavlink.MAV_MODE_FLAG_SAFETY_ARMED], a constant of pymavlink. *)
Variable MAV_MODE_FLAG_SAFETY_ARMED : Z.

(** [is_armed].  [mavutil_available] is [mavutil is not None]; [heartbeat] is
    the outcome of [recv_match(type='HEARTBEAT', blocking=False)]: an
    exception, [None], or a message given by its [base_mode]. *)
Definition is_armed (connected mavutil_available : bool)
    (heartbeat : exc (option Z)) : false_or_int :=
  if negb connected || negb mavutil_available then PyFalse
  else
    match heartbeat with
    | Raise _ => PyFalse
    | Return None => PyFalse
    | Return (Some base_mode) => PyInt (Z.land base_mode MAV_MODE_FLAG_SAFETY_ARMED)
    end.

End Armed.

End Telemetry.

(* --------------------------------------------------------------------- *)
(** ** flight_controller_module/gps_data.py                               *)
(* --------------------------------------------------------------------- *)

Module GPS.
Import Py.

(** [validate_gps_data] on a telemetry dictionary: the four required keys are
    fields of the record, so only the fix and range tests remain. *)
Definition validate_gps_data (gps : option Telemetry.gps_data) : bool :=
  match gps with
  | None => false
  | Some d =>
      if (Telemetry.fix_quality d <? 3)%Z then false
      else Qle_bool (-90) (Telemetry.lat d) && Qle_bool (Telemetry.lat d) 90
           && Qle_bool (-180) (Telemetry.lon d) && Qle_bool (Telemetry.lon d) 180
  end.

(** *** binary64 helpers *)

(** Nearest integer to [num / den] for [0 <= num] and [0 < den], ties to the
    even neighbour. *)
Definition round_half_even (num den : Z) : Z :=
  let q := (num / den)%Z in
  let r := (num mod den)%Z in
  match (2 * r ?= den)%Z with
  | Lt => q
  | Gt => (q + 1)%Z
  | Eq => if Z.even q then q else (q + 1)%Z
  end.

(** The magnitude [m * 2^e] of a finite binary64 number as a fraction. *)
Definition magnitude (m : positive) (e : Z) : Z * Z :=
  if (0 <=? e)%Z then (Z.pos m * 2 ^ e, 1)%Z else (Z.pos m, 2 ^ (- e))%Z.

Definition signed (s : bool) (n : Z) : Z := if s then (- n)%Z else n.

(** The exact value of a finite binary64 number (0 for infinities and NaN). *)
Definition float_value (x : float) : Q :=
  match Prim2SF x with
  | S754_finite s m e =>
      let (num, den) := magnitude m e in
      inject_Z (signed s num) / inject_Z den
  | _ => 0
  end.

(** [float(n)] for a Python integer: the nearest binary64 number. *)
Definition float_of_Z (n : Z) : float :=
  SF2Prim (binary_normalize prec emax n 0 false).

(** [round(x)] on a float: the nearest integer, ties to even, as a Python
    integer; NaN raises ValueError and an infinity OverflowError. *)
Definition py_round (x : float) : exc Z :=
  match Prim2SF x with
  | S754_zero _ => Return 0%Z
  | S754_infinity _ => Raise OverflowError
  | S754_nan => Raise ValueError
  | S754_finite s m e =>
      let (num, den) := magnitude m e in
      Return (signed s (round_half_even num den))
  end.

(** [round(x, ndigits)] on a float, for [0 <= ndigits]: CPython turns [x]
    into the decimal with [ndigits] fractional digits nearest to its exact
    value (ties to even) and reads that decimal back as the nearest binary64
    number.  The decimal is [n / 10^ndigits] for an integer [n]; the quotient
    of the two integers is rounded once, whatever their size.  A result of
    zero keeps the sign of [x]; zeros, infinities and NaN are returned as
    they are. *)
Definition py_round_ndigits (x : float) (ndigits : Z) : float :=
  match Prim2SF x with
  | S754_finite s m e =>
      let (num, den) := magnitude m e in
      match round_half_even (num * 10 ^ ndigits) den with
      | Z.pos n =>
          SF2Prim (SF64div (S754_finite s n 0)
                     (S754_finite false (Z.to_pos (10 ^ ndigits)) 0))
      | _ => if s then neg_zero else zero
      end
  | _ => x
  end.

(** Neither an infinity nor NaN. *)
Definition finite_float (x : float) : bool :=
  match Prim2SF x with
  | S754_zero _ | S754_finite _ _ _ => true
  | _ => false
  end.

(** *** the code *)

(** [format_for_competition]: [int(round(lat * 1e7)), int(round(lon * 1e7))]. *)
Definition format_for_competition (lat lon : float) : exc (Z * Z) :=
  try! lat_e7 := py_round (lat * 1e7)%float in
  try! lon_e7 := py_round (lon * 1e7)%float in
  Return (lat_e7, lon_e7).

(** The round-trip test of the specification,
    [round(lat_e7 / 1e7, 7) == round(lat, 7)]. *)
Definition round_trips (lat : float) (lat_e7 : Z) : bool :=
  PrimFloat.eqb (py_round_ndigits (float_of_Z lat_e7 / 1e7)%float 7)
                (py_round_ndigits lat 7).

End GPS.

(* --------------------------------------------------------------------- *)
(** ** vision_module/symbol_detector.py                                   *)
(* --------------------------------------------------------------------- *)

Module Detector.
Import Py.
Local Open Scope Q_scope.

(** What the detector reads of an OpenCV contour: [cv2.contourArea] and
    [cv2.boundingRect], the latter as [(x, y, w, h)]. *)
Record contour : Type := {
  contour_area : Q;
  bounding_rect : Z * Z * Z * Z
}.

(** The detection dictionary. *)
Record detection : Type := {
  bbox : Z * Z * Z * Z;
  area : Q;
  aspect_ratio : Q;
  fill_ratio : Q;
  confidence : Q
}.

(** The attributes set by [__init__]. *)
Record detector : Type := {
  min_symbol_area : Q;
  max_symbol_area : Q
}.

(** [__init__]: [config.get('min_symbol_area', 2000)] and
    [config.get('max_symbol_area', 100000)]. *)
Definition init (config : gmap string Q) : detector :=
  {| min_symbol_area := default 2000 (config !! "min_symbol_area"%string);
     max_symbol_area := default 100000 (config !! "max_symbol_area"%string) |}.

(** [calculate_detection_confidence]. *)
Definition calculate_detection_confidence (area aspect_ratio fill_ratio : Q) : Q :=
  let area_score := py_min (area / 20000) 1.0 in
  let ratio_score :=
    if Qle_bool aspect_ratio 2.0 then 1.0 - Qabs (1.0 - aspect_ratio) else 0.5 in
  let fill_score :=
    if Qle_bool fill_ratio 0.6 then fill_ratio else 1.0 - fill_ratio in
  (area_score + ratio_score + fill_score) / 3.0.

(** The body of the loop of [analyze_contours] for one contour: [None] for
    [continue], [Some] for the dictionary that is appended. *)
Definition analyze_contour (self : detector) (c : contour) : exc (option detection) :=
  let area := contour_area c in
  if Qltb area (min_symbol_area self) || Qltb (max_symbol_area self) area
  then Return None
  else
    let '(x, y, w, h) := bounding_rect c in
    try! aspect_ratio := py_div (inject_Z w) (inject_Z h) in
    if Qltb aspect_ratio 0.4 || Qltb 2.5 aspect_ratio
    then Return None
    else
      let contour_area := contour_area c in
      let bbox_area := (w * h)%Z in
      try! fill_ratio := py_div contour_area (inject_Z bbox_area) in
      if Qltb fill_ratio 0.1 || Qltb 0.9 fill_ratio
      then Return None
      else
        Return (Some {| bbox := (x, y, w, h);
                        area := area;
                        aspect_ratio := aspect_ratio;
                        fill_ratio := fill_ratio;
                        confidence :=
                          calculate_detection_confidence area aspect_ratio fill_ratio |}).

(** The [for] loop of [analyze_contours]; [detections] is the list built so far. *)
Fixpoint analyze_loop (self : detector) (contours : list contour)
    (detections : list detection) : exc (list detection) :=
  match contours with
  | [] => Return detections
  | c :: rest =>
      try! r := analyze_contour self c in
      match r with
      | None => analyze_loop self rest detections
      | Some d => analyze_loop self rest (detections ++ [d])
      end
  end.

(** [analyze_contours] (its [frame_shape] argument is not used). *)
Definition analyze_contours (self : detector) (contours : list contour)
    : exc (list detection) :=
  try! detections := analyze_loop self contours [] in
  Return (py_sort confidence true detections).

Section Pipeline.
(** The OpenCV stages, whose only relevant behaviour is to return or raise. *)
Context {frame image : Type}.
Variable preprocess_for_detection : frame -> exc image.
Variable find_symbol_contours : image -> exc (list contour).

(** [detect_symbols]: any exception is logged and an empty list returned. *)
Definition detect_symbols (self : detector) (fr : frame) : exc (list detection) :=
  try_except
    (try! processed := preprocess_for_detection fr in
     try! contours := find_symbol_contours processed in
     analyze_contours self contours)
    (fun _ => []).

End Pipeline.

End Detector.

(* --------------------------------------------------------------------- *)
(** ** vision_module/ocr_processor.py                                     *)
(* --------------------------------------------------------------------- *)

Module OCR.
Import Py.

(** [self.armenian_symbols]: the 36 capital letters from U+0531 to U+0554, in
    the order of the source (rows of nine). *)
Definition armenian_symbols : list Z :=
  [ 0x531; 0x532; 0x533; 0x534; 0x535; 0x536; 0x537; 0x538; 0x539;
    0x53A; 0x53B; 0x53C; 0x53D; 0x53E; 0x53F; 0x540; 0x541; 0x542;
    0x543; 0x544; 0x545; 0x546; 0x547; 0x548; 0x549; 0x54A; 0x54B;
    0x54C; 0x54D; 0x54E; 0x54F; 0x550; 0x551; 0x552; 0x553; 0x554 ]%Z.

(** [enumerate(l)]. *)
Definition enumerate {A : Type} (l : list A) : list (Z * A) :=
  imap (fun i a => (Z.of_nat i, a)) l.

(** [{symbol: idx for idx, symbol in enumerate(self.armenian_symbols)}]: the
    pairs are inserted in order, a later one replacing an earlier one. *)
Definition symbol_to_id : gmap Z Z :=
  fold_left (fun m p => <[snd p := fst p]> m) (enumerate armenian_symbols) ∅.

(** [get_symbol_id]. *)
Definition get_symbol_id (symbol_text : pystr) : option Z :=
  match symbol_text with
  | [] => None
  | first_symbol :: _ => symbol_to_id !! first_symbol
  end.

(** The test ['\u0530' <= char <= '\u058F']. *)
Definition in_armenian_block (c : Z) : bool := (0x530 <=? c)%Z && (c <=? 0x58F)%Z.

(** [clean_armenian_text]. *)
Definition clean_armenian_text (text : pystr) : pystr :=
  match text with
  | [] => []
  | _ =>
      let cleaned := replace 0x0D [] (replace 0x0A [0x20%Z] (strip text)) in
      let cleaned := join [0x20%Z] (split cleaned) in
      let armenian_chars := List.filter in_armenian_block cleaned in
      strip armenian_chars
  end.

(** A numpy image: its [shape] is [(height, width)] or
    [(height, width, channels)]. *)
Record image : Type := {
  height : Z;
  width : Z;
  channels : option Z;
  pixels : list Z
}.

(** [image.size], the number of array elements. *)
Definition size (img : image) : Z :=
  (height img * width img * default 1 (channels img))%Z.

(** The Tesseract options built by [get_dynamic_config]
    ([--oem 1 --psm {psm} --dpi {dpi} -l hye]). *)
Record tesseract_config : Type := { psm : Z; dpi : Z }.

(** [get_dynamic_config]; unpacking a three-dimensional shape into
    [height, width] raises ValueError. *)
Definition get_dynamic_config (processed_image : image) : exc tesseract_config :=
  match channels processed_image with
  | Some _ => Raise ValueError
  | None =>
      let h := height processed_image in
      let w := width processed_image in
      let psm := if (100000 <? w * h)%Z then 6%Z
                 else if (20000 <? w * h)%Z then 8%Z else 10%Z in
      let dpi := Z.min 300 (Z.max 150 (Z.sqrt (w * h) / 20)) in
      Return {| psm := psm; dpi := dpi |}
  end.

(** The result dictionary; the last three keys are present only on some paths. *)
Record ocr_result : Type := {
  text : pystr;
  confidence : Q;
  symbol_id : option Z;
  raw_text : option pystr;
  word_confidences : option (list Z);
  error : option exn
}.

(** [{'text': '', 'confidence': 0.0, 'symbol_id': None}]. *)
Definition empty_result : ocr_result :=
  {| text := []; confidence := 0; symbol_id := None;
     raw_text := None; word_confidences := None; error := None |}.

(** [[int(conf) for conf in data['conf'] if int(conf) > 0]]; each cell is
    the outcome of [int(conf)]. *)
Fixpoint positive_confidences (cells : list (exc Z)) : exc (list Z) :=
  match cells with
  | [] => Return []
  | cell :: rest =>
      try! n := cell in
      try! tail := positive_confidences rest in
      Return (if (0 <? n)%Z then n :: tail else tail)
  end.

(** [np.mean] of a non-empty list of integers. *)
Definition mean (l : list Z) : Q :=
  (inject_Z (fold_right Z.add 0%Z l) / inject_Z (Z.of_nat (length l)))%Q.

(** The [pytesseract] module, when it could be imported. *)
Record engine : Type := {
  image_to_string : image -> tesseract_config -> exc pystr;
  image_to_data : image -> tesseract_config -> exc (list (exc Z))
}.

Section Recognizer.
(** [pytesseract] is [None] when the import failed. *)
Variable pytesseract : option engine.
(** The OpenCV stages of [preprocess_for_ocr]. *)
Variable preprocess_for_ocr : image -> exc image.

(** The body of the [try] block of [recognize_armenian_text]. *)
Definition recognize_body (image_region : option image) : exc ocr_result :=
  match pytesseract with
  | None => Return empty_result
  | Some tess =>
      match image_region with
      | None => Return empty_result
      | Some region =>
          if (size region =? 0)%Z then Return empty_result
          else
            try! processed := preprocess_for_ocr region in
            try! config := get_dynamic_config processed in
            try! text := image_to_string tess processed config in
            try! data := image_to_data tess processed config in
            try! confidences := positive_confidences data in
            let avg_confidence :=
              match confidences with [] => 0%Q | _ => mean confidences end in
            let cleaned_text := clean_armenian_text text in
            let symbol_id := get_symbol_id cleaned_text in
            Return {| text := cleaned_text;
                      confidence := (avg_confidence / 100.0)%Q;
                      symbol_id := symbol_id;
                      raw_text := Some text;
                      word_confidences := Some confidences;
                      error := None |}
      end
  end.

(** [recognize_armenian_text]: the [except Exception] clause returns the
    empty result with the key ['error'] added. *)
Definition recognize_armenian_text (image_region : option image) : exc ocr_result :=
  try_except (recognize_body image_region)
    (fun e => {| text := []; confidence := 0; symbol_id := None;
                 raw_text := None; word_confidences := None; error := Some e |}).

End Recognizer.

End OCR.

(* --------------------------------------------------------------------- *)
(** ** vision_module/symbol_detector.py: [extract_symbol_region]         *)
(* --------------------------------------------------------------------- *)

Module Region.
Import Py OCR.

(** A slice index brought into [0, n] the way Python does it: a negative
    index counts from the end, and the result is clipped. *)
Definition slice_index (n i : Z) : Z :=
  if (i <? 0)%Z then Z.max (i + n) 0 else Z.min i n.

(** The first and the past-the-end position of [a[start:stop]] in a sequence
    of length [n]. *)
Definition slice_bounds (n start stop : Z) : Z * Z :=
  let a := slice_index n start in
  let b := slice_index n stop in
  (a, Z.max a b).

(** [l[start:stop]]. *)
Definition slice {A : Type} (l : list A) (start stop : Z) : list A :=
  let '(a, b) := slice_bounds (Z.of_nat (length l)) start stop in
  take (Z.to_nat (b - a)) (drop (Z.to_nat a) l).

(** The [n] rows of [row_len] elements of an array stored row by row. *)
Fixpoint rows_of {A : Type} (row_len n : nat) (l : list A) : list (list A) :=
  match n with
  | O => []
  | S n' => take row_len l :: rows_of row_len n' (drop row_len l)
  end.

(** [img[y1:y2, x1:x2]] on a numpy image. *)
Definition crop (img : image) (y1 y2 x1 x2 : Z) : image :=
  let c := default 1%Z (channels img) in
  let '(ya, yb) := slice_bounds (height img) y1 y2 in
  let '(xa, xb) := slice_bounds (width img) x1 x2 in
  let rows :=
    rows_of (Z.to_nat (width img * c)) (Z.to_nat (height img)) (pixels img) in
  {| height := yb - ya;
     width := xb - xa;
     channels := channels img;
     pixels := concat (map (fun row => slice row (xa * c) (xb * c))
                         (slice rows ya yb)) |}.

(** [extract_symbol_region]; [frame.shape[1]] is the width and
    [frame.shape[0]] the height. *)
Definition extract_symbol_region (frame : image) (d : Detector.detection) : image :=
  let '(x, y, w, h) := Detector.bbox d in
  let padding := 15%Z in
  let x1 := Z.max 0 (x - padding) in
  let y1 := Z.max 0 (y - padding) in
  let x2 := Z.min (width frame) (x + w + padding) in
  let y2 := Z.min (height frame) (y + h + padding) in
  crop frame y1 y2 x1 x2.

(** An array whose element list has the length its shape announces. *)
Definition well_shaped (img : image) : Prop :=
  (0 <= height img)%Z /\ (0 <= width img)%Z /\ (0 < default 1 (channels img))%Z /\
  Z.of_nat (length (pixels img)) = size img.

End Region.

(* --------------------------------------------------------------------- *)
(** ** data_module/excel_logger.py                                        *)
(* --------------------------------------------------------------------- *)

Module Logger.
Import Py.

(** A row of the workbook (the dictionary [detection_data]). *)
Record detection_data : Type := {
  Timestamp : string;
  Symbol : pystr;
  Symbol_ID : option Z;
  Confidence : float;
  GPS_Lat : float;
  GPS_Lon : float;
  GPS_Alt : float;
  Image_Path : string;
  Detection_X : Z;
  Detection_Y : Z;
  Detection_W : Z;
  Detection_H : Z
}.

(** A line [symbol_id,lat_e7,lon_e7] of the coordinate file. *)
Record competition_entry : Type := {
  symbol_id : Z;
  lat_e7 : Z;
  lon_e7 : Z
}.

(** The records written through [self.logger]. *)
Inductive log_record : Type :=
| FlushedExcel (n : nat)
| FlushedCsv (n : nat)
| LoggedDetection
| LoggedError (e : exn).

(** The logger object together with the two files it owns: the rows of the
    flight workbook and the lines of the coordinate file. *)
Record logger : Type := {
  data_buffer : list detection_data;
  csv_buffer : list competition_entry;
  current_flight_file : list detection_data;
  competition_csv_file : list competition_entry;
  log : list log_record
}.

(** [__init__]: empty buffers, a workbook with the header only and an empty
    coordinate file. *)
Definition init : logger :=
  {| data_buffer := []; csv_buffer := [];
     current_flight_file := []; competition_csv_file := []; log := [] |}.

(** How [DataFrame.to_excel] leaves the workbook when it raises: as it was
    (the exception comes before the file is opened), emptied (the file is
    opened for writing before the sheet is built), or complete (the
    exception comes after the data reached the file). *)
Inductive damage : Type :=
| Untouched
| Truncated
| Completed.

(** How [DataFrame.to_excel] ends. *)
Inductive write_outcome : Type :=
| Written
| WriteFailed (after : damage).

(** How the [with open(..., 'a')] block ends: every line written, or an
    exception after the first [written] lines of the buffer reached the
    file. *)
Inductive append_outcome : Type :=
| Appended
| AppendFailed (written : nat).

(** What the file system does during one flush: whether [pd.read_excel]
    returns the rows of the workbook, and how the write and the append end. *)
Record io_outcome : Type := {
  read_ok : bool;
  write : write_outcome;
  append : append_outcome
}.

Definition write_ok (io : io_outcome) : bool :=
  match write io with
  | Written => true
  | WriteFailed _ => false
  end.

Definition append_ok (io : io_outcome) : bool :=
  match append io with
  | Appended => true
  | AppendFailed _ => false
  end.

Definition io_error : exn := LibraryError "OSError".

Definition emit (r : log_record) (s : logger) : logger :=
  {| data_buffer := data_buffer s; csv_buffer := csv_buffer s;
     current_flight_file := current_flight_file s;
     competition_csv_file := competition_csv_file s;
     log := log s ++ [r] |}.

(** [flush_to_excel].  A workbook that was emptied by a failed write cannot
    be read back; like every failed read this gives the empty frame. *)
Definition flush_to_excel (io : io_outcome) (s : logger) : logger :=
  match data_buffer s with
  | [] => s
  | _ =>
      let existing_df := if read_ok io then current_flight_file s else [] in
      let combined_df := existing_df ++ data_buffer s in
      match write io with
      | Written =>
          {| data_buffer := [];
             csv_buffer := csv_buffer s;
             current_flight_file := combined_df;
             competition_csv_file := competition_csv_file s;
             log := log s ++ [FlushedExcel (length (data_buffer s))] |}
      | WriteFailed after =>
          {| data_buffer := data_buffer s;
             csv_buffer := csv_buffer s;
             current_flight_file :=
               match after with
               | Untouched => current_flight_file s
               | Truncated => []
               | Completed => combined_df
               end;
             competition_csv_file := competition_csv_file s;
             log := log s ++ [LoggedError io_error] |}
      end
  end.

(** [flush_to_competition_csv]. *)
Definition flush_to_competition_csv (io : io_outcome) (s : logger) : logger :=
  match csv_buffer s with
  | [] => s
  | _ =>
      match append io with
      | Appended =>
          {| data_buffer := data_buffer s;
             csv_buffer := [];
             current_flight_file := current_flight_file s;
             competition_csv_file := competition_csv_file s ++ csv_buffer s;
             log := log s ++ [FlushedCsv (length (csv_buffer s))] |}
      | AppendFailed written =>
          {| data_buffer := data_buffer s;
             csv_buffer := csv_buffer s;
             current_flight_file := current_flight_file s;
             competition_csv_file :=
               competition_csv_file s ++ take written (csv_buffer s);
             log := log s ++ [LoggedError io_error] |}
      end
  end.

(** The arguments of one call of [log_detection]. *)
Record call : Type := {
  symbol : pystr;
  confidence : float;
  gps_lat : float;
  gps_lon : float;
  gps_alt : float;
  timestamp : float;
  image_path : string;
  detection_bbox : Z * Z * Z * Z;
  arg_symbol_id : option Z
}.

Definition append_row (row : detection_data) (s : logger) : logger :=
  {| data_buffer := data_buffer s ++ [row]; csv_buffer := csv_buffer s;
     current_flight_file := current_flight_file s;
     competition_csv_file := competition_csv_file s; log := log s |}.

Definition append_entry (entry : competition_entry) (s : logger) : logger :=
  {| data_buffer := data_buffer s; csv_buffer := csv_buffer s ++ [entry];
     current_flight_file := current_flight_file s;
     competition_csv_file := competition_csv_file s; log := log s |}.

Section LogDetection.
(** [datetime.fromtimestamp(t).strftime('%Y-%m-%d %H:%M:%S.%f')[:-3]], which
    raises for a timestamp outside the platform's range. *)
Variable format_timestamp : float -> exc string.

(** The dictionary [detection_data] built from the arguments. *)
Definition make_row (ts : string) (c : call) : detection_data :=
  let '(x, y, w, h) := detection_bbox c in
  {| Timestamp := ts;
     Symbol := symbol c;
     Symbol_ID := arg_symbol_id c;
     Confidence := GPS.py_round_ndigits (confidence c) 3;
     GPS_Lat := GPS.py_round_ndigits (gps_lat c) 8;
     GPS_Lon := GPS.py_round_ndigits (gps_lon c) 8;
     GPS_Alt := GPS.py_round_ndigits (gps_alt c) 2;
     Image_Path := image_path c;
     Detection_X := x; Detection_Y := y; Detection_W := w; Detection_H := h |}.

(** The part of [log_detection] after the [with] block: the periodic flush
    and the final log line. *)
Definition after_append (io : io_outcome) (s : logger) : logger :=
  let s' :=
    if (5 <=? length (data_buffer s))%nat
    then flush_to_competition_csv io (flush_to_excel io s)
    else s in
  emit LoggedDetection s'.

(** [log_detection].  An exception raised while the row is built leaves the
    buffers as they were; one raised by [format_for_competition] leaves the
    row in [data_buffer] and skips the flush test.  Either is logged. *)
Definition log_detection (io : io_outcome) (c : call) (s : logger) : logger :=
  match format_timestamp (timestamp c) with
  | Raise e => emit (LoggedError e) s
  | Return ts =>
      let s1 := append_row (make_row ts c) s in
      match arg_symbol_id c with
      | None => after_append io s1
      | Some id =>
          match GPS.format_for_competition (gps_lat c) (gps_lon c) with
          | Raise e => emit (LoggedError e) s1
          | Return (lat_e7, lon_e7) =>
              after_append io
                (append_entry {| symbol_id := id; lat_e7 := lat_e7; lon_e7 := lon_e7 |} s1)
          end
      end
  end.

(** A sequence of calls, each with the behaviour of the file system during it. *)
Fixpoint log_detections (calls : list (io_outcome * call)) (s : logger) : logger :=
  match calls with
  | [] => s
  | (io, c) :: rest => log_detections rest (log_detection io c s)
  end.

(** [close]: both flushes; [create_summary_report] writes only the summary
    file and is left out. *)
Definition close (io : io_outcome) (s : logger) : logger :=
  flush_to_competition_csv io (flush_to_excel io s).

(** A call in which no exception is raised. *)
Definition call_succeeds (c : call) : bool :=
  match format_timestamp (timestamp c) with
  | Raise _ => false
  | Return _ =>
      match arg_symbol_id c with
      | None => true
      | Some _ =>
          match GPS.format_for_competition (gps_lat c) (gps_lon c) with
          | Raise _ => false
          | Return _ => true
          end
      end
  end.

(** The rows and the coordinate entries that a sequence of calls records. *)
Definition recorded_rows (calls : list (io_outcome * call)) : list detection_data :=
  flat_map (fun p => match format_timestamp (timestamp (snd p)) with
                     | Return ts => [make_row ts (snd p)]
                     | Raise _ => []
                     end) calls.

Definition recorded_entries (calls : list (io_outcome * call))
    : list competition_entry :=
  flat_map (fun p =>
              match format_timestamp (timestamp (snd p)), arg_symbol_id (snd p) with
              | Return _, Some id =>
                  match GPS.format_for_competition (gps_lat (snd p)) (gps_lon (snd p)) with
                  | Return (lat_e7, lon_e7) =>
                      [{| symbol_id := id; lat_e7 := lat_e7; lon_e7 := lon_e7 |}]
                  | Raise _ => []
                  end
              | _, _ => []
              end) calls.

End LogDetection.

Definition io_succeeds (io : io_outcome) : bool :=
  read_ok io && write_ok io && append_ok io.

(** No operation fails after it has changed its file. *)
Definition fails_cleanly (io : io_outcome) : bool :=
  match write io with
  | Written | WriteFailed Untouched => true
  | WriteFailed _ => false
  end
  && match append io with
     | Appended | AppendFailed O => true
     | AppendFailed (S _) => false
     end.

(** The number of workbook flushes recorded in the log. *)
Definition excel_flushes (s : logger) : nat :=
  length (List.filter (fun r => match r with FlushedExcel _ => true | _ => false end)
            (log s)).

End Logger.

(* --------------------------------------------------------------------- *)
(** ** vision_module/camera_handler.py                                    *)
(* --------------------------------------------------------------------- *)

Module Camera.
Import Py.

Section Capture.
Context {frame : Type}.
(** The camera section of the configuration, as far as the flags go. *)
Variable config : gmap string bool.
(** [self.camera.read()], and the two OpenCV stages of the preprocessing. *)
Variable read : exc (bool * frame).
Variable auto_exposure_correction : frame -> exc frame.
Variable enhance_sharpness : frame -> exc frame.

(** [self.config.get(key, True)]. *)
Definition flag (key : string) : bool := default true (config !! key).

(** [preprocess_frame]: the [except] clause returns the variable [frame] as
    it is when the exception arrives. *)
Definition preprocess_frame (fr : frame) : frame :=
  match (if flag "auto_exposure" then auto_exposure_correction fr else Return fr) with
  | Raise _ => fr
  | Return exposed =>
      match (if flag "enhance_sharpness" then enhance_sharpness exposed
             else Return exposed) with
      | Raise _ => exposed
      | Return sharpened => sharpened
      end
  end.

(** [capture_frame]: [None] when the read fails or anything raises. *)
Definition capture_frame : option frame :=
  match read with
  | Raise _ => None
  | Return (ret, fr) =>
      if negb ret then None
      else if flag "apply_preprocessing" then Some (preprocess_frame fr)
      else Some fr
  end.

End Capture.

End Camera.

(* --------------------------------------------------------------------- *)
(** ** utils/config.py                                                    *)
(* --------------------------------------------------------------------- *)

Module Config.
Import Py.

(** The values [json.load] can return. *)
#[local] Unset Elimination Schemes.
Inductive json : Type :=
| JNull
| JBool (b : bool)
| JInt (n : Z)
| JFloat (q : Q)
| JStr (s : string)
| JList (l : list json)
| JObj (m : gmap string json).
#[local] Set Elimination Schemes.

(** [get_default_config]. *)
Definition get_default_config : json :=
  JObj (<["camera_config" :=
            JObj (<["device_id" := JInt 0]>
                 (<["width" := JInt 1920]>
                 (<["height" := JInt 1080]>
                 (<["fps" := JInt 30]>
                 (<["auto_focus" := JBool true]>
                 (<["focus" := JInt 50]>
                 (<["apply_preprocessing" := JBool true]>
                 (<["auto_exposure" := JBool true]>
                 (<["enhance_sharpness" := JBool true]> ∅)))))))))]>
       (<["detection_config" :=
            JObj (<["min_symbol_area" := JInt 2000]>
                 (<["max_symbol_area" := JInt 100000]> ∅))]>
       (<["ocr_config" :=
            JObj (<["model_name" := JStr "hye"]>
                 (<["fallback_model" := JStr "hye"]>
                 (<["engine_mode" := JInt 1]>
                 (<["psm_mode" := JInt 8]> ∅))))]>
       (<["mavlink_config" :=
            JObj (<["connection_string" := JStr "/dev/ttyUSB0"]>
                 (<["baud_rate" := JInt 57600]> ∅))]>
       (<["system_config" :=
            JObj (<["target_fps" := JInt 3]>
                 (<["min_confidence" := JFloat 0.8]>
                 (<["max_processing_queue" := JInt 20]>
                 (<["competition_mode" := JBool true]>
                 (<["symbol_size_meters" := JFloat 3.0]>
                 (<["max_altitude_m" := JInt 150]>
                 (<["optimal_altitude_m" := JInt 85]> ∅)))))))]> ∅))))).

(** What [load_config] leaves: [self.config], and whether [save_config]
    was called. *)
Record loaded_config : Type := {
  config : json;
  saved : bool
}.

(** [load_config]; [path_exists] is the outcome of [self.config_path.exists()]
    and [loaded] that of opening the file and [json.load]. *)
Definition load_config (path_exists : exc bool) (loaded : exc json) : loaded_config :=
  match path_exists with
  | Return true =>
      match loaded with
      | Return j => {| config := j; saved := false |}
      | Raise _ => {| config := get_default_config; saved := false |}
      end
  | Return false => {| config := get_default_config; saved := true |}
  | Raise _ => {| config := get_default_config; saved := false |}
  end.

(** The outcome of a subscription [d[key]]. *)
Inductive result : Type :=
| Found (v : json)
| KeyError (key : string)
| NotSubscriptable.

(** [d[key]] for a string [key]: only a dictionary can be indexed by one. *)
Definition getitem (d : json) (key : string) : result :=
  match d with
  | JObj m =>
      match m !! key with
      | Some v => Found v
      | None => KeyError key
      end
  | _ => NotSubscriptable
  end.

Definition getitem2 (d : json) (section key : string) : result :=
  match getitem d section with
  | Found s => getitem s key
  | other => other
  end.

(** The properties of [Config]. *)
Definition camera_config (c : json) : result := getitem c "camera_config".
Definition detection_config (c : json) : result := getitem c "detection_config".
Definition ocr_config (c : json) : result := getitem c "ocr_config".
Definition mavlink_config (c : json) : result := getitem c "mavlink_config".
Definition target_fps (c : json) : result := getitem2 c "system_config" "target_fps".
Definition min_confidence (c : json) : result :=
  getitem2 c "system_config" "min_confidence".

End Config.

(* --------------------------------------------------------------------- *)
(** ** main_controller.py                                                 *)
(* --------------------------------------------------------------------- *)

Module Controller.
Import Py.

(** *** [wait_for_flight_controller] *)

(** What one pass through the [try] block does: [connect()] returns [True],
    returns [False], or something raises. *)
Inductive attempt : Type :=
| Connected
| Refused
| Failed (e : exn).

(** What the call leaves behind: its result, [self.status], the final value
    of [retry_count] and the seconds spent in [time.sleep(5)]. *)
Record wait_result : Type := {
  fc_connected : bool;
  fc_status : string;
  fc_retry_count : nat;
  fc_slept : Z
}.

Section WaitForFlightController.
(** [self.running] as the loop test reads it when [retry_count] is [i], and
    the outcome of the attempt made then. *)
Variable running : nat -> bool.
Variable attempts : nat -> attempt.

Definition max_retries : nat := 60.

(** The [while] loop; [remaining] is [max_retries - retry_count]. *)
Fixpoint wait_loop (remaining retry_count : nat) : bool * nat :=
  match remaining with
  | O => (false, retry_count)
  | S remaining' =>
      if running retry_count
      then match attempts retry_count with
           | Connected => (true, retry_count)
           | _ => wait_loop remaining' (S retry_count)
           end
      else (false, retry_count)
  end.

Definition wait_for_flight_controller : wait_result :=
  let '(ok, n) := wait_loop max_retries 0 in
  {| fc_connected := ok;
     fc_status := if ok then "ready" else "error";
     fc_retry_count := n;
     fc_slept := 5 * Z.of_nat n |}.

End WaitForFlightController.

(** *** The capture loop of [main_loop] *)

(** A Python number: an [int] (a [bool] counts as 0 or 1) or a [float]. *)
Inductive number : Type :=
| IntValue (n : Z)
| FloatValue (x : float).

(** [1.0 / fps]: a zero divisor raises ZeroDivisionError; an [int] is first
    converted to the nearest float, which raises OverflowError when it lies
    beyond the floats; the quotient of floats never raises. *)
Definition true_div_one (fps : number) : exc float :=
  match fps with
  | IntValue n =>
      if (n =? 0)%Z then Raise ZeroDivisionError
      else
        let d := GPS.float_of_Z n in
        if PrimFloat.is_infinity d then Raise OverflowError
        else Return (1 / d)%float
  | FloatValue x =>
      if PrimFloat.is_zero x then Raise ZeroDivisionError
      else Return (1 / x)%float
  end.

(** [time.sleep(secs)] on a float: ValueError for NaN, OverflowError for a
    duration that the clock type of the platform cannot hold (a bound that
    depends on the interpreter, given by [overflows]), ValueError for a
    negative duration. *)
Definition time_sleep (overflows : float -> bool) (secs : float) : exc unit :=
  if PrimFloat.is_nan secs then Raise ValueError
  else if overflows secs then Raise OverflowError
  else if (secs <? 0)%float then Raise ValueError
  else Return tt.

Section MainLoop.
Context {frame : Type}.

(** An element of [self.processing_queue]: [(frame, timestamp, gps_data)]. *)
Definition item : Type := frame * Q * Telemetry.gps_data.

(** [queue.Queue(maxsize=20)]. *)
Definition maxsize : nat := 20.

(** [put_nowait]: raises [queue.Full] when the queue holds [maxsize] items. *)
Definition put_nowait (x : item) (q : list item) : exc (list item) :=
  if (maxsize <=? length q)%nat then Raise (LibraryError "queue.Full")
  else Return (q ++ [x]).

(** The calls of one iteration that act on the outside world. *)
Inductive effect : Type :=
| WaitForFlightController
| Sleep (seconds : float)
| SetStatusLed (status : string)
| CaptureFrame
| WarnDropped
| LogStatus.

(** The variables of the loop. *)
Record loop_state : Type := {
  processing_queue : list item;
  frame_count : nat;
  last_status_time : Q
}.

(** What the collaborators answer during one iteration: [time.time()],
    [is_connected()], the result of [wait_for_flight_controller()] if it is
    called, the telemetry store and the clock inside [get_current_gps()],
    [is_armed()], [capture_frame()], [self.config.target_fps] (an exception
    when the key is missing or the value is not a number, so that the
    division raises TypeError) and the range test of [time.sleep]. *)
Record answers : Type := {
  current_time : Q;
  is_connected : bool;
  reconnected : bool;
  gps_clock : Q;
  telemetry : Telemetry.store;
  is_armed : Telemetry.false_or_int;
  captured : option frame;
  target_fps : exc number;
  sleep_overflows : float -> bool
}.

(** How an iteration ends: the loop goes on, or it is left (by [break] or
    by an exception caught outside the loop). *)
Inductive ending : Type :=
| Continue
| Leave.

(** The end of an iteration that captured a frame:
    [time.sleep(1.0 / self.config.target_fps)].  Any exception leaves the
    loop. *)
Definition pace (a : answers) : ending * list effect :=
  match target_fps a with
  | Raise _ => (Leave, [])
  | Return fps =>
      match true_div_one fps with
      | Raise _ => (Leave, [])
      | Return secs =>
          match time_sleep (sleep_overflows a) secs with
          | Raise _ => (Leave, [])
          | Return _ => (Continue, [Sleep secs])
          end
      end
  end.

(** One iteration of the [while self.running] loop. *)
Definition iteration (a : answers) (s : loop_state)
    : ending * loop_state * list effect :=
  let reconnect := if is_connected a then [] else [WaitForFlightController] in
  if negb (is_connected a) && negb (reconnected a)
  then (Leave, s, reconnect)
  else
    let gps_data := Telemetry.get_current_gps (gps_clock a) (telemetry a) in
    match gps_data with
    | None => (Continue, s, reconnect ++ [Sleep 0.5%float])
    | Some gps =>
        if negb (Telemetry.main_loop_gps_ready gps_data)
        then (Continue, s, reconnect ++ [Sleep 0.5%float])
        else if negb (Telemetry.truthy (is_armed a))
        then (Continue, s, reconnect ++ [Sleep 1%float])
        else
          match captured a with
          | None =>
              (Continue, s, reconnect ++ [SetStatusLed "active"; CaptureFrame])
          | Some fr =>
              let '(q, dropped) :=
                match put_nowait (fr, current_time a, gps) (processing_queue s) with
                | Return q => (q, [])
                | Raise _ => (processing_queue s, [WarnDropped])
                end in
              let report := Qltb 30 (current_time a - last_status_time s) in
              let s' :=
                {| processing_queue := q;
                   frame_count := S (frame_count s);
                   last_status_time :=
                     if report then current_time a else last_status_time s |} in
              let '(e, slept) := pace a in
              (e, s',
               reconnect ++ [SetStatusLed "active"; CaptureFrame] ++ dropped
                 ++ (if report then [LogStatus] else []) ++ slept)
          end
    end.

(** The worker's [self.processing_queue.get(timeout=1)]: the oldest item,
    if there is one. *)
Definition worker_get (s : loop_state) : option item * loop_state :=
  match processing_queue s with
  | [] => (None, s)
  | x :: rest =>
      (Some x, {| processing_queue := rest; frame_count := frame_count s;
                  last_status_time := last_status_time s |})
  end.

(** An interleaving of the two threads: iterations of the capture loop and
    reads of the worker. *)
Inductive event : Type :=
| Iterate (a : answers)
| WorkerGet.

(** The system while the loop runs ([true]) or after it was left ([false]). *)
Fixpoint run (events : list event) (looping : bool) (s : loop_state)
    : bool * loop_state :=
  match events with
  | [] => (looping, s)
  | Iterate a :: rest =>
      if looping
      then match iteration a s with
           | (Continue, s', _) => run rest true s'
           | (Leave, s', _) => run rest false s'
           end
      else run rest false s
  | WorkerGet :: rest => run rest looping (snd (worker_get s))
  end.

(** The state before the first iteration; [start] is the [time.time()] read
    just before the loop. *)
Definition initial (start : Q) : loop_state :=
  {| processing_queue := []; frame_count := 0; last_status_time := start |}.

End MainLoop.

(** *** [graceful_shutdown] *)

(** What the call leaves behind: [self.running], the data logger, and
    whether [sys.exit(0)] was reached. *)
Record shutdown_result : Type := {
  still_running : bool;
  data_logger : option Logger.logger;
  exited : bool
}.

(** [graceful_shutdown]; [camera_close] and [mavlink_close] are [None] when
    the component was never built and otherwise what its [close()] does;
    [io] is what the file system does during the logger's [close()]. *)
Definition graceful_shutdown (running : bool)
    (camera_close mavlink_close : option (exc unit))
    (logger : option Logger.logger) (io : Logger.io_outcome) : shutdown_result :=
  if negb running
  then {| still_running := running; data_logger := logger; exited := false |}
  else
    let closing : exc (option Logger.logger) :=
      try! _ := default (Return tt) camera_close in
      try! _ := default (Return tt) mavlink_close in
      Return (option_map (Logger.close io) logger) in
    {| still_running := false;
       data_logger := match closing with
                      | Return closed => closed
                      | Raise _ => logger
                      end;
       exited := true |}.

(** *** [process_single_frame] *)

(** The arguments of one call of [self.logger.log_detection]. *)
Record logged : Type := {
  symbol : pystr;
  confidence : Q;
  gps_lat : Q;
  gps_lon : Q;
  gps_alt : Q;
  timestamp : Q;
  image_path : string;
  detection_bbox : Z * Z * Z * Z;
  symbol_id : option Z
}.

Section ProcessSingleFrame.
(** The detector and the OpenCV stages of its pipeline. *)
Variable detector : Detector.detector.
Variable preprocess_for_detection : OCR.image -> exc OCR.image.
Variable find_symbol_contours : OCR.image -> exc (list Detector.contour).
(** The OCR engine and the OpenCV stages of its preprocessing. *)
Variable pytesseract : option OCR.engine.
Variable preprocess_for_ocr : OCR.image -> exc OCR.image.
(** [self.config.min_confidence]. *)
Variable min_confidence : exc Q.
(** [save_detection_image] applied to the region and to the file name built
    from the timestamp and the index; it returns a path, or [""] on failure. *)
Variable save_detection_image : OCR.image -> Q -> nat -> string.

(** The body of the [for] loop for the candidate number [i]: the calls of
    [log_detection] it makes (none when something raises). *)
Definition process_detection (frame : OCR.image) (ts : Q)
    (gps_data : Telemetry.gps_data) (i : nat) (detection : Detector.detection)
    : list logged :=
  let symbol_region := Region.extract_symbol_region frame detection in
  match OCR.recognize_armenian_text pytesseract preprocess_for_ocr
          (Some symbol_region) with
  | Raise _ => []
  | Return ocr_result =>
      match min_confidence with
      | Raise _ => []
      | Return threshold =>
          if Qltb threshold (OCR.confidence ocr_result)
          then [ {| symbol := OCR.text ocr_result;
                    confidence := OCR.confidence ocr_result;
                    gps_lat := Telemetry.lat gps_data;
                    gps_lon := Telemetry.lon gps_data;
                    gps_alt := Telemetry.alt gps_data;
                    timestamp := ts;
                    image_path := save_detection_image symbol_region ts i;
                    detection_bbox := Detector.bbox detection;
                    symbol_id := OCR.symbol_id ocr_result |} ]
          else []
      end
  end.

(** [process_single_frame], as the list of the calls of [log_detection] it
    makes, in order. *)
Definition process_single_frame (frame : OCR.image) (ts : Q)
    (gps_data : option Telemetry.gps_data) : list logged :=
  if negb (GPS.validate_gps_data gps_data) then []
  else
    match gps_data with
    | None => []
    | Some gps =>
        match Detector.detect_symbols preprocess_for_detection
                find_symbol_contours detector frame with
        | Raise _ => []
        | Return detections =>
            concat (imap (process_detection frame ts gps) detections)
        end
    end.

End ProcessSingleFrame.

End Controller.

(* ===================================================================== *)
(** * Part II: the properties                                             *)
(* ===================================================================== *)

Section PyFacts.
Import Py.

Lemma Qltb_lt (x y : Q) : Qltb x y = true <-> (x < y)%Q.
Proof.
  unfold Qltb. rewrite negb_true_iff. split.
  - intros H. apply Qnot_le_lt. intros Hle.
    apply Qle_bool_iff in Hle. congruence.
  - intros H. destruct (Qle_bool y x) eqn:E; [|reflexivity].
    apply Qle_bool_iff in E. exfalso. exact (Qlt_not_le _ _ H E).
Qed.

Lemma Qltb_ge (x y : Q) : Qltb x y = false <-> (y <= x)%Q.
Proof.
  unfold Qltb. rewrite negb_false_iff. apply Qle_bool_iff.
Qed.

Lemma Qltb_irrefl_eq (x y c : Q) :
  Qltb x y = true -> Qeq_bool x c = true -> Qeq_bool y c = true -> False.
Proof.
  intros Hlt Hx Hy. apply Qltb_lt in Hlt.
  apply Qeq_bool_iff in Hx, Hy. rewrite Hx, Hy in Hlt.
  exact (Qlt_irrefl _ Hlt).
Qed.

Section SortFacts.
Context {A : Type} (key : A -> Q).

Definition key_le (a b : A) : Prop := (key a <= key b)%Q.
Definition key_ge (a b : A) : Prop := (key b <= key a)%Q.
Definition same_key (c : Q) (a : A) : bool := Qeq_bool (key a) c.

Lemma insert_stable_perm (x : A) (l : list A) :
  Permutation (insert_stable key x l) (x :: l).
Proof.
  induction l as [|y l IH]; simpl.
  - apply Permutation_refl.
  - destruct (Qltb (key y) (key x)).
    + eapply perm_trans; [apply perm_skip, IH | apply perm_swap].
    + apply Permutation_refl.
Qed.

Lemma sort_stable_perm (l : list A) : Permutation (sort_stable key l) l.
Proof.
  induction l as [|x l IH]; simpl.
  - apply perm_nil.
  - eapply perm_trans; [apply insert_stable_perm | apply perm_skip, IH].
Qed.

Lemma insert_stable_sorted (x : A) (l : list A) :
  StronglySorted key_le l -> StronglySorted key_le (insert_stable key x l).
Proof.
  induction l as [|y l IH]; intros Hs; simpl.
  - constructor; constructor.
  - inversion Hs as [|? ? Hs' Hall]; subst.
    destruct (Qltb (key y) (key x)) eqn:E.
    + constructor; [apply IH, Hs'|].
      eapply Permutation_Forall; [apply Permutation_sym, insert_stable_perm|].
      constructor; [|exact Hall].
      apply Qltb_lt in E. apply Qlt_le_weak, E.
    + apply Qltb_ge in E. constructor; [exact Hs|].
      constructor; [exact E|].
      eapply List.Forall_impl; [|exact Hall].
      intros z Hz. unfold key_le in *. eapply Qle_trans; eassumption.
Qed.

Lemma sort_stable_sorted (l : list A) : StronglySorted key_le (sort_stable key l).
Proof.
  induction l as [|x l IH]; simpl.
  - constructor.
  - apply insert_stable_sorted, IH.
Qed.

Lemma insert_stable_filter (c : Q) (x : A) (l : list A) :
  List.filter (same_key c) (insert_stable key x l)
  = List.filter (same_key c) (x :: l).
Proof.
  induction l as [|y l IH]; [reflexivity|].
  cbn [insert_stable]. destruct (Qltb (key y) (key x)) eqn:E; [|reflexivity].
  cbn [List.filter] in *. rewrite IH.
  destruct (same_key c y) eqn:Ey, (same_key c x) eqn:Ex; try reflexivity.
  exfalso. exact (Qltb_irrefl_eq _ _ _ E Ey Ex).
Qed.

Lemma sort_stable_filter (c : Q) (l : list A) :
  List.filter (same_key c) (sort_stable key l) = List.filter (same_key c) l.
Proof.
  induction l as [|x l IH]; [reflexivity|].
  cbn [sort_stable]. rewrite insert_stable_filter.
  cbn [List.filter]. now rewrite IH.
Qed.

Lemma StronglySorted_snoc (R : A -> A -> Prop) (l : list A) (a : A) :
  StronglySorted R l -> Forall (fun y => R y a) l -> StronglySorted R (l ++ [a]).
Proof.
  induction 1 as [|y l Hs IH Hall]; intros Ha; simpl.
  - constructor; constructor.
  - inversion Ha; subst. constructor; [now apply IH|].
    apply Forall_app. split; [exact Hall | now constructor].
Qed.

Lemma StronglySorted_rev (R : A -> A -> Prop) (l : list A) :
  StronglySorted R l -> StronglySorted (fun a b => R b a) (rev l).
Proof.
  induction 1 as [|y l Hs IH Hall]; simpl.
  - constructor.
  - apply StronglySorted_snoc; [exact IH|].
    apply Forall_rev, Hall.
Qed.

(** The three facts about [l.sort(key=..., reverse=True)]. *)
Lemma py_sort_reverse_perm (l : list A) : Permutation (py_sort key true l) l.
Proof.
  unfold py_sort.
  eapply perm_trans; [apply Permutation_sym, Permutation_rev|].
  eapply perm_trans; [apply sort_stable_perm|].
  apply Permutation_sym, Permutation_rev.
Qed.

Lemma py_sort_reverse_sorted (l : list A) :
  StronglySorted key_ge (py_sort key true l).
Proof.
  unfold py_sort. apply (StronglySorted_rev key_le), sort_stable_sorted.
Qed.

Lemma filter_rev_bool (f : A -> bool) (l : list A) :
  List.filter f (rev l) = rev (List.filter f l).
Proof.
  induction l as [|x l IH]; [reflexivity|].
  simpl. rewrite List.filter_app, IH. simpl.
  destruct (f x); simpl; [reflexivity | now rewrite app_nil_r].
Qed.

Lemma py_sort_reverse_stable (c : Q) (l : list A) :
  List.filter (same_key c) (py_sort key true l) = List.filter (same_key c) l.
Proof.
  unfold py_sort.
  rewrite filter_rev_bool, sort_stable_filter, filter_rev_bool.
  apply rev_involutive.
Qed.

End SortFacts.

Section StringFacts.
(** A class of characters that holds no whitespace. *)
Variable P : Z -> bool.
Hypothesis P_not_space : forall c, P c = true -> is_space c = false.

Lemma P_space_false (c : Z) : is_space c = true -> P c = false.
Proof.
  intros H. destruct (P c) eqn:E; [|reflexivity].
  apply P_not_space in E. congruence.
Qed.

Lemma filter_lstrip (s : pystr) : List.filter P (lstrip s) = List.filter P s.
Proof.
  induction s as [|c s IH]; [reflexivity|].
  simpl. destruct (is_space c) eqn:E; [|reflexivity].
  now rewrite (P_space_false c E).
Qed.

Lemma filter_strip (s : pystr) : List.filter P (strip s) = List.filter P s.
Proof.
  unfold strip, rstrip.
  now rewrite filter_lstrip, filter_rev_bool, filter_lstrip, filter_rev_bool,
    rev_involutive.
Qed.

Lemma filter_replace (old : Z) (new s : pystr) :
  P old = false -> List.filter P new = [] ->
  List.filter P (replace old new s) = List.filter P s.
Proof.
  intros Hold Hnew. induction s as [|c s IH]; [reflexivity|].
  unfold replace in *. simpl. rewrite List.filter_app, IH.
  destruct (Z.eqb_spec c old) as [-> | Hne].
  - now rewrite Hnew, Hold.
  - simpl. now destruct (P c).
Qed.

Lemma filter_join_cons (sep x : pystr) (rest : list pystr) :
  List.filter P sep = [] ->
  List.filter P (join sep (x :: rest))
  = List.filter P x ++ List.filter P (join sep rest).
Proof.
  intros Hsep. destruct rest as [|y rest]; simpl.
  - now rewrite app_nil_r.
  - now rewrite !List.filter_app, Hsep.
Qed.

Lemma filter_join_split_from (sep : pystr) (s : pystr) :
  List.filter P sep = [] ->
  forall word,
    List.filter P (join sep (split_from word s))
    = List.filter P word ++ List.filter P s.
Proof.
  intros Hsep. induction s as [|c s IH]; intros word.
  - destruct word; simpl; [reflexivity | now rewrite app_nil_r].
  - cbn [split_from]. destruct (is_space c) eqn:E.
    + cbn [List.filter]. rewrite (P_space_false c E).
      destruct word as [|a word].
      * apply IH.
      * rewrite filter_join_cons by exact Hsep. now rewrite IH.
    + rewrite IH, List.filter_app, <- app_assoc. simpl.
      now destruct (P c).
Qed.

Lemma filter_join_split (sep s : pystr) :
  List.filter P sep = [] ->
  List.filter P (join sep (split s)) = List.filter P s.
Proof. intros Hsep. apply (filter_join_split_from sep s Hsep []). Qed.

Lemma lstrip_no_space (s : pystr) :
  Forall (fun c => is_space c = false) s -> lstrip s = s.
Proof.
  destruct 1 as [|c s Hc _]; [reflexivity|].
  simpl. now rewrite Hc.
Qed.

Lemma strip_no_space (s : pystr) :
  Forall (fun c => is_space c = false) s -> strip s = s.
Proof.
  intros H. unfold strip, rstrip.
  rewrite (lstrip_no_space (rev s)) by now apply Forall_rev.
  rewrite rev_involutive. now apply lstrip_no_space.
Qed.

Lemma filter_no_space (s : pystr) :
  Forall (fun c => is_space c = false) (List.filter P s).
Proof.
  apply List.Forall_forall. intros c Hc.
  apply List.filter_In in Hc as [_ Hc]. now apply P_not_space.
Qed.

End StringFacts.

End PyFacts.

Module TelemetryFacts.
Import Py Telemetry.
Local Open Scope Q_scope.

Lemma get_current_gps_fresh now d :
  now - timestamp d < 5.0 -> get_current_gps now (Some d) = Some d.
Proof.
  intros H. unfold get_current_gps.
  apply Qltb_lt in H. now rewrite H.
Qed.

Lemma get_current_gps_stale now d :
  5.0 <= now - timestamp d -> get_current_gps now (Some d) = None.
Proof.
  intros H. unfold get_current_gps.
  apply Qltb_ge in H. now rewrite H.
Qed.

Lemma main_loop_gps_ready_iff g :
  main_loop_gps_ready g = true <-> exists d, g = Some d /\ (3 <= fix_quality d)%Z.
Proof.
  destruct g as [d|]; simpl.
  - rewrite negb_true_iff, Z.ltb_ge. split.
    + intros H. exists d. split; [reflexivity | exact H].
    + intros (d' & Hd & H). injection Hd as <-. exact H.
  - split; [discriminate | intros (d & Hd & _); discriminate].
Qed.

(** A position fix received at clock 100, downgraded in place by a
    GPS_RAW_INT message carrying [fix_type = 2], and read at clock 101. *)
Definition downgraded_store : store :=
  process_all
    [ (100, GLOBAL_POSITION_INT
              {| msg_lat := 401772000; msg_lon := 445035000; msg_alt := 1000000;
                 msg_relative_alt := 85000; msg_vx := 0; msg_vy := 0; msg_vz := 0;
                 msg_hdg := 9000 |});
      (100.5, GPS_RAW_INT (Some 2%Z) (Some 4%Z)) ]
    None.

Definition downgraded_sample : gps_data :=
  {| lat := 401772000 / 1e7; lon := 445035000 / 1e7; alt := 1000000 / 1000;
     relative_alt := 85000 / 1000; vx := 0 / 100; vy := 0 / 100; vz := 0 / 100;
     hdg := 9000 / 100; timestamp := 100;
     fix_quality := 2; satellites_visible := Some 4%Z |}.

(** C1, counterexample: a stored sample that is one second old and has
    [fix_quality = 2] is returned by [get_current_gps], not reported absent. *)
Lemma get_current_gps_low_fix_counterexample :
  downgraded_store = Some downgraded_sample /\
  (fix_quality downgraded_sample < 3)%Z /\
  101 - timestamp downgraded_sample < 5.0 /\
  get_current_gps 101 downgraded_store = Some downgraded_sample.
Proof.
  split; [reflexivity|].
  split; [reflexivity|]. split; reflexivity.
Qed.

(** C1, amended: [get_current_gps] reports the stored sample absent whenever
    it is 5.0 seconds old or older, whatever its [fix_quality]; a sample
    younger than 5.0 seconds is returned unchanged, whatever its
    [fix_quality].  The [fix_quality < 3] gate is applied by the caller: the
    readiness test of [main_loop] accepts the result exactly when the sample
    is fresh and has [fix_quality >= 3]. *)
Theorem get_current_gps_gating (now : Q) (d : gps_data) :
  (5.0 <= now - timestamp d -> get_current_gps now (Some d) = None) /\
  (now - timestamp d < 5.0 -> get_current_gps now (Some d) = Some d) /\
  (main_loop_gps_ready (get_current_gps now (Some d)) = true <->
     now - timestamp d < 5.0 /\ (3 <= fix_quality d)%Z).
Proof.
  split; [apply get_current_gps_stale|].
  split; [apply get_current_gps_fresh|].
  rewrite main_loop_gps_ready_iff.
  destruct (Qltb (now - timestamp d) 5.0) eqn:E.
  - apply Qltb_lt in E. rewrite (get_current_gps_fresh _ _ E). split.
    + intros (d' & Hd & H). injection Hd as <-. split; assumption.
    + intros [_ H]. exists d. split; [reflexivity | exact H].
  - apply Qltb_ge in E. rewrite (get_current_gps_stale _ _ E). split.
    + intros (d' & Hd & _). discriminate.
    + intros [H _]. exfalso. exact (Qlt_not_le _ _ H E).
Qed.

Lemma process_message_position now p st :
  exists d, process_message now (GLOBAL_POSITION_INT p) st = Some d /\
            fix_quality d = 3%Z /\ timestamp d = now.
Proof. eexists. split; [reflexivity|]. split; reflexivity. Qed.

(** Messages other than a GPS_RAW_INT with a [fix_type] keep a stored
    [fix_quality] of 3. *)
Lemma process_message_keeps_fix now msg st :
  overrides_fix msg = false ->
  (exists d, st = Some d /\ fix_quality d = 3%Z) ->
  exists d, process_message now msg st = Some d /\ fix_quality d = 3%Z.
Proof.
  intros Hraw Hst. destruct msg as [p | [ft|] sats | ty]; simpl in *.
  - eexists. split; reflexivity.
  - discriminate.
  - exact Hst.
  - exact Hst.
Qed.

Lemma process_all_keeps_fix trace : forall st,
  forallb (fun tm => negb (overrides_fix (snd tm))) trace = true ->
  (exists d, st = Some d /\ fix_quality d = 3%Z) ->
  exists d, process_all trace st = Some d /\ fix_quality d = 3%Z.
Proof.
  induction trace as [|[now msg] rest IH]; intros st Hall Hst; simpl in *.
  - exact Hst.
  - apply andb_true_iff in Hall as [Hmsg Hrest].
    apply negb_true_iff in Hmsg.
    apply IH; [exact Hrest|].
    now apply process_message_keeps_fix.
Qed.

(** C10: a GLOBAL_POSITION_INT message replaces the stored snapshot by one
    whose [fix_quality] is the constant 3, whatever was stored before and
    whatever the message carries; the stored [fix_quality] stays 3, so the
    [fix_quality >= 3] gate of [main_loop] is met by the stored snapshot,
    through every later trace that holds no GPS_RAW_INT message; and a
    GPS_RAW_INT message carrying [fix_type] then overwrites that one field
    (and the satellite count) of the stored snapshot in place. *)
Theorem position_message_forces_fix_3
    (now : Q) (p : position_int) (st : store) (trace : list (Q * message)) :
  forallb (fun tm => negb (overrides_fix (snd tm))) trace = true ->
  (exists d, process_message now (GLOBAL_POSITION_INT p) st = Some d /\
             fix_quality d = 3%Z) /\
  (exists d, process_all ((now, GLOBAL_POSITION_INT p) :: trace) st = Some d /\
             fix_quality d = 3%Z /\
             main_loop_gps_ready (Some d) = true) /\
  (forall now' fix_type sats d,
      process_all ((now, GLOBAL_POSITION_INT p) :: trace) st = Some d ->
      process_message now' (GPS_RAW_INT (Some fix_type) sats) (Some d)
      = Some (set_fix d fix_type (default 0%Z sats))).
Proof.
  intros Hall. split; [|split].
  - destruct (process_message_position now p st) as (d & Hd & Hfix & _).
    exists d. split; assumption.
  - destruct (process_all_keeps_fix trace
                (process_message now (GLOBAL_POSITION_INT p) st) Hall)
      as (d & Hd & Hfix).
    + destruct (process_message_position now p st) as (d & Hd & Hfix & _).
      exists d. split; assumption.
    + exists d. split; [exact Hd|]. split; [exact Hfix|].
      simpl. now rewrite Hfix.
  - intros now' fix_type sats d _. reflexivity.
Qed.

Definition sample_position : position_int :=
  {| msg_lat := 401772000; msg_lon := 445035000; msg_alt := 1000000;
     msg_relative_alt := 85000; msg_vx := 0; msg_vy := 0; msg_vz := 0;
     msg_hdg := 9000 |}.

Lemma position_message_forces_fix_3_witness :
  (exists d, process_message 7 (GLOBAL_POSITION_INT sample_position) None = Some d /\
             fix_quality d = 3%Z) /\
  (exists d, process_all
               ((7, GLOBAL_POSITION_INT sample_position)
                  :: [(8, OTHER "HEARTBEAT"); (8.5, GPS_RAW_INT None None);
                 (9, GLOBAL_POSITION_INT sample_position)])
               None = Some d /\
             fix_quality d = 3%Z /\
             main_loop_gps_ready (Some d) = true) /\
  (forall now' fix_type sats d,
      process_all
        ((7, GLOBAL_POSITION_INT sample_position)
           :: [(8, OTHER "HEARTBEAT"); (9, GLOBAL_POSITION_INT sample_position)])
        None = Some d ->
      process_message now' (GPS_RAW_INT (Some fix_type) sats) (Some d)
      = Some (set_fix d fix_type (default 0%Z sats))).
Proof.
  apply (position_message_forces_fix_3 7 sample_position None
           [(8, OTHER "HEARTBEAT"); (9, GLOBAL_POSITION_INT sample_position)]).
  reflexivity.
Defined.

Lemma get_current_gps_gating_witness :
  get_current_gps 110 (Some downgraded_sample) = None /\
  get_current_gps 101 (Some downgraded_sample) = Some downgraded_sample /\
  main_loop_gps_ready (get_current_gps 101 (Some downgraded_sample)) = false.
Proof.
  pose proof (get_current_gps_gating 110 downgraded_sample) as (Hstale & _ & _).
  pose proof (get_current_gps_gating 101 downgraded_sample) as (_ & Hfresh & Hready).
  split; [|split].
  - apply Hstale. vm_compute. discriminate.
  - apply Hfresh. reflexivity.
  - apply not_true_is_false. intros E.
    apply Hready in E as [_ H]. simpl in H. lia.
Defined.

(** *** Which message decides what *)

(** The last GLOBAL_POSITION_INT message of a trace, with its clock reading. *)
Fixpoint last_position (trace : list (Q * message)) : option (Q * position_int) :=
  match trace with
  | [] => None
  | (t, msg) :: rest =>
      match last_position rest, msg with
      | Some r, _ => Some r
      | None, GLOBAL_POSITION_INT p => Some (t, p)
      | None, _ => None
      end
  end.

(** Two dictionaries that agree on everything a position message writes
    except [fix_quality]. *)
Definition same_position (d d' : gps_data) : Prop :=
  timestamp d' = timestamp d /\ lat d' = lat d /\ lon d' = lon d /\
  alt d' = alt d /\ relative_alt d' = relative_alt d /\
  vx d' = vx d /\ vy d' = vy d /\ vz d' = vz d /\ hdg d' = hdg d.

Lemma same_position_refl d : same_position d d.
Proof. unfold same_position. tauto. Qed.

Lemma process_all_no_position trace :
  last_position trace = None ->
  forall st,
    match st with
    | Some d => exists d', process_all trace st = Some d' /\ same_position d d'
    | None => process_all trace st = None
    end.
Proof.
  induction trace as [|[t msg] rest IH]; intros Hlast st; simpl in *.
  - destruct st as [d|]; [|reflexivity].
    exists d. split; [reflexivity | apply same_position_refl].
  - destruct (last_position rest) as [r|] eqn:E; [discriminate|].
    specialize (IH eq_refl).
    destruct msg as [p | [ft|] sats | ty]; try discriminate; simpl.
    + destruct st as [d|]; [|exact (IH None)].
      destruct (IH (Some (set_fix d ft (default 0%Z sats)))) as (d' & Hd' & Hs).
      exists d'. split; [exact Hd'|]. unfold same_position in *. simpl in Hs. tauto.
    + exact (IH st).
    + exact (IH st).
Qed.

Lemma process_all_last_position trace :
  forall st t p,
    last_position trace = Some (t, p) ->
    exists d, process_all trace st = Some d /\
              same_position (Build_gps_data
                               (inject_Z (msg_lat p) / 1e7) (inject_Z (msg_lon p) / 1e7)
                               (inject_Z (msg_alt p) / 1000)
                               (inject_Z (msg_relative_alt p) / 1000)
                               (inject_Z (msg_vx p) / 100) (inject_Z (msg_vy p) / 100)
                               (inject_Z (msg_vz p) / 100) (inject_Z (msg_hdg p) / 100)
                               t 3 None) d.
Proof.
  induction trace as [|[t0 msg] rest IH]; intros st t p Hlast; simpl in *.
  - discriminate.
  - destruct (last_position rest) as [r|] eqn:E.
    + injection Hlast as ->. apply IH. reflexivity.
    + destruct msg as [p0 | ft sats | ty]; try discriminate.
      injection Hlast as -> ->.
      exact (process_all_no_position rest E (process_message t (GLOBAL_POSITION_INT p) st)).
Qed.

(** X1: the stored snapshot is as old as the last GLOBAL_POSITION_INT message
    of the trace, whatever else arrived since: after a trace whose last
    position message was received at clock [t], [get_current_gps] returns a
    snapshot exactly while fewer than 5.0 seconds have passed since [t], and
    that snapshot carries the coordinates of that message.  GPS_RAW_INT and
    other messages never refresh it; and while no position message has
    arrived, nothing is stored and [get_current_gps] returns [None]. *)
Theorem snapshot_age_from_last_position
    (trace : list (Q * message)) (st : store) (now : Q) :
  (forall t p,
      last_position trace = Some (t, p) ->
      (now - t < 5.0 ->
       exists d, get_current_gps now (process_all trace st) = Some d /\
                 timestamp d = t /\
                 lat d = inject_Z (msg_lat p) / 1e7 /\
                 lon d = inject_Z (msg_lon p) / 1e7 /\
                 alt d = inject_Z (msg_alt p) / 1000) /\
      (5.0 <= now - t -> get_current_gps now (process_all trace st) = None)) /\
  (last_position trace = None ->
   get_current_gps now (process_all trace None) = None /\
   main_loop_gps_ready (get_current_gps now (process_all trace None)) = false).
Proof.
  split.
  - intros t p Hlast.
    destruct (process_all_last_position trace st t p Hlast) as (d & -> & Hs).
    unfold same_position in Hs. simpl in Hs.
    destruct Hs as (Ht & Hlat & Hlon & Halt & _).
    split.
    + intros Hage. exists d. split; [|tauto].
      apply get_current_gps_fresh. now rewrite Ht.
    + intros Hage. apply get_current_gps_stale. now rewrite Ht.
  - intros Hlast.
    pose proof (process_all_no_position trace Hlast None) as H. simpl in H.
    rewrite H. split; reflexivity.
Qed.

(** X2: staleness is permanent for a given store: once [get_current_gps]
    has returned [None] at some clock reading, it returns [None] at every
    later one, until a message changes the store. *)
Theorem get_current_gps_stays_stale (st : store) (now later : Q) :
  now <= later ->
  get_current_gps now st = None ->
  get_current_gps later st = None.
Proof.
  intros Hle. destruct st as [d|]; [|reflexivity].
  unfold get_current_gps.
  destruct (Qltb (now - timestamp d) 5.0) eqn:E; [discriminate|].
  intros _. apply Qltb_ge in E.
  assert (Qltb (later - timestamp d) 5.0 = false) as ->; [|reflexivity].
  apply Qltb_ge. lra.
Qed.

Lemma get_current_gps_stays_stale_witness :
  get_current_gps 106 downgraded_store = None.
Proof.
  apply (get_current_gps_stays_stale downgraded_store 105 106).
  - vm_compute. discriminate.
  - reflexivity.
Defined.

(** The bit that [base_mode & flag] tests when [flag] is a power of two. *)
Lemma land_pow2_testbit (m k : Z) :
  (0 <= k)%Z -> (Z.land m (2 ^ k) =? 0)%Z = negb (Z.testbit m k).
Proof.
  intros Hk.
  assert (Z.land m (2 ^ k) = if Z.testbit m k then 2 ^ k else 0)%Z as ->.
  { apply Z.bits_inj'. intros n Hn.
    rewrite Z.land_spec, Z.pow2_bits_eqb by exact Hk.
    destruct (Z.eqb_spec k n) as [<- | Hne].
    - rewrite andb_true_r. destruct (Z.testbit m k) eqn:E.
      + rewrite Z.pow2_bits_true by exact Hk. reflexivity.
      + rewrite Z.bits_0. reflexivity.
    - rewrite andb_false_r. destruct (Z.testbit m k).
      + rewrite Z.pow2_bits_false by exact Hne. reflexivity.
      + rewrite Z.bits_0. reflexivity. }
  destruct (Z.testbit m k); simpl.
  - apply Z.eqb_neq. pose proof (Z.pow_pos_nonneg 2 k). lia.
  - reflexivity.
Qed.

(** X3: when the armed flag is the single bit [2^k] (bit 7, 128, in MAVLink),
    [is_armed] is truthy exactly when the handler is connected, pymavlink is
    available, a HEARTBEAT message was pending and bit [k] of its [base_mode]
    is set; with no pending heartbeat, or on any error while reading, it is
    [False] whatever the vehicle's state. *)
Theorem is_armed_truthy_iff
    (flag k : Z) (connected mavutil_available : bool) (heartbeat : exc (option Z)) :
  (0 <= k)%Z ->
  flag = (2 ^ k)%Z ->
  (truthy (is_armed flag connected mavutil_available heartbeat) = true <->
   connected = true /\ mavutil_available = true /\
   exists base_mode, heartbeat = Return (Some base_mode) /\
                     Z.testbit base_mode k = true).
Proof.
  intros Hk ->. unfold is_armed.
  destruct connected, mavutil_available; simpl;
    try (split; [discriminate | intros (? & ? & _); discriminate]).
  destruct heartbeat as [e | [base_mode|]]; simpl.
  - split; [discriminate | intros (_ & _ & b & [=] & _)].
  - rewrite land_pow2_testbit by exact Hk. rewrite negb_involutive. split.
    + intros H. repeat split. exists base_mode. split; [reflexivity | exact H].
    + intros (_ & _ & b & [= <-] & H). exact H.
  - split; [discriminate | intros (_ & _ & b & [=] & _)].
Qed.

Lemma is_armed_truthy_iff_witness :
  truthy (is_armed 128 true true (Return (Some 209%Z))) = true <->
  true = true /\ true = true /\
  exists base_mode, Return (Some 209%Z) = Return (Some base_mode) /\
                    Z.testbit base_mode 7 = true.
Proof.
  apply (is_armed_truthy_iff 128 7 true true (Return (Some 209%Z))).
  - lia.
  - reflexivity.
Defined.

End TelemetryFacts.

Module GPSFacts.
Import Py GPS.

(** [round_half_even] is within half a unit of the fraction, and lands on
    an even integer when the fraction is a tie. *)
Lemma round_half_even_near (num den : Z) :
  (0 < den)%Z ->
  let k := round_half_even num den in
  (2 * Z.abs (k * den - num) <= den)%Z /\
  ((2 * Z.abs (k * den - num) = den)%Z -> Z.even k = true).
Proof.
  intros Hden k. subst k. unfold round_half_even.
  pose proof (Z.div_mod num den ltac:(lia)) as Hdm.
  pose proof (Z.mod_pos_bound num den Hden) as Hr.
  set (q := (num / den)%Z) in *. set (r := (num mod den)%Z) in *.
  destruct (Z.compare_spec (2 * r) den) as [Heq | Hlt | Hgt].
  - destruct (Z.even q) eqn:Ev.
    + split; [nia | intros _; exact Ev].
    + split; [nia | intros _].
      rewrite Z.even_add, Ev. reflexivity.
  - split; [nia | nia].
  - split; [nia | nia].
Qed.

Lemma magnitude_pos (m : positive) (e : Z) :
  (0 < snd (magnitude m e))%Z.
Proof.
  unfold magnitude. destruct (0 <=? e)%Z eqn:E; simpl; [lia|].
  apply Z.leb_gt in E.
  apply Z.pow_pos_nonneg; lia.
Qed.

Lemma Qabs_frac_half (k num den : Z) :
  (0 < den)%Z ->
  (2 * Z.abs (k * den - num) <= den)%Z ->
  (Qabs (inject_Z k - inject_Z num / inject_Z den) <= 1 # 2)%Q.
Proof.
  intros Hden H. destruct den as [|d|d]; try lia.
  apply Qabs_Qle_condition.
  unfold Qle, Qdiv, Qminus, Qplus, Qopp, Qmult, Qinv, inject_Z; simpl.
  split; lia.
Qed.

Lemma Qabs_frac_tie (k num den : Z) :
  (0 < den)%Z ->
  (Qabs (inject_Z k - inject_Z num / inject_Z den) == 1 # 2)%Q ->
  (2 * Z.abs (k * den - num) = den)%Z.
Proof.
  intros Hden H. destruct den as [|d|d]; try lia.
  revert H. apply Qabs_case; intros Hs H;
    unfold Qeq, Qle, Qdiv, Qminus, Qplus, Qopp, Qmult, Qinv, inject_Z in *;
    simpl in *; lia.
Qed.

(** [round(x)] returns an integer nearest to the exact value of [x], the
    even one at a tie. *)
Lemma py_round_nearest (x : float) (k : Z) :
  py_round x = Return k ->
  (Qabs (inject_Z k - float_value x) <= 1 # 2)%Q /\
  ((Qabs (inject_Z k - float_value x) == 1 # 2)%Q -> Z.even k = true).
Proof.
  unfold py_round, float_value.
  destruct (Prim2SF x) as [s | s | | s m e]; try discriminate.
  - intros [= <-]. split; [vm_compute; discriminate | intros _; reflexivity].
  - pose proof (magnitude_pos m e) as Hden.
    destruct (magnitude m e) as [num den]. simpl in Hden.
    intros [= <-].
    destruct (round_half_even_near num den Hden) as [Hnear Htie].
    destruct s; unfold signed.
    + split.
      * apply Qabs_frac_half; [exact Hden | lia].
      * intros H. apply Qabs_frac_tie in H; [|exact Hden].
        rewrite Z.even_opp. apply Htie. lia.
    + split.
      * apply Qabs_frac_half; [exact Hden | lia].
      * intros H. apply Qabs_frac_tie in H; [|exact Hden].
        apply Htie. lia.
Qed.

Lemma py_round_returns (x : float) :
  finite_float x = true -> exists k, py_round x = Return k.
Proof.
  unfold finite_float, py_round.
  destruct (Prim2SF x) as [s | s | | s m e]; try discriminate; intros _.
  - eexists; reflexivity.
  - destruct (magnitude m e). eexists; reflexivity.
Qed.

Example e7_yerevan :
  format_for_competition 0x1.416ae7d566cf4p+5%float 0x1.64072b020c49cp+5%float
  = Return (401772000, 445035000)%Z.
Proof. vm_compute. reflexivity. Qed.

(** Telemetry hands over coordinates of the form [k / 1e7]; for such a one
    the encoding gives [k] back and the round trip holds. *)
Example telemetry_round_trip :
  let lat := (float_of_Z 401772001 / 1e7)%float in
  py_round (lat * 1e7)%float = Return 401772001%Z /\
  round_trips lat 401772001 = true.
Proof. vm_compute. split; reflexivity. Qed.

(** The binary64 number nearest to 40.00000015; it lies below it. *)
Definition lat_below_tie : float := 0x1.4000001421f5fp+5%float.

(** C7, counterexample: for the latitude [lat_below_tie] the exact product
    with 10^7 is below 400000001.5, so the nearest integer is 400000001 and
    [round(lat, 7)] is 40.0000001; the binary64 product rounds up to the tie
    400000001.5, [format_for_competition] returns 400000002, and
    [round(400000002 / 1e7, 7)] is 40.0000002: the round trip fails. *)
Lemma format_for_competition_round_trip_counterexample :
  format_for_competition lat_below_tie lat_below_tie
  = Return (400000002, 400000002)%Z /\
  (float_value lat_below_tie * 1e7 < 400000001.5)%Q /\
  (float_value (lat_below_tie * 1e7)%float == 400000001.5)%Q /\
  py_round_ndigits lat_below_tie 7 = (float_of_Z 400000001 / 1e7)%float /\
  py_round_ndigits (float_of_Z 400000002 / 1e7)%float 7
  = (float_of_Z 400000002 / 1e7)%float /\
  round_trips lat_below_tie 400000002 = false.
Proof.
  split; [vm_compute; reflexivity|].
  split; [vm_compute; reflexivity|].
  split; [vm_compute; reflexivity|].
  split; [vm_compute; reflexivity|].
  split; vm_compute; reflexivity.
Qed.

(** C7, amended: whenever the binary64 products [lat * 1e7] and [lon * 1e7]
    are finite, [format_for_competition lat lon] returns a pair of integers,
    each a nearest integer to the corresponding binary64 product (at most
    1/2 away from its exact value, and even when exactly 1/2 away).  The
    decimal round trip [round(lat_e7 / 1e7, 7) == round(lat, 7)] is not part
    of the statement. *)
Theorem format_for_competition_nearest (lat lon : float) :
  finite_float (lat * 1e7) = true ->
  finite_float (lon * 1e7) = true ->
  exists lat_e7 lon_e7 : Z,
    format_for_competition lat lon = Return (lat_e7, lon_e7) /\
    (Qabs (inject_Z lat_e7 - float_value (lat * 1e7)) <= 1 # 2)%Q /\
    ((Qabs (inject_Z lat_e7 - float_value (lat * 1e7)) == 1 # 2)%Q ->
     Z.even lat_e7 = true) /\
    (Qabs (inject_Z lon_e7 - float_value (lon * 1e7)) <= 1 # 2)%Q /\
    ((Qabs (inject_Z lon_e7 - float_value (lon * 1e7)) == 1 # 2)%Q ->
     Z.even lon_e7 = true).
Proof.
  intros Hlat Hlon.
  destruct (py_round_returns _ Hlat) as [a Ha].
  destruct (py_round_returns _ Hlon) as [b Hb].
  exists a, b. split.
  - unfold format_for_competition. rewrite Ha, Hb. reflexivity.
  - destruct (py_round_nearest _ _ Ha) as [Ha1 Ha2].
    destruct (py_round_nearest _ _ Hb) as [Hb1 Hb2].
    repeat split; assumption.
Qed.

Lemma format_for_competition_nearest_witness :
  exists lat_e7 lon_e7 : Z,
    format_for_competition lat_below_tie 0x1.64072b020c49cp+5
    = Return (lat_e7, lon_e7) /\
    (Qabs (inject_Z lat_e7 - float_value (lat_below_tie * 1e7)) <= 1 # 2)%Q /\
    ((Qabs (inject_Z lat_e7 - float_value (lat_below_tie * 1e7)) == 1 # 2)%Q ->
     Z.even lat_e7 = true) /\
    (Qabs (inject_Z lon_e7 - float_value (0x1.64072b020c49cp+5 * 1e7)) <= 1 # 2)%Q /\
    ((Qabs (inject_Z lon_e7 - float_value (0x1.64072b020c49cp+5 * 1e7)) == 1 # 2)%Q ->
     Z.even lon_e7 = true).
Proof.
  apply (format_for_competition_nearest lat_below_tie 0x1.64072b020c49cp+5).
  - vm_compute. reflexivity.
  - vm_compute. reflexivity.
Defined.

(** *** Validation of telemetry snapshots *)

Lemma e7_range (k bound : Z) :
  (0 < bound)%Z ->
  (Qle_bool (- inject_Z bound) (inject_Z k / 1e7)
   && Qle_bool (inject_Z k / 1e7) (inject_Z bound) = true
   <-> (- (bound * 10000000) <= k <= bound * 10000000)%Z).
Proof.
  intros Hb. rewrite andb_true_iff, !Qle_bool_iff.
  unfold Qle, Qdiv, Qmult, Qinv, Qopp, inject_Z. simpl. lia.
Qed.

(** X4: the snapshot stored for a GLOBAL_POSITION_INT message always passes
    the readiness test of [main_loop], but it is accepted by
    [validate_gps_data], which [process_single_frame] applies to a queued
    frame, exactly when the raw latitude lies within +-90 degrees and the
    raw longitude within +-180 degrees (in units of 1e-7 degree): a frame
    captured on an out-of-range position is queued and then skipped. *)
Theorem validate_position_snapshot
    (now : Q) (p : Telemetry.position_int) (st : Telemetry.store) :
  let snapshot :=
    Telemetry.process_message now (Telemetry.GLOBAL_POSITION_INT p) st in
  Telemetry.main_loop_gps_ready snapshot = true /\
  (validate_gps_data snapshot = true <->
   (-900000000 <= Telemetry.msg_lat p <= 900000000)%Z /\
   (-1800000000 <= Telemetry.msg_lon p <= 1800000000)%Z).
Proof.
  cbv zeta. split; [reflexivity|].
  unfold validate_gps_data. simpl.
  pose proof (e7_range (Telemetry.msg_lat p) 90 ltac:(lia)) as Hlat.
  pose proof (e7_range (Telemetry.msg_lon p) 180 ltac:(lia)) as Hlon.
  change (- inject_Z 90)%Q with (-90)%Q in Hlat.
  change (inject_Z 90) with 90%Q in Hlat.
  change (- inject_Z 180)%Q with (-180)%Q in Hlon.
  change (inject_Z 180) with 180%Q in Hlon.
  rewrite <- andb_assoc, andb_true_iff, Hlat, Hlon. lia.
Qed.

(** *** Sign symmetry of the e7 encoding *)

Lemma binary_round_aux_opp (s : bool) (m e : Z) (l : location) :
  binary_round_aux prec emax (negb s) m e l
  = SFopp (binary_round_aux prec emax s m e l).
Proof.
  unfold binary_round_aux.
  destruct (shr_fexp prec emax m e l) as [mrs' e'].
  match goal with
  | |- context [shr_fexp ?p ?q ?a ?b ?c] =>
      destruct (shr_fexp p q a b c) as [mrs'' e'']
  end.
  destruct (shr_m mrs'') as [|k|k]; try reflexivity.
  destruct (e'' <=? emax - prec)%Z; reflexivity.
Qed.

Lemma SF64mul_opp_l (a b : spec_float) :
  SF64mul (SFopp a) b = SFopp (SF64mul a b).
Proof.
  unfold SF64mul, SFmul.
  destruct a as [sa | sa | | sa ma ea], b as [sb | sb | | sb mb eb];
    try reflexivity; try (destruct sa, sb; reflexivity).
  cbn [SFopp]. rewrite <- binary_round_aux_opp.
  destruct sa, sb; reflexivity.
Qed.

Lemma py_round_opp (x : float) :
  py_round (- x)%float
  = match py_round x with
    | Return k => Return (- k)%Z
    | Raise e => Raise e
    end.
Proof.
  unfold py_round. rewrite opp_spec.
  destruct (Prim2SF x) as [s | s | | s m e]; simpl; try reflexivity.
  destruct (magnitude m e) as [num den].
  destruct s; simpl; [|reflexivity].
  now rewrite Z.opp_involutive.
Qed.

Lemma py_round_mul_opp (x y : float) :
  py_round (- x * y)%float
  = match py_round (x * y)%float with
    | Return k => Return (- k)%Z
    | Raise e => Raise e
    end.
Proof.
  rewrite <- py_round_opp. unfold py_round.
  now rewrite opp_spec, !mul_spec, opp_spec, SF64mul_opp_l.
Qed.

(** X5: the e7 encoding is odd: negating both coordinates negates both
    integers, and raises the same exception when the original call raises.
    Southern and western coordinates are encoded as the mirror images of
    northern and eastern ones. *)
Theorem format_for_competition_opp (lat lon : float) :
  format_for_competition (- lat) (- lon)
  = match format_for_competition lat lon with
    | Return (lat_e7, lon_e7) => Return (- lat_e7, - lon_e7)%Z
    | Raise e => Raise e
    end.
Proof.
  unfold format_for_competition.
  rewrite !py_round_mul_opp.
  destruct (py_round (lat * 1e7)) as [e | a]; [reflexivity|]. simpl.
  destruct (py_round (lon * 1e7)) as [e | b]; reflexivity.
Qed.

Lemma py_round_raises (x : float) :
  finite_float x = false -> exists e, py_round x = Raise e.
Proof.
  unfold finite_float, py_round.
  destruct (Prim2SF x) as [s | s | | s m e]; try discriminate; intros _;
    eexists; reflexivity.
Qed.

(** The call returns exactly when both binary64 products are finite. *)
Lemma format_for_competition_returns_iff (lat lon : float) :
  (exists r, format_for_competition lat lon = Return r) <->
  finite_float (lat * 1e7) = true /\ finite_float (lon * 1e7) = true.
Proof.
  unfold format_for_competition. split.
  - intros [r Hr].
    destruct (finite_float (lat * 1e7)) eqn:Ea.
    + destruct (finite_float (lon * 1e7)) eqn:Eb; [tauto|].
      destruct (py_round_raises _ Eb) as [e He]. rewrite He in Hr.
      destruct (py_round (lat * 1e7)); discriminate.
    + destruct (py_round_raises _ Ea) as [e He]. rewrite He in Hr. discriminate.
  - intros [Ha Hb].
    destruct (py_round_returns _ Ha) as [a ->].
    destruct (py_round_returns _ Hb) as [b ->].
    eexists. reflexivity.
Qed.

End GPSFacts.

Module DetectorFacts.
Import Py Detector.
Local Open Scope Q_scope.

Lemma orb_false_Qltb (a b c d : Q) :
  Qltb a b || Qltb c d = false -> b <= a /\ d <= c.
Proof.
  intros H. apply orb_false_iff in H as [H1 H2].
  split; now apply Qltb_ge.
Qed.

Lemma py_div_Return (a b q : Q) :
  py_div a b = Return q -> ~ b == 0 /\ q = a / b.
Proof.
  unfold py_div. destruct (Qeq_bool b 0) eqn:E; [discriminate|].
  intros [= <-]. split; [|reflexivity].
  intros Hb. apply Qeq_bool_iff in Hb. congruence.
Qed.

(** What an appended dictionary holds, and the tests it has passed. *)
Lemma analyze_contour_Some (self : detector) (c : contour) (d : detection) :
  analyze_contour self c = Return (Some d) ->
  exists x y w h,
    bounding_rect c = (x, y, w, h) /\
    bbox d = (x, y, w, h) /\
    area d = contour_area c /\
    aspect_ratio d = inject_Z w / inject_Z h /\
    fill_ratio d = contour_area c / inject_Z (w * h) /\
    confidence d
    = calculate_detection_confidence (area d) (aspect_ratio d) (fill_ratio d) /\
    ~ inject_Z h == 0 /\ ~ inject_Z (w * h) == 0 /\
    (min_symbol_area self <= area d /\ area d <= max_symbol_area self) /\
    (0.4 <= aspect_ratio d /\ aspect_ratio d <= 2.5) /\
    (0.1 <= fill_ratio d /\ fill_ratio d <= 0.9).
Proof.
  unfold analyze_contour.
  destruct (bounding_rect c) as [[[x y] w] h].
  destruct (_ || _) eqn:Harea; [discriminate|].
  apply orb_false_Qltb in Harea.
  destruct (py_div (inject_Z w) (inject_Z h)) as [e|ar] eqn:Har; [discriminate|].
  apply py_div_Return in Har as [Hh ->]. cbn [bind].
  destruct (_ || _) eqn:Hratio; [discriminate|].
  apply orb_false_Qltb in Hratio.
  destruct (py_div (contour_area c) (inject_Z (w * h))) as [e|fr] eqn:Hfr;
    [discriminate|].
  apply py_div_Return in Hfr as [Hwh ->]. cbn [bind].
  destruct (_ || _) eqn:Hfill; [discriminate|].
  apply orb_false_Qltb in Hfill.
  intros [= <-]. exists x, y, w, h. cbn.
  repeat split; try reflexivity; try tauto.
Qed.

(** The accepted ratios force the contour area to be positive. *)
Lemma accepted_area_pos (a : Q) (w h : Z) :
  ~ inject_Z h == 0 ->
  0.4 <= inject_Z w / inject_Z h ->
  0.1 <= a / inject_Z (w * h) ->
  0 < a.
Proof.
  destruct a as [an ad].
  destruct h as [|hp|hp], w as [|wp|wp];
    unfold Qeq, Qle, Qlt, Qdiv, Qmult, Qinv, inject_Z; simpl; try lia.
Qed.

Lemma py_min_cases (a b : Q) :
  (py_min a b = a /\ a <= b) \/ (py_min a b = b /\ b < a).
Proof.
  unfold py_min. destruct (Qltb b a) eqn:E.
  - right. split; [reflexivity | now apply Qltb_lt].
  - left. split; [reflexivity | now apply Qltb_ge].
Qed.

Lemma area_score_bounds (a : Q) :
  0 <= a -> 0 <= py_min (a / 20000) 1.0 /\ py_min (a / 20000) 1.0 <= 1.
Proof.
  intros Ha. destruct (py_min_cases (a / 20000) 1.0) as [[-> H] | [-> H]].
  - split; [|lra]. apply Qle_shift_div_l; lra.
  - split; lra.
Qed.

Lemma ratio_score_bounds (ar : Q) :
  0.4 <= ar -> ar <= 2.5 ->
  let s := if Qle_bool ar 2.0 then 1.0 - Qabs (1.0 - ar) else 0.5 in
  0 <= s /\ s <= 1.
Proof.
  intros Hlo Hhi. destruct (Qle_bool ar 2.0) eqn:E; cbv zeta.
  - apply Qle_bool_iff in E.
    pose proof (Qabs_nonneg (1.0 - ar)) as Hn.
    assert (Qabs (1.0 - ar) <= 1) by (apply Qabs_Qle_condition; split; lra).
    split; lra.
  - split; lra.
Qed.

Lemma fill_score_bounds (fr : Q) :
  0.1 <= fr -> fr <= 0.9 ->
  let s := if Qle_bool fr 0.6 then fr else 1.0 - fr in
  0.1 <= s /\ s <= 0.6.
Proof.
  intros Hlo Hhi. destruct (Qle_bool fr 0.6) eqn:E; cbv zeta.
  - apply Qle_bool_iff in E. split; lra.
  - assert (0.6 < fr).
    { apply Qnot_le_lt. intros H. apply Qle_bool_iff in H. congruence. }
    split; lra.
Qed.

Lemma confidence_bounds (a ar fr : Q) :
  0 <= a -> 0.4 <= ar -> ar <= 2.5 -> 0.1 <= fr -> fr <= 0.9 ->
  0 <= calculate_detection_confidence a ar fr /\
  calculate_detection_confidence a ar fr <= 1.
Proof.
  intros Ha Hlo Hhi Hflo Hfhi. unfold calculate_detection_confidence.
  destruct (area_score_bounds a Ha) as [A1 A2].
  destruct (ratio_score_bounds ar Hlo Hhi) as [R1 R2].
  destruct (fill_score_bounds fr Hflo Hfhi) as [F1 F2].
  cbv zeta in *.
  set (sa := py_min (a / 20000) 1.0) in *.
  set (sr := if Qle_bool ar 2.0 then _ else _) in *.
  set (sf := if Qle_bool fr 0.6 then _ else _) in *.
  split.
  - apply Qle_shift_div_l; lra.
  - apply Qle_shift_div_r; lra.
Qed.

(** The bounds of a candidate region. *)
Definition within_bounds (self : detector) (d : detection) : Prop :=
  (min_symbol_area self <= area d /\ area d <= max_symbol_area self) /\
  (0.4 <= aspect_ratio d /\ aspect_ratio d <= 2.5) /\
  (0.1 <= fill_ratio d /\ fill_ratio d <= 0.9) /\
  (0 <= confidence d /\ confidence d <= 1).

Lemma analyze_contour_within_bounds (self : detector) (c : contour) (d : detection) :
  analyze_contour self c = Return (Some d) -> within_bounds self d.
Proof.
  intros H.
  destruct (analyze_contour_Some _ _ _ H)
    as (x & y & w & h & _ & _ & Ha & Har & Hfr & Hconf & Hh & _ & Barea & Bar & Bfr).
  unfold within_bounds. repeat split; try tauto.
  - rewrite Hconf. apply confidence_bounds; try tauto.
    apply Qlt_le_weak. rewrite Ha.
    apply (accepted_area_pos _ w h Hh).
    + rewrite <- Har. tauto.
    + rewrite <- Hfr. tauto.
  - rewrite Hconf. apply confidence_bounds; try tauto.
    apply Qlt_le_weak. rewrite Ha.
    apply (accepted_area_pos _ w h Hh).
    + rewrite <- Har. tauto.
    + rewrite <- Hfr. tauto.
Qed.

(** The dictionaries the loop appends, in contour enumeration order. *)
Definition accepted (self : detector) (contours : list contour) : list detection :=
  flat_map (fun c => match analyze_contour self c with
                     | Return (Some d) => [d]
                     | _ => []
                     end) contours.

Lemma analyze_loop_accepted (self : detector) (contours : list contour) :
  forall acc out,
    analyze_loop self contours acc = Return out ->
    out = acc ++ accepted self contours.
Proof.
  induction contours as [|c rest IH]; intros acc out; simpl.
  - intros [= <-]. now rewrite app_nil_r.
  - destruct (analyze_contour self c) as [e | [d|]]; simpl.
    + discriminate.
    + intros H. apply IH in H. now rewrite <- app_assoc in H.
    + apply IH.
Qed.

Lemma accepted_within_bounds (self : detector) (contours : list contour) :
  Forall (within_bounds self) (accepted self contours).
Proof.
  unfold accepted. apply List.Forall_forall. intros d Hd.
  apply in_flat_map in Hd as (c & _ & Hd).
  destruct (analyze_contour self c) as [e | [d'|]] eqn:E; simpl in Hd; try tauto.
  destruct Hd as [<- | []]. now apply (analyze_contour_within_bounds self c).
Qed.

Lemma analyze_contours_inv (self : detector) (contours : list contour) out :
  analyze_contours self contours = Return out ->
  analyze_loop self contours [] = Return (accepted self contours) /\
  out = py_sort confidence true (accepted self contours).
Proof.
  unfold analyze_contours.
  destruct (analyze_loop self contours []) as [e | found] eqn:E; [discriminate|].
  simpl. intros [= <-].
  apply analyze_loop_accepted in E. simpl in E. subst found. split; reflexivity.
Qed.

(** Three contours met in this order: two 76 x 76 boxes holding 4000 pixels
    (equal confidence) and a 120 x 120 box holding 10000 pixels. *)
Definition small_left : contour :=
  {| contour_area := 4000; bounding_rect := (100, 50, 76, 76)%Z |}.
Definition small_right : contour :=
  {| contour_area := 4000; bounding_rect := (900, 50, 76, 76)%Z |}.
Definition large_mid : contour :=
  {| contour_area := 10000; bounding_rect := (400, 300, 120, 120)%Z |}.

Example analyze_contours_order :
  option_map (map bbox)
    (match analyze_contours (init ∅) [small_left; small_right; large_mid] with
     | Return out => Some out
     | Raise _ => None
     end)
  = Some [(400, 300, 120, 120); (100, 50, 76, 76); (900, 50, 76, 76)]%Z.
Proof. vm_compute. reflexivity. Qed.

(** C2, counterexample: with the default thresholds a contour of 4000 pixels
    in a 76 x 76 bounding box is accepted with aspect ratio 1 and fill ratio
    4000/5776 (within 0.01 of 0.7), and its confidence is 907/1805, about
    0.502: not greater than 0.6.  At aspect ratio 1.0 and fill ratio 0.7
    exactly the formula gives 0.5. *)
Lemma near_square_4000_counterexample :
  exists d,
    analyze_contours (init ∅) [small_left] = Return [d] /\
    area d = 4000 /\
    aspect_ratio d == 1 /\
    Qabs (fill_ratio d - 0.7) < 0.01 /\
    confidence d == 907 # 1805 /\
    confidence d <= 0.6 /\
    calculate_detection_confidence 4000 1.0 0.7 == 0.5.
Proof.
  eexists. split; [vm_compute; reflexivity|].
  split; [reflexivity|].
  split; [reflexivity|].
  split; [reflexivity|].
  split; [reflexivity|].
  split; [vm_compute; discriminate | reflexivity].
Qed.

(** C2, amended: a contour of pixel area 4000 whose area lies within the
    detector's thresholds, whose bounding box has an aspect ratio within
    [0.4, 2.5] (in particular a near-square one) and whose fill ratio lies
    in (0.6, 0.9] (in particular about 0.7) is accepted as a candidate, and
    its confidence is below 8/15 (about 0.533), hence never greater than 0.6. *)
Theorem area_4000_accepted_confidence
    (self : detector) (c : contour) (x y w h : Z) :
  bounding_rect c = (x, y, w, h) ->
  contour_area c == 4000 ->
  min_symbol_area self <= 4000 ->
  4000 <= max_symbol_area self ->
  0.4 <= inject_Z w / inject_Z h ->
  inject_Z w / inject_Z h <= 2.5 ->
  0.6 < contour_area c / inject_Z (w * h) ->
  contour_area c / inject_Z (w * h) <= 0.9 ->
  exists d,
    analyze_contour self c = Return (Some d) /\
    aspect_ratio d = inject_Z w / inject_Z h /\
    fill_ratio d = contour_area c / inject_Z (w * h) /\
    confidence d < 8 # 15 /\
    ~ 0.6 < confidence d.
Proof.
  intros Hrect Harea Hmin Hmax Har1 Har2 Hfr1 Hfr2.
  assert (Hh : Qeq_bool (inject_Z h) 0 = false).
  { destruct (Qeq_bool (inject_Z h) 0) eqn:E; [|reflexivity].
    apply Qeq_bool_iff in E. exfalso.
    assert (inject_Z w / inject_Z h == 0) as H0.
    { rewrite E. unfold Qdiv, Qinv; simpl. apply Qmult_0_r. }
    rewrite H0 in Har1. revert Har1. vm_compute. tauto. }
  assert (Hwh : Qeq_bool (inject_Z (w * h)) 0 = false).
  { destruct (Qeq_bool (inject_Z (w * h)) 0) eqn:E; [|reflexivity].
    apply Qeq_bool_iff in E. exfalso.
    assert (contour_area c / inject_Z (w * h) == 0) as H0.
    { rewrite E. unfold Qdiv, Qinv; simpl. apply Qmult_0_r. }
    rewrite H0 in Hfr1. revert Hfr1. vm_compute. discriminate. }
  assert (Hconf : calculate_detection_confidence (contour_area c)
                    (inject_Z w / inject_Z h)
                    (contour_area c / inject_Z (w * h)) < 8 # 15).
  { unfold calculate_detection_confidence.
    destruct (ratio_score_bounds _ Har1 Har2) as [_ R2]. cbv zeta in R2.
    set (sr := if Qle_bool (inject_Z w / inject_Z h) 2.0 then _ else _) in *.
    assert (Qle_bool (contour_area c / inject_Z (w * h)) 0.6 = false) as ->.
    { destruct (Qle_bool _ 0.6) eqn:E; [|reflexivity].
      apply Qle_bool_iff in E. exfalso. exact (Qlt_not_le _ _ Hfr1 E). }
    assert (py_min (contour_area c / 20000) 1.0 == 1 # 5) as Hs.
    { destruct (py_min_cases (contour_area c / 20000) 1.0) as [[-> _] | [_ H]].
      - rewrite Harea. reflexivity.
      - exfalso. rewrite Harea in H. revert H. vm_compute. discriminate. }
    rewrite Hs. apply Qlt_shift_div_r; lra. }
  eexists. split.
  - unfold analyze_contour. rewrite Hrect.
    assert (Qltb (contour_area c) (min_symbol_area self)
            || Qltb (max_symbol_area self) (contour_area c) = false) as ->.
    { apply orb_false_iff. split; apply Qltb_ge; rewrite Harea; assumption. }
    unfold py_div. rewrite Hh. cbn [bind].
    assert (Qltb (inject_Z w / inject_Z h) 0.4
            || Qltb 2.5 (inject_Z w / inject_Z h) = false) as ->.
    { apply orb_false_iff. split; apply Qltb_ge; assumption. }
    rewrite Hwh. cbn [bind].
    assert (Qltb (contour_area c / inject_Z (w * h)) 0.1
            || Qltb 0.9 (contour_area c / inject_Z (w * h)) = false) as ->.
    { apply orb_false_iff. split; apply Qltb_ge; [lra | assumption]. }
    reflexivity.
  - cbn. split; [reflexivity|]. split; [reflexivity|].
    split; [exact Hconf|]. intros H. lra.
Qed.

Lemma area_4000_accepted_confidence_witness :
  exists d,
    analyze_contour (init ∅) small_left = Return (Some d) /\
    aspect_ratio d = inject_Z 76 / inject_Z 76 /\
    fill_ratio d = contour_area small_left / inject_Z (76 * 76) /\
    confidence d < 8 # 15 /\
    ~ 0.6 < confidence d.
Proof.
  apply (area_4000_accepted_confidence (init ∅) small_left 100 50 76 76);
    try reflexivity; vm_compute; discriminate.
Defined.

(** *** When the analysis raises *)

(** A contour that passes the area filter and whose bounding box has height 0. *)
Definition zero_height_in_range (self : detector) (c : contour) : bool :=
  negb (Qltb (contour_area c) (min_symbol_area self)
        || Qltb (max_symbol_area self) (contour_area c))
  && Qeq_bool (inject_Z (snd (bounding_rect c))) 0.

Lemma aspect_forces_area (w h : Z) :
  Qeq_bool (inject_Z h) 0 = false ->
  Qltb (inject_Z w / inject_Z h) 0.4 = false ->
  Qeq_bool (inject_Z (w * h)) 0 = false.
Proof.
  intros Hh Har. apply Qltb_ge in Har.
  destruct (Qeq_bool (inject_Z (w * h)) 0) eqn:E; [|reflexivity].
  apply Qeq_bool_iff in E. exfalso.
  assert (~ inject_Z h == 0) as Hh'.
  { intros H0. apply Qeq_bool_iff in H0. congruence. }
  revert Hh' Har E.
  destruct h as [|hp|hp], w as [|wp|wp];
    unfold Qeq, Qle, Qdiv, Qmult, Qinv, inject_Z; simpl; lia.
Qed.

Lemma py_div_nonzero (a b : Q) :
  Qeq_bool b 0 = false -> py_div a b = Return (a / b).
Proof. intros H. unfold py_div. now rewrite H. Qed.

Lemma analyze_contour_zero_height (self : detector) (c : contour) :
  if zero_height_in_range self c
  then analyze_contour self c = Raise ZeroDivisionError
  else exists r, analyze_contour self c = Return r.
Proof.
  unfold analyze_contour, zero_height_in_range.
  destruct (bounding_rect c) as [[[x y] w] h]. cbn [snd].
  destruct (Qltb (contour_area c) (min_symbol_area self)
            || Qltb (max_symbol_area self) (contour_area c));
    cbn [negb andb]; [eexists; reflexivity|].
  destruct (Qeq_bool (inject_Z h) 0) eqn:Hh.
  { unfold py_div. rewrite Hh. reflexivity. }
  rewrite (py_div_nonzero _ _ Hh). cbn [bind].
  destruct (Qltb (inject_Z w / inject_Z h) 0.4) eqn:Hlo;
    cbn [orb]; [eexists; reflexivity|].
  destruct (Qltb 2.5 (inject_Z w / inject_Z h)); [eexists; reflexivity|].
  rewrite (py_div_nonzero _ _ (aspect_forces_area w h Hh Hlo)). cbn [bind].
  destruct (Qltb (contour_area c / inject_Z (w * h)) 0.1
            || Qltb 0.9 (contour_area c / inject_Z (w * h)));
    eexists; reflexivity.
Qed.

Lemma analyze_loop_zero_height (self : detector) (contours : list contour) :
  forall acc,
    analyze_loop self contours acc
    = if existsb (zero_height_in_range self) contours
      then Raise ZeroDivisionError
      else Return (acc ++ accepted self contours).
Proof.
  induction contours as [|c rest IH]; intros acc; simpl.
  - now rewrite app_nil_r.
  - pose proof (analyze_contour_zero_height self c) as Hc.
    destruct (zero_height_in_range self c); simpl.
    + now rewrite Hc.
    + destruct Hc as [r ->]. simpl.
      destruct r as [d|]; rewrite IH; destruct (existsb _ rest); try reflexivity.
      now rewrite <- app_assoc.
Qed.

(** *** Scores *)

(** X9: the squareness score is not monotone: at equal area (not negative)
    and equal fill ratio (between 0 and 1), every candidate whose aspect
    ratio is above 2.0 scores higher, by more than 0.03, than every
    candidate whose aspect ratio lies in [1.6, 2.0], although it is further
    from a square. *)
Theorem elongated_outranks_less_elongated (area fill a1 a2 : Q) :
  0 <= area -> 0 <= fill -> fill <= 1 ->
  1.6 <= a1 -> a1 <= 2.0 -> 2.0 < a2 ->
  calculate_detection_confidence area a1 fill + 0.03
  < calculate_detection_confidence area a2 fill.
Proof.
  intros _ _ _ H1 H2 H3. unfold calculate_detection_confidence.
  assert (Qle_bool a1 2.0 = true) as -> by now apply Qle_bool_iff.
  assert (Qle_bool a2 2.0 = false) as ->.
  { destruct (Qle_bool a2 2.0) eqn:E; [|reflexivity].
    apply Qle_bool_iff in E. exfalso. exact (Qlt_not_le _ _ H3 E). }
  assert (Qabs (1.0 - a1) == a1 - 1) as Habs.
  { rewrite Qabs_neg by lra. ring. }
  rewrite Habs.
  set (sa := py_min (area / 20000) 1.0).
  set (sf := if Qle_bool fill 0.6 then fill else 1.0 - fill).
  assert ((sa + (1.0 - (a1 - 1)) + sf) / 3.0 + 0.03
          == (sa + (1.0 - (a1 - 1)) + sf + 0.09) / 3.0) as -> by (field).
  unfold Qdiv. apply Qmult_lt_compat_r; [reflexivity | lra].
Qed.

Lemma elongated_outranks_less_elongated_witness :
  calculate_detection_confidence 5000 1.8 0.5 + 0.03
  < calculate_detection_confidence 5000 2.4 0.5.
Proof.
  apply (elongated_outranks_less_elongated 5000 0.5 1.8 2.4);
    try reflexivity; vm_compute; discriminate.
Defined.

(** X10: the confidence of an appended candidate is above 1/30 and at most
    13/15 (about 0.867), whatever the thresholds; with [min_symbol_area] at
    least 2000 (the default) it is at least 1/15. *)
Theorem accepted_confidence_range (self : detector) (c : contour) (d : detection) :
  analyze_contour self c = Return (Some d) ->
  1 # 30 < confidence d /\ confidence d <= 13 # 15 /\
  (2000 <= min_symbol_area self -> 1 # 15 <= confidence d).
Proof.
  intros H.
  destruct (analyze_contour_Some _ _ _ H)
    as (x & y & w & h & _ & _ & Ha & Har & Hfr & Hconf & Hh & _ & Barea & Bar & Bfr).
  assert (0 < area d) as Hpos.
  { rewrite Ha. apply (accepted_area_pos _ w h Hh).
    - rewrite <- Har. tauto.
    - rewrite <- Hfr. tauto. }
  rewrite Hconf. unfold calculate_detection_confidence.
  destruct (ratio_score_bounds (aspect_ratio d)) as [R1 R2]; try tauto.
  destruct (fill_score_bounds (fill_ratio d)) as [F1 F2]; try tauto.
  cbv zeta in *.
  set (sr := if Qle_bool (aspect_ratio d) 2.0 then _ else _) in *.
  set (sf := if Qle_bool (fill_ratio d) 0.6 then _ else _) in *.
  assert (0 < py_min (area d / 20000) 1.0 /\ py_min (area d / 20000) 1.0 <= 1) as [A1 A2].
  { destruct (py_min_cases (area d / 20000) 1.0) as [[-> Hc] | [-> Hc]].
    - split; [|lra]. apply Qlt_shift_div_l; lra.
    - split; lra. }
  set (sa := py_min (area d / 20000) 1.0) in *.
  split; [apply Qlt_shift_div_l; lra|].
  split; [apply Qle_shift_div_r; lra|].
  intros Hmin.
  assert (1 # 10 <= sa) as A3.
  { subst sa. destruct (py_min_cases (area d / 20000) 1.0) as [[-> Hc] | [-> Hc]].
    - apply Qle_shift_div_l; lra.
    - lra. }
  apply Qle_shift_div_l; lra.
Qed.

Lemma accepted_confidence_range_witness :
  exists d,
    analyze_contour (init ∅) large_mid = Return (Some d) /\
    1 # 30 < confidence d /\ confidence d <= 13 # 15 /\ 1 # 15 <= confidence d.
Proof.
  assert (exists d, analyze_contour (init ∅) large_mid = Return (Some d)) as [d Hd].
  { eexists. vm_compute. reflexivity. }
  exists d. split; [exact Hd|].
  destruct (accepted_confidence_range (init ∅) large_mid d Hd) as (H1 & H2 & H3).
  split; [exact H1|]. split; [exact H2|]. apply H3. vm_compute. discriminate.
Defined.

Lemma accepted_length (self : detector) (contours : list contour) :
  (length (accepted self contours) <= length contours)%nat.
Proof.
  unfold accepted. induction contours as [|c rest IH]; simpl; [lia|].
  rewrite length_app.
  destruct (analyze_contour self c) as [e | [d|]]; simpl; lia.
Qed.

(** X8: every candidate returned by [analyze_contours] was built from one of
    the given contours, whose area and bounding box it records, and there
    are no more candidates than contours. *)
Theorem analyze_contours_provenance
    (self : detector) (contours : list contour) (out : list detection) :
  analyze_contours self contours = Return out ->
  (length out <= length contours)%nat /\
  Forall (fun d => exists c, In c contours /\
                             analyze_contour self c = Return (Some d) /\
                             bbox d = bounding_rect c /\
                             area d = contour_area c) out.
Proof.
  intros H. apply analyze_contours_inv in H as [_ ->].
  pose proof (py_sort_reverse_perm confidence (accepted self contours)) as Hperm.
  split.
  - rewrite (Permutation_length Hperm). apply accepted_length.
  - eapply Permutation_Forall; [apply Permutation_sym, Hperm|].
    apply List.Forall_forall. intros d Hd. unfold accepted in Hd.
    apply in_flat_map in Hd as (c & Hc & Hd). exists c.
    destruct (analyze_contour self c) as [e | [d'|]] eqn:E; simpl in Hd; try tauto.
    destruct Hd as [<- | []]. split; [exact Hc|]. split; [reflexivity|].
    destruct (analyze_contour_Some _ _ _ E)
      as (x & y & w & h & Hrect & Hbbox & Ha & _).
    split; congruence.
Qed.

Lemma analyze_contours_provenance_witness :
  exists out,
    analyze_contours (init ∅) [small_left; small_right; large_mid] = Return out /\
    (length out <= 3)%nat.
Proof.
  assert (exists out, analyze_contours (init ∅) [small_left; small_right; large_mid]
                      = Return out) as [out Hout].
  { eexists. vm_compute. reflexivity. }
  exists out. split; [exact Hout|].
  exact (proj1 (analyze_contours_provenance (init ∅)
                  [small_left; small_right; large_mid] out Hout)).
Defined.

Section PipelineFacts.
Context {frame image : Type}.
Variable preprocess_for_detection : frame -> exc image.
Variable find_symbol_contours : image -> exc (list contour).

(** [detect_symbols] returns either the empty list (an exception was caught)
    or the list returned by [analyze_contours]. *)
Lemma detect_symbols_cases (self : detector) (fr : frame) :
  detect_symbols preprocess_for_detection find_symbol_contours self fr = Return [] \/
  exists processed contours out,
    preprocess_for_detection fr = Return processed /\
    find_symbol_contours processed = Return contours /\
    analyze_contours self contours = Return out /\
    detect_symbols preprocess_for_detection find_symbol_contours self fr = Return out.
Proof.
  unfold detect_symbols.
  destruct (preprocess_for_detection fr) as [e | processed] eqn:E1; simpl;
    [now left|].
  destruct (find_symbol_contours processed) as [e | contours] eqn:E2; simpl;
    [now left|].
  destruct (analyze_contours self contours) as [e | out] eqn:E3; simpl;
    [now left|].
  right. exists processed, contours, out. rewrite E2. now repeat split.
Qed.

(** C4: every candidate region returned by the Symbol Detector has its area
    between [min_symbol_area] and [max_symbol_area], its aspect ratio between
    0.4 and 2.5, its fill ratio between 0.1 and 0.9 and its confidence between
    0 and 1; and [detect_symbols] always returns a list. *)
Theorem detect_symbols_within_bounds (self : detector) (fr : frame) :
  exists out,
    detect_symbols preprocess_for_detection find_symbol_contours self fr = Return out /\
    Forall (fun d =>
              (min_symbol_area self <= area d /\ area d <= max_symbol_area self) /\
              (0.4 <= aspect_ratio d /\ aspect_ratio d <= 2.5) /\
              (0.1 <= fill_ratio d /\ fill_ratio d <= 0.9) /\
              (0 <= confidence d /\ confidence d <= 1)) out.
Proof.
  destruct (detect_symbols_cases self fr)
    as [H | (processed & contours & out & _ & _ & Han & H)].
  - exists []. split; [exact H | constructor].
  - exists out. split; [exact H|].
    apply analyze_contours_inv in Han as [_ ->].
    eapply Permutation_Forall;
      [apply Permutation_sym, py_sort_reverse_perm|].
    apply accepted_within_bounds.
Qed.

(** C9: the list returned by one detection call is sorted by confidence in
    descending order; when the call got as far as the loop over the contours,
    the list is a permutation of the dictionaries appended by the loop, and
    for every confidence value the candidates with that confidence appear in
    the order in which the loop appended them (contour enumeration order). *)
Theorem detect_symbols_sorted_stable (self : detector) (fr : frame) :
  exists out,
    detect_symbols preprocess_for_detection find_symbol_contours self fr = Return out /\
    StronglySorted (fun a b => confidence b <= confidence a) out /\
    (forall processed contours found,
        preprocess_for_detection fr = Return processed ->
        find_symbol_contours processed = Return contours ->
        analyze_loop self contours [] = Return found ->
        found = accepted self contours /\
        Permutation out found /\
        forall c : Q,
          List.filter (fun d => Qeq_bool (confidence d) c) out
          = List.filter (fun d => Qeq_bool (confidence d) c) found).
Proof.
  unfold detect_symbols, analyze_contours.
  destruct (preprocess_for_detection fr) as [e | processed] eqn:E1; simpl.
  { exists []. split; [reflexivity|]. split; [constructor|].
    intros ? ? ? [=]. }
  destruct (find_symbol_contours processed) as [e | contours] eqn:E2; simpl.
  { exists []. split; [reflexivity|]. split; [constructor|].
    intros ? ? ? [= <-] Hf. rewrite E2 in Hf. discriminate. }
  destruct (analyze_loop self contours []) as [e | found] eqn:E3; simpl.
  { exists []. split; [reflexivity|]. split; [constructor|].
    intros ? ? ? [= <-] Hf. rewrite E2 in Hf. injection Hf as <-.
    intros Hl. rewrite E3 in Hl. discriminate. }
  exists (py_sort confidence true found).
  split; [reflexivity|]. split; [apply py_sort_reverse_sorted|].
  intros processed' contours' found' [= <-] Hf.
  rewrite E2 in Hf. injection Hf as <-.
  intros Hl. rewrite E3 in Hl. injection Hl as <-.
  split; [|split].
  - apply analyze_loop_accepted in E3. exact E3.
  - apply py_sort_reverse_perm.
  - intros c. apply (py_sort_reverse_stable confidence c found).
Qed.

(** X7: [analyze_contours] raises exactly when some contour passes the area
    filter and has a bounding box of height 0, and the exception is
    ZeroDivisionError; otherwise it returns the sorted candidates.  In the
    first case [detect_symbols] returns the empty list: one such contour
    hides every other candidate of the frame. *)
Theorem analyze_contours_zero_height
    (self : detector) (fr : frame) (contours : list contour) :
  analyze_contours self contours
  = (if existsb (zero_height_in_range self) contours
     then Raise ZeroDivisionError
     else Return (py_sort confidence true (accepted self contours))) /\
  (forall processed,
      preprocess_for_detection fr = Return processed ->
      find_symbol_contours processed = Return contours ->
      existsb (zero_height_in_range self) contours = true ->
      detect_symbols preprocess_for_detection find_symbol_contours self fr
      = Return []).
Proof.
  assert (analyze_contours self contours
          = (if existsb (zero_height_in_range self) contours
             then Raise ZeroDivisionError
             else Return (py_sort confidence true (accepted self contours)))) as E.
  { unfold analyze_contours. rewrite analyze_loop_zero_height.
    destruct (existsb _ contours); reflexivity. }
  split; [exact E|].
  intros processed Hp Hf Hz. unfold detect_symbols.
  rewrite Hp. simpl. rewrite Hf. simpl. rewrite E, Hz. reflexivity.
Qed.

End PipelineFacts.

(** A contour of 3000 pixels whose bounding box has height 0, between two
    contours that would be accepted. *)
Definition flat_contour : contour :=
  {| contour_area := 3000; bounding_rect := (10, 10, 50, 0)%Z |}.

Example zero_height_hides_candidates :
  analyze_contours (init ∅) [small_left; flat_contour; large_mid]
  = Raise ZeroDivisionError /\
  detect_symbols (fun fr : unit => Return fr)
    (fun _ => Return [small_left; flat_contour; large_mid]) (init ∅) tt
  = Return [].
Proof. split; vm_compute; reflexivity. Qed.

End DetectorFacts.

Module OCRFacts.
Import Py OCR.

Lemma in_armenian_block_iff (c : Z) :
  in_armenian_block c = true <-> (0x530 <= c <= 0x58F)%Z.
Proof. unfold in_armenian_block. lia. Qed.

Lemma in_armenian_block_not_space (c : Z) :
  in_armenian_block c = true -> is_space c = false.
Proof.
  intros H. apply in_armenian_block_iff in H. unfold is_space.
  rewrite (proj2 (Z.leb_gt c 0x0D)) by lia.
  rewrite (proj2 (Z.leb_gt c 0x20)) by lia.
  rewrite (proj2 (Z.leb_gt 0x2000 c)) by lia.
  rewrite (proj2 (Z.eqb_neq c 0x85)) by lia.
  rewrite (proj2 (Z.eqb_neq c 0xA0)) by lia.
  rewrite (proj2 (Z.eqb_neq c 0x1680)) by lia.
  rewrite (proj2 (Z.eqb_neq c 0x2028)) by lia.
  rewrite (proj2 (Z.eqb_neq c 0x2029)) by lia.
  rewrite (proj2 (Z.eqb_neq c 0x202F)) by lia.
  rewrite (proj2 (Z.eqb_neq c 0x205F)) by lia.
  rewrite (proj2 (Z.eqb_neq c 0x3000)) by lia.
  now rewrite !andb_false_r.
Qed.

(** C8: for every input string, every character of the text returned by
    [clean_armenian_text] lies in the Armenian block U+0530..U+058F, and the
    returned text is exactly the subsequence of the input's characters that
    lie in that block (empty when there is none). *)
Theorem clean_armenian_text_block_subset (text : pystr) :
  Forall (fun c => (0x530 <= c <= 0x58F)%Z) (clean_armenian_text text) /\
  clean_armenian_text text = List.filter in_armenian_block text.
Proof.
  assert (clean_armenian_text text = List.filter in_armenian_block text) as E.
  { destruct text as [|c0 text0]; [reflexivity|].
    unfold clean_armenian_text. cbv zeta.
    set (text := c0 :: text0).
    rewrite (strip_no_space (List.filter in_armenian_block _))
      by apply (filter_no_space in_armenian_block in_armenian_block_not_space).
    rewrite (filter_join_split in_armenian_block in_armenian_block_not_space)
      by reflexivity.
    rewrite !(filter_replace in_armenian_block) by reflexivity.
    apply (filter_strip in_armenian_block in_armenian_block_not_space). }
  split; [|exact E].
  rewrite E. apply List.Forall_forall. intros c Hc.
  apply List.filter_In in Hc as [_ Hc]. now apply in_armenian_block_iff.
Qed.

(** The dictionary built by the comprehension, read as a function. *)
Lemma symbol_to_id_lookup (c : Z) :
  symbol_to_id !! c
  = if ((0x531 <=? c) && (c <=? 0x554))%Z then Some (c - 0x531)%Z else None.
Proof.
  destruct ((0x531 <=? c) && (c <=? 0x554))%Z eqn:E.
  - assert (exists n, (n < 36)%nat /\ c = (0x531 + Z.of_nat n)%Z) as (n & Hn & ->).
    { exists (Z.to_nat (c - 0x531)). lia. }
    clear E.
    do 36 (destruct n as [|n]; [vm_compute; reflexivity|]). lia.
  - assert (symbol_to_id
            = list_to_map (map (fun p => (snd p, fst p)) (enumerate armenian_symbols)))
      as -> by (vm_compute; reflexivity).
    apply not_elem_of_list_to_map_1.
    intros Hin. apply list_elem_of_In in Hin. simpl in Hin. lia.
Qed.

Lemma armenian_symbols_elem (c : Z) :
  c ∈ armenian_symbols <-> (0x531 <= c <= 0x554)%Z.
Proof.
  rewrite list_elem_of_In. unfold armenian_symbols. simpl. lia.
Qed.

Lemma armenian_symbols_lookup (c : Z) :
  (0x531 <= c <= 0x554)%Z ->
  armenian_symbols !! Z.to_nat (c - 0x531) = Some c.
Proof.
  intros H.
  assert (exists n, (n < 36)%nat /\ c = (0x531 + Z.of_nat n)%Z) as (n & Hn & ->).
  { exists (Z.to_nat (c - 0x531)). lia. }
  replace (Z.to_nat (0x531 + Z.of_nat n - 0x531)) with n by lia.
  do 36 (destruct n as [|n]; [vm_compute; reflexivity|]). lia.
Qed.

(** C6: [get_symbol_id] is a total function of its argument that depends on
    the first character only: two texts with the same first character (or
    both empty) get the same result; the empty text and every text whose
    first character is not one of the 36 entries of [armenian_symbols] get
    [None]; a text whose first character is an entry gets the position of
    that entry in the table, a number from 0 to 35. *)
Theorem get_symbol_id_first_character :
  length armenian_symbols = 36%nat /\
  (forall s1 s2 : pystr, head s1 = head s2 -> get_symbol_id s1 = get_symbol_id s2) /\
  get_symbol_id [] = None /\
  (forall (c : Z) (rest : pystr),
      c ∉ armenian_symbols -> get_symbol_id (c :: rest) = None) /\
  (forall (c : Z) (rest : pystr),
      c ∈ armenian_symbols ->
      exists id : Z,
        get_symbol_id (c :: rest) = Some id /\
        (0 <= id < 36)%Z /\
        armenian_symbols !! Z.to_nat id = Some c).
Proof.
  split; [reflexivity|]. split; [|split; [reflexivity|split]].
  - intros [|c1 r1] [|c2 r2]; simpl; try discriminate; [reflexivity|].
    now intros [= ->].
  - intros c rest Hc. simpl. rewrite symbol_to_id_lookup.
    destruct ((0x531 <=? c) && (c <=? 0x554))%Z eqn:E; [|reflexivity].
    exfalso. apply Hc, armenian_symbols_elem. lia.
  - intros c rest Hc. apply armenian_symbols_elem in Hc.
    exists (c - 0x531)%Z. simpl. rewrite symbol_to_id_lookup.
    assert (((0x531 <=? c) && (c <=? 0x554))%Z = true) as -> by lia.
    split; [reflexivity|]. split; [lia|].
    now apply armenian_symbols_lookup.
Qed.

(** *** The cleaned text as a filter *)

Lemma clean_armenian_text_filter (text : pystr) :
  clean_armenian_text text = List.filter in_armenian_block text.
Proof.
  destruct text as [|c0 text0]; [reflexivity|].
  unfold clean_armenian_text. cbv zeta.
  rewrite (strip_no_space (List.filter in_armenian_block _))
    by apply (filter_no_space in_armenian_block in_armenian_block_not_space).
  rewrite (filter_join_split in_armenian_block in_armenian_block_not_space)
    by reflexivity.
  rewrite !(filter_replace in_armenian_block) by reflexivity.
  apply (filter_strip in_armenian_block in_armenian_block_not_space).
Qed.

Lemma filter_idempotent {A : Type} (f : A -> bool) (l : list A) :
  List.filter f (List.filter f l) = List.filter f l.
Proof.
  induction l as [|x l IH]; [reflexivity|]. simpl.
  destruct (f x) eqn:E; simpl; [rewrite E, IH; reflexivity | exact IH].
Qed.

(** X11: cleaning is idempotent and distributes over concatenation: text
    that has been cleaned is returned unchanged, and the cleaned form of two
    pieces of OCR output read one after the other is the concatenation of
    their cleaned forms, whatever whitespace or punctuation stands at the
    seam. *)
Theorem clean_armenian_text_idempotent_additive (text more : pystr) :
  clean_armenian_text (clean_armenian_text text) = clean_armenian_text text /\
  clean_armenian_text (text ++ more)
  = clean_armenian_text text ++ clean_armenian_text more.
Proof.
  rewrite !clean_armenian_text_filter. split.
  - apply filter_idempotent.
  - apply List.filter_app.
Qed.

(** X12: the symbol id of a raw OCR text is decided by its first character
    from the Armenian block alone: the id is that character's offset from
    U+0531 when it is one of the 36 capitals U+0531..U+0554, and [None] when
    there is no such character or when the first one is any other character
    of the block (a lower-case letter, a punctuation mark), even if a
    capital of the table follows. *)
Theorem get_symbol_id_of_cleaned (text : pystr) :
  get_symbol_id (clean_armenian_text text)
  = match List.find in_armenian_block text with
    | Some c => if ((0x531 <=? c) && (c <=? 0x554))%Z
                then Some (c - 0x531)%Z else None
    | None => None
    end.
Proof.
  rewrite clean_armenian_text_filter.
  induction text as [|c text IH]; [reflexivity|].
  simpl. destruct (in_armenian_block c) eqn:E; [|exact IH].
  simpl. apply symbol_to_id_lookup.
Qed.

Example lower_case_first_gives_no_id :
  get_symbol_id (clean_armenian_text [0x20; 0x561; 0x531; 0x532]%Z) = None /\
  get_symbol_id (clean_armenian_text [0x31; 0x2E; 0x532; 0x561]%Z) = Some 1%Z.
Proof. split; vm_compute; reflexivity. Qed.

(** X13: the table and the dictionary are inverse to each other: the symbol
    at position [i] of [armenian_symbols] gets the id [i], for every [i]
    from 0 to 35, and two characters with the same id are equal. *)
Theorem symbol_id_bijection :
  (forall i : Z,
      (0 <= i < 36)%Z ->
      exists c, armenian_symbols !! Z.to_nat i = Some c /\
                get_symbol_id [c] = Some i) /\
  (forall (c1 c2 : Z) (id : Z),
      get_symbol_id [c1] = Some id -> get_symbol_id [c2] = Some id -> c1 = c2).
Proof.
  split.
  - intros i Hi. exists (0x531 + i)%Z. split.
    + rewrite <- (armenian_symbols_lookup (0x531 + i)) by lia. f_equal. lia.
    + simpl. rewrite symbol_to_id_lookup.
      assert (((0x531 <=? 0x531 + i) && (0x531 + i <=? 0x554))%Z = true) as -> by lia.
      f_equal. lia.
  - intros c1 c2 id. simpl. rewrite !symbol_to_id_lookup.
    destruct ((0x531 <=? c1) && (c1 <=? 0x554))%Z; [|discriminate].
    destruct ((0x531 <=? c2) && (c2 <=? 0x554))%Z; [|discriminate].
    intros [= H1] [= H2]. lia.
Qed.

(** *** Tesseract options *)

(** X14: for a two-dimensional image [get_dynamic_config] returns options
    whose page segmentation mode is 6 above 100000 pixels, 8 above 20000 and
    10 otherwise, and whose dpi lies between 150 and 300: it is 150 for
    every image of fewer than 3020 * 3020 pixels and 300 from 6000 * 6000
    pixels on.  For an image with a channel axis it raises ValueError. *)
Theorem get_dynamic_config_range (img : image) :
  match channels img with
  | Some _ => get_dynamic_config img = Raise ValueError
  | None =>
      exists cfg,
        get_dynamic_config img = Return cfg /\
        psm cfg = (if (100000 <? width img * height img)%Z then 6
                   else if (20000 <? width img * height img)%Z then 8 else 10)%Z /\
        (150 <= dpi cfg <= 300)%Z /\
        ((width img * height img < 3020 * 3020)%Z -> dpi cfg = 150%Z) /\
        ((6000 * 6000 <= width img * height img)%Z -> dpi cfg = 300%Z)
  end.
Proof.
  unfold get_dynamic_config. destruct (channels img); [reflexivity|].
  eexists. split; [reflexivity|]. cbn [psm dpi].
  set (n := (width img * height img)%Z).
  split; [reflexivity|]. split; [lia|]. split.
  - intros Hn.
    assert (Z.sqrt n < 3020)%Z.
    { destruct (Z.le_gt_cases 0 n) as [H0 | H0].
      - apply Z.sqrt_lt_square; lia.
      - rewrite Z.sqrt_neg by lia. lia. }
    assert (Z.sqrt n / 20 < 151)%Z by (apply Z.div_lt_upper_bound; lia).
    lia.
  - intros Hn.
    assert (6000 <= Z.sqrt n)%Z.
    { apply Z.sqrt_le_square; lia. }
    assert (300 <= Z.sqrt n / 20)%Z by (apply Z.div_le_lower_bound; lia).
    lia.
Qed.

Section RecognizerFacts.
Variable pytesseract : option engine.
Variable preprocess_for_ocr : image -> exc image.

Lemma try_except_returns {A : Type} (body : exc A) (handler : exn -> A) :
  exists a, try_except body handler = Return a /\
            (forall e, body = Raise e -> a = handler e) /\
            (forall b, body = Return b -> a = b).
Proof.
  destruct body as [e | b]; simpl; eexists; (split; [reflexivity|]); split;
    intros ? [=]; congruence.
Qed.

(** C5: [recognize_armenian_text] returns a result on every input, whatever
    the OCR engine and the OpenCV stages do.  If the engine is unavailable,
    or the region is absent or has no element, the result is the dictionary
    with empty text, confidence 0.0 and symbol_id None; if a stage raises,
    the result has the same three values (and the key error). *)
Theorem recognize_armenian_text_never_raises (image_region : option image) :
  exists r,
    recognize_armenian_text pytesseract preprocess_for_ocr image_region = Return r /\
    (pytesseract = None \/ image_region = None \/
     (exists region, image_region = Some region /\ size region = 0%Z) ->
     r = empty_result /\
     text r = [] /\ confidence r = 0%Q /\ symbol_id r = None) /\
    (forall e,
        recognize_body pytesseract preprocess_for_ocr image_region = Raise e ->
        text r = [] /\ confidence r = 0%Q /\ symbol_id r = None /\ error r = Some e).
Proof.
  unfold recognize_armenian_text.
  destruct (try_except_returns
              (recognize_body pytesseract preprocess_for_ocr image_region)
              (fun e => {| text := []; confidence := 0; symbol_id := None;
                           raw_text := None; word_confidences := None;
                           error := Some e |}))
    as (r & Hr & Hraise & Hret).
  exists r. split; [exact Hr|]. split.
  - intros Hcase.
    assert (recognize_body pytesseract preprocess_for_ocr image_region
            = Return empty_result) as Hbody.
    { unfold recognize_body.
      destruct pytesseract as [tess|]; [|reflexivity].
      destruct image_region as [region|]; [|reflexivity].
      destruct Hcase as [H | [H | (region' & [= <-] & Hsize)]]; try discriminate.
      rewrite Hsize. reflexivity. }
    rewrite (Hret _ Hbody). repeat split.
  - intros e He. rewrite (Hraise _ He). repeat split.
Qed.

(** *** What a result holds *)

Lemma positive_confidences_positive (cells : list (exc Z)) :
  forall l, positive_confidences cells = Return l -> Forall (fun n => (0 < n)%Z) l.
Proof.
  induction cells as [|cell rest IH]; intros l; simpl.
  - intros [= <-]. constructor.
  - destruct cell as [e | n]; simpl; [discriminate|].
    destruct (positive_confidences rest) as [e | tail]; simpl; [discriminate|].
    intros [= <-]. specialize (IH tail eq_refl).
    destruct (0 <? n)%Z eqn:E; [|exact IH].
    constructor; [lia | exact IH].
Qed.

Lemma sum_bounds (hi : Z) (l : list Z) :
  Forall (fun n => (0 < n)%Z) l ->
  (Z.of_nat (length l) <= fold_right Z.add 0 l)%Z /\
  (Forall (fun n => (n <= hi)%Z) l ->
   (fold_right Z.add 0 l <= hi * Z.of_nat (length l))%Z).
Proof.
  induction 1 as [|n l Hn _ [IH1 IH2]]; simpl.
  - split; [lia | intros _; lia].
  - split; [lia|]. intros Hhi. inversion Hhi; subst.
    specialize (IH2 ltac:(assumption)). lia.
Qed.

Lemma mean_bounds (l : list Z) :
  l <> [] ->
  Forall (fun n => (0 < n)%Z) l ->
  (1 <= mean l)%Q /\
  (Forall (fun n => (n <= 100)%Z) l -> (mean l <= 100)%Q).
Proof.
  intros Hne Hpos. destruct (sum_bounds 100 l Hpos) as [H1 H2].
  unfold mean.
  assert (0 < Z.of_nat (length l))%Z as Hlen by (destruct l; simpl; [congruence | lia]).
  destruct (Z.of_nat (length l)) as [|p|p] eqn:E; try lia.
  split.
  - unfold Qle, Qdiv, Qmult, Qinv, inject_Z. simpl. lia.
  - intros Hhi. specialize (H2 Hhi).
    unfold Qle, Qdiv, Qmult, Qinv, inject_Z. simpl. lia.
Qed.

Lemma recognize_body_Return (image_region : option image) (r : ocr_result) :
  recognize_body pytesseract preprocess_for_ocr image_region = Return r ->
  r = empty_result \/
  exists raw l,
    Forall (fun n => (0 < n)%Z) l /\
    r = {| text := clean_armenian_text raw;
           confidence := (match l with [] => 0 | _ => mean l end / 100.0)%Q;
           symbol_id := get_symbol_id (clean_armenian_text raw);
           raw_text := Some raw;
           word_confidences := Some l;
           error := None |}.
Proof.
  unfold recognize_body.
  destruct pytesseract as [tess|]; [|intros [= <-]; now left].
  destruct image_region as [region|]; [|intros [= <-]; now left].
  destruct (size region =? 0)%Z; [intros [= <-]; now left|].
  destruct (preprocess_for_ocr region) as [e | processed]; [discriminate|]. simpl.
  destruct (get_dynamic_config processed) as [e | config]; [discriminate|]. simpl.
  destruct (image_to_string tess processed config) as [e | raw]; [discriminate|]. simpl.
  destruct (image_to_data tess processed config) as [e | data]; [discriminate|]. simpl.
  destruct (positive_confidences data) as [e | l] eqn:El; [discriminate|]. simpl.
  intros [= <-]. right. exists raw, l. split; [|reflexivity].
  now apply positive_confidences_positive in El.
Qed.

(** X15: every result returned by [recognize_armenian_text] is coherent: its
    text holds only characters of the Armenian block, its symbol_id is the
    id of the first character of that text, and its confidence is not
    negative.  When the result lists word confidences, these are the
    strictly positive cell values only; the confidence is then at least
    0.01 if the list is not empty and 0 if it is, and it is at most 1
    provided the engine reports no value above 100.  A result without that
    list has empty text, confidence 0 and no symbol_id. *)
Theorem recognize_result_coherent (image_region : option image) (r : ocr_result) :
  recognize_armenian_text pytesseract preprocess_for_ocr image_region = Return r ->
  Forall (fun c => (0x530 <= c <= 0x58F)%Z) (text r) /\
  symbol_id r = get_symbol_id (text r) /\
  (0 <= confidence r)%Q /\
  (forall l,
      word_confidences r = Some l ->
      Forall (fun n => (0 < n)%Z) l /\
      (l <> [] -> (0.01 <= confidence r)%Q) /\
      (l = [] -> (confidence r == 0)%Q) /\
      (Forall (fun n => (n <= 100)%Z) l -> (confidence r <= 1)%Q)) /\
  (word_confidences r = None ->
   text r = [] /\ confidence r = 0%Q /\ symbol_id r = None).
Proof.
  unfold recognize_armenian_text.
  destruct (recognize_body pytesseract preprocess_for_ocr image_region)
    as [e | b] eqn:Hbody; simpl; intros [= <-].
  { simpl. repeat split; try constructor; try discriminate. }
  apply recognize_body_Return in Hbody as [-> | (raw & l & Hpos & ->)].
  { simpl. repeat split; try constructor; try discriminate. }
  cbn [text symbol_id confidence word_confidences].
  split.
  { rewrite clean_armenian_text_filter. apply List.Forall_forall. intros c Hc.
    apply List.filter_In in Hc as [_ Hc]. now apply in_armenian_block_iff. }
  split; [reflexivity|].
  assert (l <> [] -> (1 <= mean l)%Q /\
                     (Forall (fun n => (n <= 100)%Z) l -> (mean l <= 100)%Q)) as Hmean.
  { intros Hne. now apply mean_bounds. }
  split.
  { destruct l as [|n l]; [vm_compute; discriminate|].
    destruct Hmean as [H1 _]; [discriminate|].
    apply Qle_shift_div_l; [reflexivity | lra]. }
  split; [|discriminate].
  intros l' [= <-]. split; [exact Hpos|]. split; [|split].
  - intros Hne. destruct (Hmean Hne) as [H1 _].
    destruct l as [|n l]; [congruence|].
    apply Qle_shift_div_l; [reflexivity | lra].
  - intros ->. reflexivity.
  - intros Hhi. destruct l as [|n l]; [vm_compute; discriminate|].
    destruct Hmean as [_ H2]; [discriminate|]. specialize (H2 Hhi).
    apply Qle_shift_div_r; [reflexivity | lra].
Qed.

End RecognizerFacts.

(** An engine whose [image_to_data] raises, as a missing language model does. *)
Definition failing_engine : engine :=
  {| image_to_string := fun _ _ => Return [0x531; 0x0A]%Z;
     image_to_data := fun _ _ => Raise (LibraryError "TesseractError") |}.

(** An engine that reads the letter U+0532 with confidences -1 and 96. *)
Definition reading_engine : engine :=
  {| image_to_string := fun _ _ => Return [0x20; 0x532; 0x0A; 0x0C]%Z;
     image_to_data := fun _ _ => Return [Return (-1)%Z; Return 96%Z] |}.

Definition region_40x40 : image :=
  {| height := 40; width := 40; channels := Some 3%Z; pixels := [] |}.

Definition to_gray (img : image) : exc image :=
  Return {| height := 4 * height img; width := 4 * width img;
            channels := None; pixels := [] |}.

Example recognize_reads :
  recognize_armenian_text (Some reading_engine) to_gray (Some region_40x40)
  = Return {| text := [0x532]%Z; confidence := (96 / 1 / 100.0)%Q;
              symbol_id := Some 1%Z;
              raw_text := Some [0x20; 0x532; 0x0A; 0x0C]%Z;
              word_confidences := Some [96%Z]; error := None |}.
Proof. vm_compute. reflexivity. Qed.

Example recognize_engine_failure :
  recognize_armenian_text (Some failing_engine) to_gray (Some region_40x40)
  = Return {| text := []; confidence := 0; symbol_id := None;
              raw_text := None; word_confidences := None;
              error := Some (LibraryError "TesseractError") |}.
Proof. vm_compute. reflexivity. Qed.

Lemma recognize_result_coherent_witness :
  exists r,
    recognize_armenian_text (Some reading_engine) to_gray (Some region_40x40)
    = Return r /\
    symbol_id r = get_symbol_id (text r) /\ (0 <= confidence r)%Q.
Proof.
  assert (exists r, recognize_armenian_text (Some reading_engine) to_gray
                      (Some region_40x40) = Return r) as [r Hr].
  { eexists. vm_compute. reflexivity. }
  exists r. split; [exact Hr|].
  destruct (recognize_result_coherent (Some reading_engine) to_gray
              (Some region_40x40) r Hr) as (_ & Hid & Hconf & _).
  split; assumption.
Defined.

End OCRFacts.

Module LoggerFacts.
Import Py Logger.

(** Everything recorded so far: what is in the file followed by what is
    still buffered. *)
Definition all_rows (s : logger) : list detection_data :=
  current_flight_file s ++ data_buffer s.
Definition all_entries (s : logger) : list competition_entry :=
  competition_csv_file s ++ csv_buffer s.

Lemma excel_flushes_emit (r : log_record) (s : logger) :
  excel_flushes (emit r s)
  = (excel_flushes s + match r with FlushedExcel _ => 1 | _ => 0 end)%nat.
Proof.
  unfold excel_flushes, emit. simpl.
  rewrite List.filter_app, length_app. destruct r; reflexivity.
Qed.

Lemma write_ok_Written (io : io_outcome) : write_ok io = true -> write io = Written.
Proof. unfold write_ok. destruct (write io); [reflexivity | discriminate]. Qed.

Lemma append_ok_Appended (io : io_outcome) :
  append_ok io = true -> append io = Appended.
Proof. unfold append_ok. destruct (append io); [reflexivity | discriminate]. Qed.

(** A flush whose write fails keeps the buffer, whatever it did to the file. *)
Lemma flush_to_excel_failed (io : io_outcome) (s : logger) :
  write_ok io = false ->
  data_buffer (flush_to_excel io s) = data_buffer s.
Proof.
  unfold write_ok, flush_to_excel. intros H.
  destruct (data_buffer s) eqn:E; [now rewrite E|].
  destruct (write io); [discriminate|]. reflexivity.
Qed.

Lemma flush_to_competition_csv_failed (io : io_outcome) (s : logger) :
  append_ok io = false ->
  csv_buffer (flush_to_competition_csv io s) = csv_buffer s.
Proof.
  unfold append_ok, flush_to_competition_csv. intros H.
  destruct (csv_buffer s) eqn:E; [now rewrite E|].
  destruct (append io); [discriminate|]. reflexivity.
Qed.

(** Both flushes with a working file system. *)
Lemma flush_both_ok (io : io_outcome) (s : logger) :
  io_succeeds io = true ->
  let s' := flush_to_competition_csv io (flush_to_excel io s) in
  data_buffer s' = [] /\ csv_buffer s' = [] /\
  current_flight_file s' = all_rows s /\
  competition_csv_file s' = all_entries s /\
  excel_flushes s'
  = (excel_flushes s + match data_buffer s with [] => 0 | _ => 1 end)%nat.
Proof.
  unfold io_succeeds. intros H.
  apply andb_true_iff in H as [H Ha]. apply andb_true_iff in H as [Hr Hw].
  apply write_ok_Written in Hw. apply append_ok_Appended in Ha.
  unfold all_rows, all_entries, flush_to_excel, flush_to_competition_csv, excel_flushes.
  destruct s as [db cb ff cf lg]. simpl.
  rewrite Hr, Hw.
  destruct db as [|r db], cb as [|e cb]; simpl; rewrite ?Ha; simpl;
    rewrite ?app_nil_r, ?List.filter_app, ?length_app; simpl;
    repeat split; lia.
Qed.

Section LogDetectionFacts.
Variable format_timestamp : float -> exc string.

Abbreviation log1 := (log_detection format_timestamp).
Abbreviation run := (log_detections format_timestamp).
Abbreviation rows := (recorded_rows format_timestamp).
Abbreviation entries := (recorded_entries format_timestamp).

Definition step_ok (p : io_outcome * call) : Prop :=
  io_succeeds (fst p) = true /\ call_succeeds format_timestamp (snd p) = true.

Lemma after_append_ok (io : io_outcome) (s : logger) :
  io_succeeds io = true ->
  let s' := after_append io s in
  all_rows s' = all_rows s /\
  all_entries s' = all_entries s /\
  ((length (data_buffer s) < 5)%nat ->
   data_buffer s' = data_buffer s /\ csv_buffer s' = csv_buffer s /\
   excel_flushes s' = excel_flushes s) /\
  ((5 <= length (data_buffer s))%nat ->
   data_buffer s' = [] /\ csv_buffer s' = [] /\
   excel_flushes s' = S (excel_flushes s)).
Proof.
  intros Hio. unfold after_append. cbv zeta.
  destruct (5 <=? length (data_buffer s))%nat eqn:E.
  - apply Nat.leb_le in E.
    destruct (flush_both_ok io s Hio) as (Hd & Hc & Hf & Hv & Hn).
    cbv zeta in *.
    set (s' := flush_to_competition_csv io (flush_to_excel io s)) in *.
    rewrite excel_flushes_emit. unfold all_rows, all_entries in *. simpl.
    rewrite Hd, Hc, Hf, Hv, Hn, !app_nil_r.
    destruct (data_buffer s); simpl in *; repeat split; try lia.
  - apply Nat.leb_gt in E. rewrite excel_flushes_emit.
    unfold all_rows, all_entries. simpl. repeat split; lia.
Qed.

(** One successful call. *)
Lemma log_detection_ok (io : io_outcome) (c : call) (s : logger) :
  step_ok (io, c) ->
  let s' := log1 io c s in
  all_rows s' = all_rows s ++ rows [(io, c)] /\
  all_entries s' = all_entries s ++ entries [(io, c)] /\
  ((length (data_buffer s) < 4)%nat ->
   length (data_buffer s') = S (length (data_buffer s)) /\
   excel_flushes s' = excel_flushes s) /\
  ((4 <= length (data_buffer s))%nat ->
   data_buffer s' = [] /\ csv_buffer s' = [] /\
   excel_flushes s' = S (excel_flushes s)).
Proof.
  intros [Hio Hc]. simpl in Hio, Hc. cbv zeta.
  unfold log_detection, call_succeeds, recorded_rows, recorded_entries in *.
  simpl. rewrite !app_nil_r.
  destruct (format_timestamp (timestamp c)) as [e | ts]; [discriminate|].
  destruct (arg_symbol_id c) as [id|].
  - destruct (GPS.format_for_competition (gps_lat c) (gps_lon c))
      as [e | [a b]]; [discriminate|].
    set (s1 := append_entry _ (append_row _ s)).
    destruct (after_append_ok io s1 Hio) as (Hr & He & Hlt & Hge).
    cbv zeta in *. rewrite Hr, He.
    unfold all_rows, all_entries in *. subst s1. simpl in *.
    rewrite length_app in *. simpl in *.
    rewrite !app_assoc. repeat split; intros; try (apply Hge; lia).
    + destruct Hlt as (-> & _ & _); [lia|]. rewrite length_app. simpl. lia.
    + destruct Hlt as (_ & _ & ->); [lia|]. reflexivity.
  - set (s1 := append_row _ s).
    destruct (after_append_ok io s1 Hio) as (Hr & He & Hlt & Hge).
    cbv zeta in *. rewrite Hr, He.
    unfold all_rows, all_entries in *. subst s1. simpl in *.
    rewrite length_app in *. simpl in *.
    rewrite !app_assoc, ?app_nil_r. repeat split; intros; try (apply Hge; lia).
    + destruct Hlt as (-> & _ & _); [lia|]. rewrite length_app. simpl. lia.
    + destruct Hlt as (_ & _ & ->); [lia|]. reflexivity.
Qed.

Lemma rows_cons (p : io_outcome * call) (calls : list (io_outcome * call)) :
  rows (p :: calls) = rows [p] ++ rows calls.
Proof. unfold recorded_rows. simpl. now rewrite app_nil_r. Qed.

Lemma entries_cons (p : io_outcome * call) (calls : list (io_outcome * call)) :
  entries (p :: calls) = entries [p] ++ entries calls.
Proof. unfold recorded_entries. simpl. now rewrite app_nil_r. Qed.

(** Any number of successful calls, started with fewer than five buffered rows. *)
Lemma log_detections_ok (calls : list (io_outcome * call)) :
  forall s : logger,
    Forall step_ok calls ->
    (length (data_buffer s) < 5)%nat ->
    let s' := run calls s in
    all_rows s' = all_rows s ++ rows calls /\
    all_entries s' = all_entries s ++ entries calls /\
    length (data_buffer s') = ((length (data_buffer s) + length calls) mod 5)%nat /\
    excel_flushes s'
    = (excel_flushes s + (length (data_buffer s) + length calls) / 5)%nat /\
    ((data_buffer s = [] -> csv_buffer s = []) ->
     data_buffer s' = [] -> csv_buffer s' = []).
Proof.
  induction calls as [|[io c] rest IH]; intros s Hok Hlen; cbv zeta.
  - cbn [log_detections length]. unfold recorded_rows, recorded_entries.
    cbn [flat_map]. rewrite !app_nil_r, Nat.add_0_r.
    rewrite Nat.mod_small, Nat.div_small by lia.
    repeat split; try lia. tauto.
  - inversion Hok as [|? ? Hstep Hrest]; subst.
    destruct (log_detection_ok io c s Hstep) as (Hr & He & Hlt & Hge).
    cbv zeta in *. cbn [log_detections].
    set (s1 := log_detection format_timestamp io c s) in *.
    assert (Hlen1 : (length (data_buffer s1) < 5)%nat).
    { destruct (Nat.lt_ge_cases (length (data_buffer s)) 4) as [H | H].
      - destruct (Hlt H) as [-> _]. lia.
      - destruct (Hge H) as [-> _]. simpl. lia. }
    destruct (IH s1 Hrest Hlen1) as (IHr & IHe & IHl & IHf & IHc).
    cbv zeta in *.
    rewrite (rows_cons (io, c) rest), (entries_cons (io, c) rest).
    rewrite IHr, IHe, IHl, IHf, Hr, He, <- !app_assoc.
    split; [reflexivity|]. split; [reflexivity|].
    destruct (Nat.lt_ge_cases (length (data_buffer s)) 4) as [H | H].
    + destruct (Hlt H) as [Hl1 Hf1]. rewrite Hl1, Hf1. cbn [length].
      split; [f_equal; lia|]. split; [f_equal; f_equal; lia|].
      intros _. apply IHc. intros H0. rewrite H0 in Hl1. discriminate.
    + destruct (Hge H) as (Hd1 & Hc1 & Hf1). rewrite Hd1, Hf1. cbn [length].
      assert (length (data_buffer s) = 4)%nat as -> by lia.
      split; [|split].
      * change (4 + S (length rest))%nat with (5 + length rest)%nat.
        replace (5 + length rest)%nat with (length rest + 1 * 5)%nat by lia.
        now rewrite Nat.Div0.mod_add.
      * replace (4 + S (length rest))%nat with (length rest + 1 * 5)%nat by lia.
        rewrite Nat.div_add by lia. simpl. lia.
      * intros _. apply IHc. intros _. exact Hc1.
Qed.

(** C3, amended: start from a logger whose buffers are empty (a new one, or
    one that has just flushed) and let every call and every file operation
    succeed: the workbook is read back and written and the coordinate file
    is appended to.  After five calls of [log_detection] exactly one flush
    has been logged, both buffers are empty, and the workbook and the
    coordinate file have grown by exactly the rows and the entries of those
    calls.  After any number of calls followed by [close], both buffers are
    empty and the workbook and the coordinate file hold what they held
    before followed by each recorded row and each recorded entry once, in
    the order of the calls.  A buffer is cleared only by a flush whose write
    (or append) returned: one that raises keeps its buffer, whatever it did
    to the file. *)
Theorem batch_flush_and_close
    (s : logger) (calls : list (io_outcome * call)) (io_close : io_outcome) :
  data_buffer s = [] ->
  csv_buffer s = [] ->
  Forall step_ok calls ->
  io_succeeds io_close = true ->
  (length calls = 5%nat ->
   excel_flushes (run calls s) = S (excel_flushes s) /\
   data_buffer (run calls s) = [] /\
   csv_buffer (run calls s) = [] /\
   current_flight_file (run calls s) = current_flight_file s ++ rows calls /\
   competition_csv_file (run calls s) = competition_csv_file s ++ entries calls) /\
  (data_buffer (close io_close (run calls s)) = [] /\
   csv_buffer (close io_close (run calls s)) = [] /\
   current_flight_file (close io_close (run calls s))
   = current_flight_file s ++ rows calls /\
   competition_csv_file (close io_close (run calls s))
   = competition_csv_file s ++ entries calls) /\
  (forall io s0,
      write_ok io = false ->
      data_buffer (flush_to_excel io s0) = data_buffer s0) /\
  (forall io s0,
      append_ok io = false ->
      csv_buffer (flush_to_competition_csv io s0) = csv_buffer s0).
Proof.
  intros Hdb Hcb Hok Hio.
  assert (Hlen : (length (data_buffer s) < 5)%nat) by (rewrite Hdb; simpl; lia).
  destruct (log_detections_ok calls s Hok Hlen) as (Hr & He & Hl & Hf & Hc).
  cbv zeta in *. unfold all_rows, all_entries in *.
  rewrite Hdb, Hcb, !app_nil_r in *. simpl in *.
  split; [|split; [|split]].
  - intros H5. rewrite H5 in *. simpl in Hl, Hf.
    apply length_zero_iff_nil in Hl.
    specialize (Hc (fun _ => eq_refl) Hl).
    rewrite Hl, Hc, !app_nil_r in *. repeat split; try assumption. lia.
  - unfold close.
    destruct (flush_both_ok io_close (run calls s) Hio) as (Hd' & Hc' & Hf' & Hv' & _).
    cbv zeta in *. unfold all_rows, all_entries in *.
    rewrite Hd', Hc', Hf', Hv', Hr, He. repeat split.
  - intros io s0. apply flush_to_excel_failed.
  - intros io s0. apply flush_to_competition_csv_failed.
Qed.

End LogDetectionFacts.

(** *** Any behaviour of the file system *)


(** With readable workbook and failures that leave the files alone. *)
Lemma flush_both_clean (io : io_outcome) (s : logger) :
  read_ok io = true ->
  fails_cleanly io = true ->
  let s' := flush_to_competition_csv io (flush_to_excel io s) in
  all_rows s' = all_rows s /\ all_entries s' = all_entries s.
Proof.
  unfold fails_cleanly, all_rows, all_entries, flush_to_excel,
    flush_to_competition_csv.
  intros Hr Hclean. destruct s as [db cb ff cf lg].
  cbn [data_buffer csv_buffer current_flight_file competition_csv_file log].
  rewrite Hr.
  destruct db as [|r db], cb as [|e cb];
    destruct (write io) as [|[]]; destruct (append io) as [|[|k]];
    try discriminate;
    cbn [data_buffer csv_buffer current_flight_file competition_csv_file log take];
    rewrite ?app_nil_r; split; reflexivity.
Qed.

Section AnyOutcome.
Variable format_timestamp : float -> exc string.

Abbreviation log1 := (log_detection format_timestamp).
Abbreviation run := (log_detections format_timestamp).
Abbreviation rows := (recorded_rows format_timestamp).
Abbreviation entries := (recorded_entries format_timestamp).


Lemma after_append_clean (io : io_outcome) (s : logger) :
  read_ok io = true ->
  fails_cleanly io = true ->
  all_rows (after_append io s) = all_rows s /\
  all_entries (after_append io s) = all_entries s.
Proof.
  intros Hr Hclean. unfold after_append.
  destruct (5 <=? length (data_buffer s))%nat.
  - exact (flush_both_clean io s Hr Hclean).
  - split; reflexivity.
Qed.

(** The state in which [log_detection] reaches the flush test, or ends
    without reaching it. *)
Lemma log_detection_shape (io : io_outcome) (c : call) (s : logger) :
  exists s1 : logger,
    (log1 io c s = after_append io s1 \/
     (all_rows (log1 io c s) = all_rows s1 /\
      all_entries (log1 io c s) = all_entries s1 /\
      data_buffer (log1 io c s) = data_buffer s1 /\
      csv_buffer (log1 io c s) = csv_buffer s1)) /\
    data_buffer s1 = data_buffer s ++ rows [(io, c)] /\
    csv_buffer s1 = csv_buffer s ++ entries [(io, c)] /\
    current_flight_file s1 = current_flight_file s /\
    competition_csv_file s1 = competition_csv_file s.
Proof.
  unfold log_detection, recorded_rows, recorded_entries. simpl.
  destruct (format_timestamp (timestamp c)) as [e | ts]; simpl.
  { exists s. rewrite !app_nil_r. split; [right|]; repeat split; reflexivity. }
  destruct (arg_symbol_id c) as [id|].
  - destruct (GPS.format_for_competition (gps_lat c) (gps_lon c)) as [e | [a b]]; simpl.
    + exists (append_row (make_row ts c) s). rewrite !app_nil_r.
      split; [right|]; repeat split; reflexivity.
    + eexists. split; [left; reflexivity|]. simpl. repeat split; reflexivity.
  - eexists. split; [left; reflexivity|]. simpl. rewrite !app_nil_r.
    repeat split; reflexivity.
Qed.


Lemma log_detection_clean (io : io_outcome) (c : call) (s : logger) :
  read_ok io = true ->
  fails_cleanly io = true ->
  all_rows (log1 io c s) = all_rows s ++ rows [(io, c)] /\
  all_entries (log1 io c s) = all_entries s ++ entries [(io, c)].
Proof.
  intros Hr Hclean.
  destruct (log_detection_shape io c s) as (s1 & Hcase & Hd & Hc & Hf & Hv).
  assert (all_rows s1 = all_rows s ++ rows [(io, c)]) as Er
      by (unfold all_rows; now rewrite Hd, Hf, app_assoc).
  assert (all_entries s1 = all_entries s ++ entries [(io, c)]) as Ee
      by (unfold all_entries; now rewrite Hc, Hv, app_assoc).
  rewrite <- Er, <- Ee.
  destruct Hcase as [-> | (Hr' & He' & _)].
  - now apply after_append_clean.
  - now rewrite Hr', He'.
Qed.


Lemma log_detections_clean (calls : list (io_outcome * call)) :
  forall s : logger,
    Forall (fun p => read_ok (fst p) = true /\ fails_cleanly (fst p) = true) calls ->
    all_rows (run calls s) = all_rows s ++ rows calls /\
    all_entries (run calls s) = all_entries s ++ entries calls.
Proof.
  induction calls as [|[io c] rest IH]; intros s Hall.
  - simpl. unfold recorded_rows, recorded_entries. simpl. rewrite !app_nil_r.
    split; reflexivity.
  - cbn [log_detections].
    inversion Hall as [|? ? [Hr Hclean] Hrest]; subst. simpl in Hr, Hclean.
    destruct (log_detection_clean io c s Hr Hclean) as [Er Ee].
    destruct (IH (log_detection format_timestamp io c s) Hrest) as [IHr IHe].
    rewrite (rows_cons format_timestamp (io, c) rest),
            (entries_cons format_timestamp (io, c) rest), !app_assoc.
    now rewrite IHr, IHe, Er, Ee.
Qed.

(** X16: as long as the workbook can be read back and every write or append
    that fails does so before it has changed its file, nothing that was
    recorded is lost or repeated, whichever calls raise: the rows in the
    workbook followed by the buffered rows are always the earlier ones
    followed by the recorded rows, in order, and likewise for the coordinate
    entries.  A [close] during which the file system works then leaves both
    buffers empty and both files complete. *)
Theorem recorded_rows_conserved
    (s : logger) (calls : list (io_outcome * call)) (io_close : io_outcome) :
  Forall (fun p => read_ok (fst p) = true /\ fails_cleanly (fst p) = true) calls ->
  current_flight_file (run calls s) ++ data_buffer (run calls s)
  = (current_flight_file s ++ data_buffer s) ++ rows calls /\
  competition_csv_file (run calls s) ++ csv_buffer (run calls s)
  = (competition_csv_file s ++ csv_buffer s) ++ entries calls /\
  (io_succeeds io_close = true ->
   data_buffer (close io_close (run calls s)) = [] /\
   csv_buffer (close io_close (run calls s)) = [] /\
   current_flight_file (close io_close (run calls s))
   = (current_flight_file s ++ data_buffer s) ++ rows calls /\
   competition_csv_file (close io_close (run calls s))
   = (competition_csv_file s ++ csv_buffer s) ++ entries calls).
Proof.
  intros Hclean.
  destruct (log_detections_clean calls s Hclean) as [Hr He].
  unfold all_rows, all_entries in *.
  split; [exact Hr|]. split; [exact He|].
  intros Hio. unfold close.
  destruct (flush_both_ok io_close (run calls s) Hio) as (Hd & Hc & Hf & Hv & _).
  cbv zeta in *. unfold all_rows, all_entries in *.
  rewrite Hd, Hc, Hf, Hv, Hr, He. repeat split.
Qed.


(** X18: a call that carries a symbol id and coordinates whose binary64
    product with 1e7 is not finite (NaN or an infinity) is logged as an
    error after its row has been put in the detection buffer: the row stays
    buffered, no coordinate entry is made, and the flush test is skipped
    even when five or more rows are now buffered. *)
Theorem non_finite_coordinates_skip_flush
    (io : io_outcome) (c : call) (s : logger) (ts : string) (id : Z) :
  format_timestamp (timestamp c) = Return ts ->
  arg_symbol_id c = Some id ->
  GPS.finite_float (gps_lat c * 1e7) && GPS.finite_float (gps_lon c * 1e7) = false ->
  data_buffer (log1 io c s) = data_buffer s ++ [make_row ts c] /\
  csv_buffer (log1 io c s) = csv_buffer s /\
  current_flight_file (log1 io c s) = current_flight_file s /\
  competition_csv_file (log1 io c s) = competition_csv_file s /\
  excel_flushes (log1 io c s) = excel_flushes s /\
  exists e, log (log1 io c s) = log s ++ [LoggedError e].
Proof.
  intros Hts Hid Hfin. unfold log_detection. rewrite Hts, Hid.
  destruct (GPS.format_for_competition (gps_lat c) (gps_lon c)) as [e | r] eqn:E.
  - rewrite excel_flushes_emit. simpl. rewrite Nat.add_0_r.
    repeat split. exists e. reflexivity.
  - exfalso.
    destruct (proj1 (GPSFacts.format_for_competition_returns_iff _ _)
                (ex_intro _ r E)) as [Ha Hb].
    rewrite Ha, Hb in Hfin. discriminate.
Qed.

(** X19: a call that succeeds while the file system works leaves fewer than
    five rows buffered, whatever was buffered before; if four or more rows
    were buffered (left over from flushes that failed), it flushes them all:
    both buffers end empty and both files hold everything recorded so far. *)
Theorem successful_call_clears_backlog
    (io : io_outcome) (c : call) (s : logger) :
  io_succeeds io = true ->
  call_succeeds format_timestamp c = true ->
  length (data_buffer (log1 io c s)) < 5 /\
  (4 <= length (data_buffer s) ->
   data_buffer (log1 io c s) = [] /\
   csv_buffer (log1 io c s) = [] /\
   current_flight_file (log1 io c s)
   = (current_flight_file s ++ data_buffer s) ++ rows [(io, c)] /\
   competition_csv_file (log1 io c s)
   = (competition_csv_file s ++ csv_buffer s) ++ entries [(io, c)]).
Proof.
  intros Hio Hc.
  destruct (log_detection_ok format_timestamp io c s (conj Hio Hc))
    as (Hr & He & Hlt & Hge).
  cbv zeta in *. unfold all_rows, all_entries in *. split.
  - destruct (Nat.lt_ge_cases (length (data_buffer s)) 4) as [H | H].
    + destruct (Hlt H) as [-> _]. lia.
    + destruct (Hge H) as (-> & _). simpl. lia.
  - intros H. destruct (Hge H) as (Hd & Hcb & _).
    rewrite Hd, Hcb, !app_nil_r in *. repeat split; assumption.
Qed.

End AnyOutcome.

(** *** A concrete flight *)

Definition io_fine : io_outcome :=
  {| read_ok := true; write := Written; append := Appended |}.
Definition io_unreadable : io_outcome :=
  {| read_ok := false; write := Written; append := Appended |}.

Definition clock (t : float) : exc string :=
  if PrimFloat.is_nan t then Raise ValueError else Return "2025-06-01 12:00:00.000"%string.

Definition sighting (id : option Z) (x : Z) : call :=
  {| symbol := [0x531]%Z; confidence := 0x1.d70a3d70a3d71p-1%float;
     gps_lat := 0x1.416ae7d566cf4p+5%float; gps_lon := 0x1.64072b020c49cp+5%float;
     gps_alt := 85%float; timestamp := 1748779200%float;
     image_path := "images/20250601/detection.jpg"%string;
     detection_bbox := (x, 50, 76, 76)%Z; arg_symbol_id := id |}.

Definition five_sightings : list (io_outcome * call) :=
  [ (io_fine, sighting (Some 0%Z) 10); (io_fine, sighting None 20);
    (io_fine, sighting (Some 7%Z) 30); (io_fine, sighting (Some 0%Z) 40);
    (io_fine, sighting None 50) ].

Lemma batch_flush_and_close_witness :
  excel_flushes (log_detections clock five_sightings init) = 1%nat /\
  data_buffer (log_detections clock five_sightings init) = [] /\
  length (current_flight_file (log_detections clock five_sightings init)) = 5%nat /\
  length (competition_csv_file (log_detections clock five_sightings init)) = 3%nat /\
  current_flight_file (close io_fine (log_detections clock five_sightings init))
  = recorded_rows clock five_sightings.
Proof.
  assert (Forall (step_ok clock) five_sightings) as Hok.
  { repeat constructor. }
  destruct (batch_flush_and_close clock init five_sightings io_fine
              eq_refl eq_refl Hok eq_refl)
    as (Hfive & (_ & _ & Hclose & _) & _).
  destruct (Hfive eq_refl) as (Hflush & Hbuf & _ & Hfile & Hcsv).
  split; [exact Hflush|]. split; [exact Hbuf|].
  split; [rewrite Hfile; reflexivity|].
  split; [rewrite Hcsv; reflexivity|].
  exact Hclose.
Defined.

(** *** Outside the hypotheses *)

Definition io_part_appended : io_outcome :=
  {| read_ok := true; write := Written; append := AppendFailed 2 |}.
Definition io_late_error : io_outcome :=
  {| read_ok := true; write := WriteFailed Completed; append := Appended |}.

(** Two sightings are buffered when the five calls begin. *)
Definition two_buffered : logger :=
  log_detections clock (take 2 five_sightings) init.
Definition five_after_two : logger :=
  log_detections clock five_sightings two_buffered.

(** Five sightings on a card where the append stops after two lines, or
    where the write raises after the workbook is complete, then [close] on a
    working card. *)
Definition closed_after_part_append : logger :=
  close io_fine
    (log_detections clock (map (fun p => (io_part_appended, snd p)) five_sightings)
       init).
Definition closed_after_late_error : logger :=
  close io_fine
    (log_detections clock (map (fun p => (io_late_error, snd p)) five_sightings)
       init).
Definition closed_after_unreadable : logger :=
  close io_fine
    (log_detections clock
       (five_sightings ++ map (fun p => (io_unreadable, snd p)) five_sightings)
       init).

(** C3, counterexample: five calls that all succeed, on a file system that
    works, cause exactly one flush and yet leave two rows in the detection
    buffer when two rows were buffered before them.  And [close] does not
    make the files hold everything exactly once: after an append that
    stopped part-way the coordinate file holds five lines for three recorded
    entries, after a write that raised once the workbook was complete the
    workbook holds ten rows for five recorded ones, and after a read-back
    that failed it holds five rows for ten recorded ones. *)
Lemma batch_flush_counterexample :
  (Forall (fun p => io_succeeds (fst p) = true
                    /\ call_succeeds clock (snd p) = true) five_sightings /\
   excel_flushes five_after_two = S (excel_flushes two_buffered) /\
   length (data_buffer five_after_two) = 2%nat) /\
  (length (recorded_entries clock five_sightings) = 3%nat /\
   csv_buffer closed_after_part_append = [] /\
   length (competition_csv_file closed_after_part_append) = 5%nat) /\
  (length (recorded_rows clock five_sightings) = 5%nat /\
   data_buffer closed_after_late_error = [] /\
   length (current_flight_file closed_after_late_error) = 10%nat) /\
  (data_buffer closed_after_unreadable = [] /\
   length (current_flight_file closed_after_unreadable) = 5%nat).
Proof.
  split; [|split; [|split]].
  - split; [repeat constructor|]. split; vm_compute; reflexivity.
  - repeat split; vm_compute; reflexivity.
  - repeat split; vm_compute; reflexivity.
  - split; vm_compute; reflexivity.
Qed.

(** Outside the hypotheses of the theorem: when the workbook cannot be read
    back during a flush whose write succeeds, the rows flushed earlier are
    replaced by the rows of the current buffer. *)
Example unreadable_workbook_drops_rows :
  let s5 := log_detections clock five_sightings init in
  let s10 := log_detections clock
               (map (fun p => (io_unreadable, snd p)) five_sightings) s5 in
  length (current_flight_file s5) = 5%nat /\
  length (current_flight_file s10) = 5%nat /\
  length (competition_csv_file s10) = 6%nat.
Proof. vm_compute. repeat split. Qed.

(** *** A flight on a card that cannot be written *)

Definition io_unwritable : io_outcome :=
  {| read_ok := true; write := WriteFailed Untouched; append := AppendFailed 0 |}.

Definition five_unwritten : list (io_outcome * call) :=
  map (fun p => (io_unwritable, snd p)) five_sightings.

Definition lost_fix_sighting : call :=
  {| symbol := [0x531]%Z; confidence := 0x1.d70a3d70a3d71p-1%float;
     gps_lat := nan; gps_lon := 0x1.64072b020c49cp+5%float;
     gps_alt := 85%float; timestamp := 1748779200%float;
     image_path := "images/20250601/detection.jpg"%string;
     detection_bbox := (60, 50, 76, 76)%Z; arg_symbol_id := Some 3%Z |}.

Lemma recorded_rows_conserved_witness :
  length (data_buffer (log_detections clock five_unwritten init)) = 5%nat /\
  current_flight_file (log_detections clock five_unwritten init) = [] /\
  current_flight_file (close io_fine (log_detections clock five_unwritten init))
  = recorded_rows clock five_unwritten /\
  length (competition_csv_file
            (close io_fine (log_detections clock five_unwritten init))) = 3%nat.
Proof.
  assert (Forall (fun p => read_ok (fst p) = true /\ fails_cleanly (fst p) = true)
            five_unwritten) as Hreads
      by (repeat constructor).
  destruct (recorded_rows_conserved clock init five_unwritten io_fine Hreads)
    as (_ & _ & Hclose).
  destruct (Hclose eq_refl) as (_ & _ & Hfile & Hcsv).
  split; [reflexivity|]. split; [reflexivity|].
  split; [exact Hfile|]. rewrite Hcsv. reflexivity.
Defined.

Lemma non_finite_coordinates_skip_flush_witness :
  length (data_buffer
            (log_detection clock io_fine lost_fix_sighting
               (log_detections clock five_unwritten init))) = 6%nat /\
  current_flight_file
    (log_detection clock io_fine lost_fix_sighting
       (log_detections clock five_unwritten init)) = [].
Proof.
  destruct (non_finite_coordinates_skip_flush clock io_fine lost_fix_sighting
              (log_detections clock five_unwritten init)
              "2025-06-01 12:00:00.000" 3 eq_refl eq_refl eq_refl)
    as (Hbuf & _ & Hfile & _).
  split; [rewrite Hbuf; reflexivity | rewrite Hfile; reflexivity].
Defined.

Lemma successful_call_clears_backlog_witness :
  data_buffer (log_detection clock io_fine (sighting (Some 5%Z) 60)
                 (log_detections clock five_unwritten init)) = [] /\
  length (current_flight_file
            (log_detection clock io_fine (sighting (Some 5%Z) 60)
               (log_detections clock five_unwritten init))) = 6%nat.
Proof.
  destruct (successful_call_clears_backlog clock io_fine (sighting (Some 5%Z) 60)
              (log_detections clock five_unwritten init) eq_refl eq_refl)
    as (_ & Hflush).
  destruct Hflush as (Hbuf & _ & Hfile & _); [vm_compute; lia|].
  split; [exact Hbuf | rewrite Hfile; reflexivity].
Defined.

End LoggerFacts.

Module RegionFacts.
Import Py OCR Region.

Lemma slice_bounds_range (n start stop : Z) :
  (0 <= n)%Z ->
  (0 <= fst (slice_bounds n start stop)
   <= snd (slice_bounds n start stop))%Z /\
  (snd (slice_bounds n start stop) <= n)%Z.
Proof.
  intros Hn. unfold slice_bounds, slice_index. simpl.
  destruct (start <? 0)%Z eqn:E1, (stop <? 0)%Z eqn:E2; lia.
Qed.

Lemma slice_bounds_inside (n start stop : Z) :
  (0 <= start <= stop)%Z -> (stop <= n)%Z ->
  slice_bounds n start stop = (start, stop).
Proof.
  intros H1 H2. unfold slice_bounds, slice_index.
  assert ((start <? 0)%Z = false) as -> by lia.
  assert ((stop <? 0)%Z = false) as -> by lia.
  f_equal; lia.
Qed.

Lemma length_slice {A : Type} (l : list A) (start stop : Z) :
  Z.of_nat (length (slice l start stop))
  = (snd (slice_bounds (Z.of_nat (length l)) start stop)
     - fst (slice_bounds (Z.of_nat (length l)) start stop))%Z.
Proof.
  unfold slice.
  pose proof (slice_bounds_range (Z.of_nat (length l)) start stop ltac:(lia)) as H.
  destruct (slice_bounds (Z.of_nat (length l)) start stop) as [a b]. simpl in *.
  rewrite length_take, length_drop. lia.
Qed.

Lemma rows_of_shape {A : Type} (row_len n : nat) :
  forall l : list A,
    length l = (n * row_len)%nat ->
    length (rows_of row_len n l) = n /\
    Forall (fun row => length row = row_len) (rows_of row_len n l).
Proof.
  induction n as [|n IH]; intros l Hl; simpl.
  - split; [reflexivity | constructor].
  - destruct (IH (drop row_len l)) as [IH1 IH2].
    { rewrite length_drop. lia. }
    split; [now rewrite IH1|].
    constructor; [|exact IH2]. rewrite length_take. lia.
Qed.

Lemma length_concat_uniform {A : Type} (k : nat) (ls : list (list A)) :
  Forall (fun row => length row = k) ls ->
  length (concat ls) = (length ls * k)%nat.
Proof.
  induction 1 as [|row ls Hrow _ IH]; simpl; [reflexivity|].
  rewrite length_app, IH, Hrow. reflexivity.
Qed.

Lemma Forall_slice {A : Type} (P : A -> Prop) (l : list A) (start stop : Z) :
  Forall P l -> Forall P (slice l start stop).
Proof.
  intros H. unfold slice.
  destruct (slice_bounds (Z.of_nat (length l)) start stop) as [a b].
  apply Forall_take, Forall_drop, H.
Qed.

(** A crop of a well-shaped array is well shaped, and no larger than the array. *)
Lemma crop_well_shaped (img : image) (y1 y2 x1 x2 : Z) :
  well_shaped img ->
  well_shaped (crop img y1 y2 x1 x2) /\
  (height (crop img y1 y2 x1 x2) <= height img)%Z /\
  (width (crop img y1 y2 x1 x2) <= width img)%Z.
Proof.
  intros (Hh & Hw & Hc & Hlen). unfold crop, well_shaped, size in *.
  pose proof (slice_bounds_range (height img) y1 y2 Hh) as Hy.
  pose proof (slice_bounds_range (width img) x1 x2 Hw) as Hx.
  destruct (slice_bounds (height img) y1 y2) as [ya yb].
  destruct (slice_bounds (width img) x1 x2) as [xa xb].
  simpl in *. set (c := default 1%Z (channels img)) in *.
  destruct (rows_of_shape (Z.to_nat (width img * c)) (Z.to_nat (height img))
              (pixels img)) as [Hn Hrows].
  { apply Nat2Z.inj. rewrite Nat2Z.inj_mul, !Z2Nat.id by nia. rewrite Hlen. ring. }
  set (rows := rows_of _ _ (pixels img)) in *.
  repeat split; try lia.
  rewrite (length_concat_uniform (Z.to_nat ((xb - xa) * c))).
  - rewrite length_map.
    pose proof (length_slice rows ya yb) as Hs.
    rewrite Hn, Z2Nat.id, (slice_bounds_inside _ ya yb) in Hs by lia.
    simpl in Hs. rewrite Nat2Z.inj_mul, Z2Nat.id, Hs by nia. ring.
  - apply Forall_map. apply Forall_slice.
    eapply List.Forall_impl; [|exact Hrows].
    intros row Hrow. simpl.
    pose proof (length_slice row (xa * c) (xb * c)) as Hs.
    rewrite Hrow, Z2Nat.id, (slice_bounds_inside _ (xa * c) (xb * c)) in Hs by nia.
    simpl in Hs. apply Nat2Z.inj. rewrite Hs, Z2Nat.id by nia. ring.
Qed.

(** X6: for a well-shaped frame and a bounding box that lies inside it and
    has positive width and height (what [cv2.boundingRect] returns),
    [extract_symbol_region] returns a well-shaped, non-empty array with the
    channels of the frame; its window covers the bounding box, and it is
    larger than the box by at most the padding of 15 pixels on each side:
    between [h] and [h + 30] rows and between [w] and [w + 30] columns,
    exactly [h + 30] by [w + 30] when the box is at least 15 pixels away
    from every border. *)
Theorem extract_symbol_region_covers_bbox
    (frame : image) (d : Detector.detection) (x y w h : Z) :
  well_shaped frame ->
  Detector.bbox d = (x, y, w, h) ->
  (0 <= x)%Z -> (0 <= y)%Z -> (0 < w)%Z -> (0 < h)%Z ->
  (x + w <= width frame)%Z -> (y + h <= height frame)%Z ->
  let region := extract_symbol_region frame d in
  region = crop frame (Z.max 0 (y - 15)) (Z.min (height frame) (y + h + 15))
                      (Z.max 0 (x - 15)) (Z.min (width frame) (x + w + 15)) /\
  (Z.max 0 (x - 15) <= x)%Z /\ (x + w <= Z.min (width frame) (x + w + 15))%Z /\
  (Z.max 0 (y - 15) <= y)%Z /\ (y + h <= Z.min (height frame) (y + h + 15))%Z /\
  (h <= height region <= h + 30)%Z /\
  (w <= width region <= w + 30)%Z /\
  ((15 <= x)%Z -> (x + w + 15 <= width frame)%Z -> width region = (w + 30)%Z) /\
  ((15 <= y)%Z -> (y + h + 15 <= height frame)%Z -> height region = (h + 30)%Z) /\
  channels region = channels frame /\
  well_shaped region /\
  (0 < size region)%Z.
Proof.
  intros Hwf Hbbox Hx Hy Hw Hh Hxw Hyh region.
  assert (region = crop frame (Z.max 0 (y - 15)) (Z.min (height frame) (y + h + 15))
                     (Z.max 0 (x - 15)) (Z.min (width frame) (x + w + 15))) as Hregion.
  { subst region. unfold extract_symbol_region. now rewrite Hbbox. }
  split; [exact Hregion|].
  destruct (crop_well_shaped frame (Z.max 0 (y - 15)) (Z.min (height frame) (y + h + 15))
              (Z.max 0 (x - 15)) (Z.min (width frame) (x + w + 15)) Hwf)
    as (Hshape & _ & _).
  rewrite <- Hregion in Hshape.
  assert (height region
          = Z.min (height frame) (y + h + 15) - Z.max 0 (y - 15))%Z as Eh.
  { rewrite Hregion. unfold crop.
    rewrite (slice_bounds_inside (height frame)) by lia.
    destruct (slice_bounds (width frame) _ _). reflexivity. }
  assert (width region
          = Z.min (width frame) (x + w + 15) - Z.max 0 (x - 15))%Z as Ew.
  { rewrite Hregion. unfold crop.
    rewrite (slice_bounds_inside (height frame)) by lia.
    rewrite (slice_bounds_inside (width frame)) by lia. reflexivity. }
  assert (channels region = channels frame) as Ec.
  { rewrite Hregion. unfold crop.
    destruct (slice_bounds (height frame) _ _), (slice_bounds (width frame) _ _).
    reflexivity. }
  assert (0 < size region)%Z as Hsize.
  { unfold size. rewrite Ec. destruct Hwf as (_ & _ & Hc & _).
    apply Z.mul_pos_pos; [apply Z.mul_pos_pos|]; lia. }
  split; [lia|]. split; [lia|]. split; [lia|]. split; [lia|].
  split; [lia|]. split; [lia|]. split; [lia|]. split; [lia|].
  split; [exact Ec|]. split; [exact Hshape | exact Hsize].
Qed.

Definition frame_6x8 : image :=
  {| height := 6; width := 8; channels := Some 3%Z;
     pixels := map Z.of_nat (seq 0 144) |}.

Definition corner_detection : Detector.detection :=
  {| Detector.bbox := (1, 2, 3, 2)%Z; Detector.area := 5;
     Detector.aspect_ratio := 3 / 2; Detector.fill_ratio := 5 / 6;
     Detector.confidence := 1 / 2 |}.

Lemma extract_symbol_region_covers_bbox_witness :
  height (extract_symbol_region frame_6x8 corner_detection) = 6%Z /\
  width (extract_symbol_region frame_6x8 corner_detection) = 8%Z /\
  (0 < size (extract_symbol_region frame_6x8 corner_detection))%Z.
Proof.
  assert (well_shaped frame_6x8) as Hwf.
  { unfold well_shaped. simpl. repeat split; lia. }
  destruct (extract_symbol_region_covers_bbox frame_6x8 corner_detection 1 2 3 2
              Hwf eq_refl ltac:(lia) ltac:(lia) ltac:(lia) ltac:(lia)
              ltac:(simpl; lia) ltac:(simpl; lia))
    as (_ & _ & _ & _ & _ & _ & _ & _ & _ & _ & _ & Hsize).
  split; [reflexivity|]. split; [reflexivity | exact Hsize].
Defined.

End RegionFacts.

Module CameraFacts.
Import Py Camera.

Section CaptureFacts.
Context {frame : Type}.
Variable config : gmap string bool.
Variable read : exc (bool * frame).
Variable auto_exposure_correction : frame -> exc frame.
Variable enhance_sharpness : frame -> exc frame.

(** X20: [capture_frame] returns a frame exactly when the camera read returns
    with a true flag.  With preprocessing switched off it is the frame read.
    Otherwise it is the result of the last stage that ran without raising:
    if the exposure stage raises, the frame read is returned and the
    sharpening stage is not applied; if the sharpening stage raises, the
    exposed frame is returned. *)
Theorem capture_frame_degrades (raw : frame) :
  (capture_frame config read auto_exposure_correction enhance_sharpness = None <->
   (exists e, read = Raise e) \/ (exists fr, read = Return (false, fr))) /\
  (read = Return (true, raw) ->
   (flag config "apply_preprocessing" = false ->
    capture_frame config read auto_exposure_correction enhance_sharpness = Some raw) /\
   (flag config "apply_preprocessing" = true ->
    flag config "auto_exposure" = true ->
    (forall e, auto_exposure_correction raw = Raise e ->
               capture_frame config read auto_exposure_correction enhance_sharpness
               = Some raw) /\
    (forall exposed,
        auto_exposure_correction raw = Return exposed ->
        flag config "enhance_sharpness" = true ->
        (forall e, enhance_sharpness exposed = Raise e ->
                   capture_frame config read auto_exposure_correction enhance_sharpness
                   = Some exposed) /\
        (forall sharpened,
            enhance_sharpness exposed = Return sharpened ->
            capture_frame config read auto_exposure_correction enhance_sharpness
            = Some sharpened)))).
Proof.
  unfold capture_frame, preprocess_frame. split.
  - destruct read as [e | [[|] fr]]; simpl.
    + split; [intros _; left; eauto | reflexivity].
    + split.
      * destruct (flag config "apply_preprocessing"); discriminate.
      * intros [[e [=]] | [fr' [=]]].
    + split; [intros _; right; eauto | reflexivity].
  - intros ->. simpl. split.
    + intros ->. reflexivity.
    + intros -> ->. split.
      * intros e ->. reflexivity.
      * intros exposed -> ->. split.
        -- intros e ->. reflexivity.
        -- intros sharpened ->. reflexivity.
Qed.

End CaptureFacts.

End CameraFacts.

Module ControllerFacts.
Import Py Controller.

(** *** Waiting for the flight controller *)

Section WaitFacts.
Variable running : nat -> bool.
Variable attempts : nat -> attempt.

Lemma wait_loop_spec (remaining : nat) :
  forall k ok n,
    wait_loop running attempts remaining k = (ok, n) ->
    k <= n <= k + remaining /\
    (forall j, k <= j < n -> running j = true /\ attempts j <> Connected) /\
    (ok = true -> n < k + remaining /\ running n = true /\ attempts n = Connected) /\
    (ok = false -> n = k + remaining \/ running n = false).
Proof.
  induction remaining as [|r IH]; intros k ok n; simpl.
  - intros [= <- <-]. repeat split; try lia; try discriminate.
  - destruct (running k) eqn:Hrun.
    + destruct (attempts k) eqn:Hatt.
      * intros [= <- <-]. repeat split; try lia; try assumption; try discriminate.
      * intros H. apply IH in H as (H1 & H2 & H3 & H4).
        split; [lia|]. split; [|split].
        -- intros j Hj. destruct (Nat.eq_dec j k) as [-> | Hne].
           ++ split; [exact Hrun | congruence].
           ++ apply H2. lia.
        -- intros Hok. destruct (H3 Hok) as (? & ? & ?). repeat split; try lia; assumption.
        -- intros Hok. destruct (H4 Hok); [left; lia | now right].
      * intros H. apply IH in H as (H1 & H2 & H3 & H4).
        split; [lia|]. split; [|split].
        -- intros j Hj. destruct (Nat.eq_dec j k) as [-> | Hne].
           ++ split; [exact Hrun | congruence].
           ++ apply H2. lia.
        -- intros Hok. destruct (H3 Hok) as (? & ? & ?). repeat split; try lia; assumption.
        -- intros Hok. destruct (H4 Hok); [left; lia | now right].
    + intros [= <- <-]. repeat split; try lia; try discriminate.
      intros _. now right.
Qed.

(** X21: [wait_for_flight_controller] makes at most 60 attempts and sleeps
    5 seconds after each failed one, at most 300 seconds in all.  It returns
    [True], with status "ready", exactly when some attempt among the first
    60 connects while [self.running] has held up to it; the attempts before
    the first such one are the only ones made.  If no attempt connects while
    the system keeps running, it gives up after exactly 60 attempts and 300
    seconds with status "error". *)
Theorem wait_for_flight_controller_bounded :
  let r := wait_for_flight_controller running attempts in
  fc_retry_count r <= 60 /\
  fc_slept r = (5 * Z.of_nat (fc_retry_count r))%Z /\
  (fc_slept r <= 300)%Z /\
  fc_status r = (if fc_connected r then "ready" else "error")%string /\
  (fc_connected r = true <->
   exists i, i < 60 /\ attempts i = Connected /\
             (forall j, j <= i -> running j = true) /\
             (forall j, j < i -> attempts j <> Connected)) /\
  (fc_connected r = true -> attempts (fc_retry_count r) = Connected) /\
  ((forall j, j < 60 -> running j = true /\ attempts j <> Connected) ->
   fc_connected r = false /\ fc_retry_count r = 60 /\ fc_slept r = 300%Z).
Proof.
  unfold wait_for_flight_controller.
  destruct (wait_loop running attempts max_retries 0) as [ok n] eqn:E.
  apply wait_loop_spec in E as (H1 & H2 & H3 & H4).
  unfold max_retries in *. cbn [fc_connected fc_status fc_retry_count fc_slept].
  split; [lia|]. split; [reflexivity|]. split; [lia|]. split; [reflexivity|].
  split; [|split].
  - split.
    + intros Hok. destruct (H3 Hok) as (Hn & Hrun & Hatt).
      exists n. split; [lia|]. split; [exact Hatt|]. split.
      * intros j Hj. destruct (Nat.eq_dec j n) as [-> | Hne]; [exact Hrun|].
        apply H2. lia.
      * intros j Hj. apply H2. lia.
    + intros (i & Hi & Hatt & Hrun & Hbefore).
      destruct ok; [reflexivity|]. exfalso.
      destruct (Nat.lt_ge_cases i n) as [Hlt | Hge].
      * destruct (H2 i ltac:(lia)) as [_ Hne]. contradiction.
      * destruct (H4 eq_refl) as [Hn | Hn]; [lia|].
        destruct (Nat.eq_dec n i) as [-> | Hne].
        -- rewrite (Hrun i ltac:(lia)) in Hn. discriminate.
        -- rewrite (Hrun n ltac:(lia)) in Hn. discriminate.
  - intros Hok. apply H3, Hok.
  - intros Hall. destruct ok.
    + destruct (H3 eq_refl) as (Hn & _ & Hatt).
      destruct (Hall n ltac:(lia)) as [_ Hne]. contradiction.
    + split; [reflexivity|].
      destruct (H4 eq_refl) as [Hn | Hn]; [split; lia|].
      destruct (Nat.lt_ge_cases n 60) as [Hlt | Hge].
      * destruct (Hall n Hlt) as [Hrun _]. congruence.
      * split; lia.
Qed.

End WaitFacts.

Example fourth_attempt_connects :
  wait_for_flight_controller (fun _ => true)
    (fun i => if (i <? 3)%nat then Refused else Connected)
  = {| fc_connected := true; fc_status := "ready";
       fc_retry_count := 3; fc_slept := 15 |}.
Proof. reflexivity. Qed.

(** *** The capture loop *)

Section LoopFacts.
Context {frame : Type}.

(** What holds of the queue at every moment. *)
Definition queue_ok (s : @loop_state frame) : Prop :=
  length (processing_queue s) <= 20 /\
  Forall (fun x : item => (3 <= Telemetry.fix_quality (snd x))%Z) (processing_queue s).

Lemma put_nowait_ok (x : @item frame) (q : list item) :
  match put_nowait x q with
  | Return q' => length q < 20 /\ q' = q ++ [x]
  | Raise _ => length q >= 20
  end.
Proof.
  unfold put_nowait, maxsize.
  destruct (20 <=? length q) eqn:E.
  - apply Nat.leb_le in E. lia.
  - apply Nat.leb_gt in E. split; [lia | reflexivity].
Qed.


End LoopFacts.

Section LoopInvariant.
Context {frame : Type}.






Lemma get_current_gps_Some (now : Q) (st : Telemetry.store) (d : Telemetry.gps_data) :
  Telemetry.get_current_gps now st = Some d <->
  st = Some d /\ (now - Telemetry.timestamp d < 5.0)%Q.
Proof.
  unfold Telemetry.get_current_gps.
  destruct st as [d'|]; [|split; [discriminate | intros [[=] _]]].
  destruct (Qltb (now - Telemetry.timestamp d') 5.0) eqn:E.
  - apply Qltb_lt in E. split.
    + intros [= ->]. split; [reflexivity | exact E].
    + intros [[= ->] _]. reflexivity.
  - apply Qltb_ge in E. split; [discriminate|].
    intros [[= ->] H]. exfalso. apply (Qlt_not_le _ _ H). exact E.
Qed.

(** X23: an iteration of the main loop asks the camera for a frame exactly
    when the link is up (or came back within the wait), the telemetry holds
    a snapshot less than 5 seconds old whose fix quality is at least 3, and
    the vehicle is armed.  An iteration that does not ask for a frame changes
    neither the queue nor the counters, and leaves the loop only when the
    link could not be restored.  An iteration whose capture fails changes
    nothing either and goes on to the next one without a [time.sleep] of the
    loop body. *)
Theorem capture_requires_link_fix_and_arming (a : answers) (s : @loop_state frame) :
  let e := fst (fst (iteration a s)) in
  let s' := snd (fst (iteration a s)) in
  let eff := snd (iteration a s) in
  (In CaptureFrame eff <->
   (is_connected a = true \/ reconnected a = true) /\
   (exists gps,
       telemetry a = Some gps /\
       (gps_clock a - Telemetry.timestamp gps < 5.0)%Q /\
       (3 <= Telemetry.fix_quality gps)%Z) /\
   Telemetry.truthy (is_armed a) = true) /\
  (~ In CaptureFrame eff ->
   s' = s /\
   (e = Leave <-> is_connected a = false /\ reconnected a = false)) /\
  (In CaptureFrame eff -> captured a = None ->
   s' = s /\ e = Continue /\ forall seconds, ~ In (Sleep seconds) eff).
Proof.
  cbv zeta. unfold iteration.
  destruct (Telemetry.get_current_gps (gps_clock a) (telemetry a)) as [gps|] eqn:Hg.
  - pose proof (proj1 (get_current_gps_Some _ _ _) Hg) as [Hst Hage].
    unfold Telemetry.main_loop_gps_ready.
    destruct (Telemetry.fix_quality gps <? 3)%Z eqn:Hfix;
      [apply Z.ltb_lt in Hfix | apply Z.ltb_ge in Hfix];
      destruct (is_connected a), (reconnected a),
        (Telemetry.truthy (is_armed a)), (captured a) as [fr|];
      try destruct (put_nowait (fr, current_time a, gps) (processing_queue s));
      try destruct (pace a) as [e' slept];
      simpl;
      (split; [split|split]);
      try (intros [? [(g & Hg1 & Hg2 & Hg3) ?]]; rewrite Hst in Hg1;
           injection Hg1 as <-);
      try (intros _; split; [tauto|]; split; [|reflexivity];
           exists gps; split; [exact Hst|]; split; [exact Hage | exact Hfix]);
      intuition (try discriminate; try congruence; try lia).
  - assert (forall g, telemetry a = Some g ->
                      (gps_clock a - Telemetry.timestamp g < 5.0)%Q -> False) as Hno.
    { intros g Hst Hage.
      pose proof (proj2 (get_current_gps_Some (gps_clock a) (telemetry a) g)
                    (conj Hst Hage)) as H.
      congruence. }
    destruct (is_connected a), (reconnected a); simpl;
      (split; [split|split]);
      try (intros [? [(g & Hg1 & Hg2 & Hg3) ?]]; exfalso; exact (Hno g Hg1 Hg2));
      intuition (try discriminate; try congruence).
Qed.

(** A queue that is full: 20 items. *)
Definition fix3 : Telemetry.gps_data :=
  {| Telemetry.lat := 40.18; Telemetry.lon := 44.51; Telemetry.alt := 1000;
     Telemetry.relative_alt := 50; Telemetry.vx := 0; Telemetry.vy := 0;
     Telemetry.vz := 0; Telemetry.hdg := 0; Telemetry.timestamp := 100;
     Telemetry.fix_quality := 3; Telemetry.satellites_visible := None |}.

Lemma is_nan_Prim2SF (x : float) :
  PrimFloat.is_nan x = true -> Prim2SF x = S754_nan.
Proof.
  unfold PrimFloat.is_nan. rewrite FloatAxioms.eqb_spec. unfold SFeqb, SFcompare.
  destruct (Prim2SF x) as [[|]|[|]| |[|] m e]; try discriminate; try reflexivity;
    rewrite Z.compare_refl, Pos.compare_cont_refl; discriminate.
Qed.

(** The quotient [1.0 / x] of a NaN is a NaN, and a NaN is not zero. *)
Lemma nan_quotient (x : float) :
  PrimFloat.is_nan x = true ->
  PrimFloat.is_zero x = false /\ PrimFloat.is_nan (1 / x) = true.
Proof.
  intros H. apply is_nan_Prim2SF in H. split.
  - unfold PrimFloat.is_zero. rewrite FloatAxioms.eqb_spec, H. reflexivity.
  - unfold PrimFloat.is_nan. rewrite FloatAxioms.eqb_spec, FloatAxioms.div_spec, H. reflexivity.
Qed.

(** How [pace] ends. *)
Lemma pace_cases (a : @answers frame) :
  match target_fps a with
  | Raise _ => pace a = (Leave, [])
  | Return fps =>
      match true_div_one fps with
      | Raise _ => pace a = (Leave, [])
      | Return quotient =>
          if PrimFloat.is_nan quotient || sleep_overflows a quotient
             || (quotient <? 0)%float
          then pace a = (Leave, [])
          else pace a = (Continue, [Sleep quotient])
      end
  end.
Proof.
  unfold pace, time_sleep. destruct (target_fps a) as [e | fps]; [reflexivity|].
  destruct (true_div_one fps) as [e | quotient]; [reflexivity|].
  destruct (PrimFloat.is_nan quotient), (sleep_overflows a quotient),
    (quotient <? 0)%float; reflexivity.
Qed.

Lemma pace_effects (a : @answers frame) :
  snd (pace a) = [] \/ exists secs, snd (pace a) = [Sleep secs].
Proof.
  pose proof (pace_cases a) as H.
  destruct (target_fps a) as [e | fps]; [rewrite H; now left|].
  destruct (true_div_one fps) as [e | quotient]; [rewrite H; now left|].
  destruct (PrimFloat.is_nan quotient || sleep_overflows a quotient
            || (quotient <? 0)%float); rewrite H; [now left | right; eauto].
Qed.

Ltac iteration_shapes a s gps Hg :=
  unfold iteration;
  destruct (Telemetry.get_current_gps (gps_clock a) (telemetry a)) as [gps|] eqn:Hg;
  [ unfold Telemetry.main_loop_gps_ready;
    destruct (Telemetry.fix_quality gps <? 3)%Z;
    destruct (is_connected a), (reconnected a), (Telemetry.truthy (is_armed a))
  | destruct (is_connected a), (reconnected a) ];
  simpl.

(** X24: when an iteration of the main loop gets a frame from the camera,
    the frame is counted; if the queue holds fewer than 20 items the frame
    is appended to it, with the time read at the top of the iteration and
    the position snapshot that passed the test, and no warning is given; if
    the queue is full the frame is dropped with a warning and the queue is
    left as it was. *)
Theorem captured_frame_queued_or_dropped
    (a : answers) (s : @loop_state frame) (fr : frame) :
  In CaptureFrame (snd (iteration a s)) ->
  captured a = Some fr ->
  let s' := snd (fst (iteration a s)) in
  let eff := snd (iteration a s) in
  frame_count s' = S (frame_count s) /\
  if (length (processing_queue s) <? 20)%nat
  then (exists gps,
           Telemetry.get_current_gps (gps_clock a) (telemetry a) = Some gps /\
           processing_queue s' = processing_queue s ++ [(fr, current_time a, gps)]) /\
       ~ In WarnDropped eff
  else processing_queue s' = processing_queue s /\ In WarnDropped eff.
Proof.
  intros Hcap Hfr. cbv zeta. revert Hcap.
  assert (~ In WarnDropped (snd (pace a))) as Hpace.
  { destruct (pace_effects a) as [-> | [secs ->]]; simpl; intuition discriminate. }
  iteration_shapes a s gps Hg;
    try (intros H; exfalso; simpl in H; intuition discriminate);
    rewrite Hfr;
    pose proof (put_nowait_ok (fr, current_time a, gps) (processing_queue s)) as Hput;
    (destruct (put_nowait (fr, current_time a, gps) (processing_queue s)) as [ex | q];
     [ assert ((length (processing_queue s) <? 20)%nat = false) as ->
         by (apply Nat.ltb_ge; lia)
     | destruct Hput as [Hlen ->];
       assert ((length (processing_queue s) <? 20)%nat = true) as ->
         by (apply Nat.ltb_lt; lia) ]);
    destruct (pace a) as [e' slept]; simpl in Hpace |- *; intros _;
    (split; [reflexivity|]);
    try (split; [reflexivity | tauto]);
    (split; [exists gps; split; reflexivity|]);
    destruct (Qltb 30 (current_time a - last_status_time s)); simpl;
    intuition discriminate.
Qed.

Definition full_queue : list (@item nat) := repeat (0%nat, 100%Q, fix3) 20.

(** A platform whose clock type holds 2^63 nanoseconds. *)
Definition beyond_clock_range (secs : float) : bool :=
  (0x1p63 <=? abs (secs * 1e9))%float.

Definition armed_with_fix (fps : exc number) : @answers nat :=
  {| current_time := 101; is_connected := true; reconnected := false;
     gps_clock := 101; telemetry := Some fix3;
     is_armed := Telemetry.PyInt 128; captured := Some 7%nat;
     target_fps := fps; sleep_overflows := beyond_clock_range |}.

(** X25: after a frame was captured and counted, the iteration leaves the
    main loop without sleeping when [self.config.target_fps] raises, when
    the division [1.0 / target_fps] raises (a zero, or an integer beyond
    the floats), and when [time.sleep] refuses the quotient: a NaN, a
    negative number, or a duration beyond the range of the clock (as for a
    very small positive [target_fps]).  In particular a [target_fps] of 0,
    0.0 or NaN ends the loop.  Otherwise the loop goes on after one
    [time.sleep] of the binary64 quotient, the only one of the loop body in
    that iteration. *)
Theorem pacing_leaves_loop_or_sleeps_once
    (a : answers) (s : @loop_state frame) (fr : frame) :
  In CaptureFrame (snd (iteration a s)) ->
  captured a = Some fr ->
  let e := fst (fst (iteration a s)) in
  let eff := snd (iteration a s) in
  match target_fps a with
  | Raise _ => e = Leave /\ forall seconds, ~ In (Sleep seconds) eff
  | Return fps =>
      match true_div_one fps with
      | Raise _ => e = Leave /\ forall seconds, ~ In (Sleep seconds) eff
      | Return quotient =>
          if PrimFloat.is_nan quotient || sleep_overflows a quotient
             || (quotient <? 0)%float
          then e = Leave /\ forall seconds, ~ In (Sleep seconds) eff
          else e = Continue /\
               forall seconds, In (Sleep seconds) eff <-> seconds = quotient
      end
  end /\
  (target_fps a = Return (IntValue 0) \/
   (exists x, target_fps a = Return (FloatValue x) /\
              (PrimFloat.is_zero x = true \/ PrimFloat.is_nan x = true)) ->
   e = Leave).
Proof.
  intros Hcap Hfr. cbv zeta.
  assert (match target_fps a with
          | Raise _ =>
              fst (fst (iteration a s)) = Leave /\
              forall seconds, ~ In (Sleep seconds) (snd (iteration a s))
          | Return fps =>
              match true_div_one fps with
              | Raise _ =>
                  fst (fst (iteration a s)) = Leave /\
                  forall seconds, ~ In (Sleep seconds) (snd (iteration a s))
              | Return quotient =>
                  if PrimFloat.is_nan quotient || sleep_overflows a quotient
                     || (quotient <? 0)%float
                  then fst (fst (iteration a s)) = Leave /\
                       forall seconds, ~ In (Sleep seconds) (snd (iteration a s))
                  else fst (fst (iteration a s)) = Continue /\
                       forall seconds,
                         In (Sleep seconds) (snd (iteration a s)) <-> seconds = quotient
              end
          end) as Hmain.
  { revert Hcap. pose proof (pace_cases a) as Hpace.
    iteration_shapes a s gps Hg;
      try (intros H; exfalso; simpl in H; intuition discriminate);
      rewrite Hfr;
      destruct (put_nowait (fr, current_time a, gps) (processing_queue s)) as [ex | q];
      destruct (target_fps a) as [e0 | fps];
      try destruct (true_div_one fps) as [e1 | quotient];
      try destruct (PrimFloat.is_nan quotient || sleep_overflows a quotient
                    || (quotient <? 0)%float);
      rewrite Hpace; simpl; intros _;
      destruct (Qltb 30 (current_time a - last_status_time s)); simpl;
      (split; [reflexivity|]); intros seconds;
      try (intuition discriminate);
      (split; [intros H; intuition (try discriminate; congruence)
              | intros ->; tauto]). }
  split; [exact Hmain|].
  intros [Hz | (x & Hx & Hzn)].
  - rewrite Hz in Hmain. simpl in Hmain. apply Hmain.
  - rewrite Hx in Hmain. simpl in Hmain. destruct Hzn as [Hzero | Hnan].
    + rewrite Hzero in Hmain. apply Hmain.
    + destruct (nan_quotient x Hnan) as [Hzero Hq].
      rewrite Hzero, Hq in Hmain. apply Hmain.
Qed.

End LoopInvariant.

Lemma captured_frame_queued_or_dropped_witness :
  let a := armed_with_fix (Return (IntValue 10)) in
  let s := {| processing_queue := full_queue; frame_count := 25;
              last_status_time := 90 |} in
  In CaptureFrame (snd (iteration a s)) /\
  captured a = Some 7%nat /\
  frame_count (snd (fst (iteration a s))) = 26 /\
  processing_queue (snd (fst (iteration a s))) = full_queue /\
  In WarnDropped (snd (iteration a s)).
Proof.
  cbv zeta.
  assert (In CaptureFrame
            (snd (iteration (armed_with_fix (Return (IntValue 10)))
                    {| processing_queue := full_queue; frame_count := 25;
                       last_status_time := 90 |}))) as Hcap.
  { vm_compute. tauto. }
  split; [exact Hcap|]. split; [reflexivity|].
  pose proof (captured_frame_queued_or_dropped
                (armed_with_fix (Return (IntValue 10)))
                {| processing_queue := full_queue; frame_count := 25;
                   last_status_time := 90 |} 7%nat Hcap eq_refl) as H.
  cbv zeta in H. destruct H as [Hcount H].
  split; [exact Hcount|]. exact H.
Defined.

(** A positive [target_fps] of 2^-34 frames per second asks for a sleep of
    2^34 seconds, beyond the range of that clock; at 3 frames per second the
    loop sleeps the float nearest to a third of a second. *)
Lemma pacing_leaves_loop_or_sleeps_once_witness :
  let slow := armed_with_fix (Return (FloatValue 0x1p-34)) in
  let usual := armed_with_fix (Return (IntValue 3)) in
  (In CaptureFrame (snd (iteration slow (initial 100))) /\
   captured slow = Some 7%nat /\
   fst (fst (iteration slow (initial 100))) = Leave /\
   forall seconds, ~ In (Sleep seconds) (snd (iteration slow (initial 100)))) /\
  (In CaptureFrame (snd (iteration usual (initial 100))) /\
   captured usual = Some 7%nat /\
   fst (fst (iteration usual (initial 100))) = Continue /\
   forall seconds,
     In (Sleep seconds) (snd (iteration usual (initial 100)))
     <-> seconds = 0x1.5555555555555p-2%float).
Proof.
  cbv zeta.
  assert (In CaptureFrame
            (snd (iteration (armed_with_fix (Return (FloatValue 0x1p-34)))
                    (initial 100)))) as Hslow.
  { vm_compute. tauto. }
  assert (In CaptureFrame
            (snd (iteration (armed_with_fix (Return (IntValue 3))) (initial 100))))
    as Husual.
  { vm_compute. tauto. }
  split.
  - split; [exact Hslow|]. split; [reflexivity|].
    exact (proj1 (pacing_leaves_loop_or_sleeps_once
                    (armed_with_fix (Return (FloatValue 0x1p-34))) (initial 100)
                    7%nat Hslow eq_refl)).
  - split; [exact Husual|]. split; [reflexivity|].
    exact (proj1 (pacing_leaves_loop_or_sleeps_once
                    (armed_with_fix (Return (IntValue 3))) (initial 100)
                    7%nat Husual eq_refl)).
Defined.

(** *** Shutting down *)

(** Whether a component's [close()] returns ([None]: there is no component). *)
Definition closes (c : option (exc unit)) : bool :=
  match c with
  | Some (Raise _) => false
  | _ => true
  end.

(** X26: [graceful_shutdown] does nothing when [self.running] is already
    false, so a second call has no effect and does not reach [sys.exit].
    Otherwise it clears [self.running] and reaches [sys.exit(0)] whatever
    happens; the data logger is closed (its buffers flushed) only if the
    camera's and the link's [close()] both returned: when either raises,
    the logger is left untouched, with whatever rows it still buffers. *)
Theorem graceful_shutdown_closes_logger_last
    (running : bool) (camera_close mavlink_close : option (exc unit))
    (logger : option Logger.logger) (io : Logger.io_outcome) :
  let r := graceful_shutdown running camera_close mavlink_close logger io in
  still_running r = false /\
  exited r = running /\
  data_logger r =
    (if running && closes camera_close && closes mavlink_close
     then option_map (Logger.close io) logger
     else logger) /\
  graceful_shutdown (still_running r) camera_close mavlink_close (data_logger r) io
  = {| still_running := false; data_logger := data_logger r; exited := false |}.
Proof.
  unfold graceful_shutdown.
  destruct running; simpl; [|repeat split].
  destruct camera_close as [[e|[]]|], mavlink_close as [[e'|[]]|]; simpl;
    repeat split.
Qed.

(** *** Processing one frame *)

Lemma Forall_concat_imap {A B : Type} (P : B -> Prop) (l : list A) :
  forall f : nat -> A -> list B,
    (forall i x, In x l -> Forall P (f i x)) ->
    Forall P (concat (imap f l)).
Proof.
  induction l as [|x l IH]; intros f Hf; [constructor|].
  simpl. apply Forall_app. split.
  - apply Hf. now left.
  - apply IH. intros i y Hy. apply Hf. now right.
Qed.

Lemma length_concat_imap {A B : Type} (l : list A) :
  forall f : nat -> A -> list B,
    (forall i x, length (f i x) <= 1) ->
    length (concat (imap f l)) <= length l.
Proof.
  induction l as [|x l IH]; intros f Hf; [simpl; lia|].
  simpl. rewrite length_app.
  pose proof (Hf 0 x) as Hx.
  assert (length (concat (imap (f ∘ S) l)) <= length l) as Hrest.
  { apply IH. intros i y. apply Hf. }
  lia.
Qed.

Section ProcessFacts.
Variable detector : Detector.detector.
Variable preprocess_for_detection : OCR.image -> exc OCR.image.
Variable find_symbol_contours : OCR.image -> exc (list Detector.contour).
Variable pytesseract : option OCR.engine.
Variable preprocess_for_ocr : OCR.image -> exc OCR.image.
Variable min_confidence : exc Q.
Variable save_detection_image : OCR.image -> Q -> nat -> string.

Abbreviation process_single_frame' :=
  (process_single_frame detector preprocess_for_detection find_symbol_contours
     pytesseract preprocess_for_ocr min_confidence save_detection_image).

Lemma recognized_text (region : option OCR.image) (r : OCR.ocr_result) :
  OCR.recognize_armenian_text pytesseract preprocess_for_ocr region = Return r ->
  Forall (fun c => (0x530 <= c <= 0x58F)%Z) (OCR.text r) /\
  OCR.symbol_id r = OCR.get_symbol_id (OCR.text r).
Proof.
  unfold OCR.recognize_armenian_text.
  destruct (OCR.recognize_body pytesseract preprocess_for_ocr region)
    as [e | b] eqn:Hbody; simpl; intros [= <-].
  { simpl. split; [constructor | reflexivity]. }
  apply OCRFacts.recognize_body_Return in Hbody as [-> | (raw & l & _ & ->)].
  { simpl. split; [constructor | reflexivity]. }
  cbn [OCR.text OCR.symbol_id]. split; [|reflexivity].
  rewrite OCRFacts.clean_armenian_text_filter. apply List.Forall_forall.
  intros c Hc. apply List.filter_In in Hc as [_ Hc].
  now apply OCRFacts.in_armenian_block_iff.
Qed.

Lemma detections_within_bounds (fr : OCR.image) (out : list Detector.detection) :
  Detector.detect_symbols preprocess_for_detection find_symbol_contours detector fr
  = Return out ->
  Forall (DetectorFacts.within_bounds detector) out.
Proof.
  intros Hout.
  destruct (DetectorFacts.detect_symbols_cases
              preprocess_for_detection find_symbol_contours detector fr)
    as [H | (processed & contours & out' & _ & _ & Han & H)];
    rewrite H in Hout; injection Hout as <-; [constructor|].
  apply DetectorFacts.analyze_contours_inv in Han as [_ ->].
  eapply Permutation_Forall;
    [apply Permutation_sym, py_sort_reverse_perm|].
  apply DetectorFacts.accepted_within_bounds.
Qed.

(** What one call of [log_detection] made for the frame looks like. *)
Definition call_ok (ts : Q) (gps : Telemetry.gps_data)
    (detections : list Detector.detection) (c : logged) : Prop :=
  (exists threshold,
      min_confidence = Return threshold /\ (threshold < confidence c)%Q) /\
  gps_lat c = Telemetry.lat gps /\
  gps_lon c = Telemetry.lon gps /\
  gps_alt c = Telemetry.alt gps /\
  timestamp c = ts /\
  Forall (fun ch => (0x530 <= ch <= 0x58F)%Z) (symbol c) /\
  symbol_id c = OCR.get_symbol_id (symbol c) /\
  exists d,
    In d detections /\ detection_bbox c = Detector.bbox d /\
    DetectorFacts.within_bounds detector d.

Lemma process_detection_calls (frame : OCR.image) (ts : Q)
    (gps : Telemetry.gps_data) (i : nat) (d : Detector.detection)
    (detections : list Detector.detection) :
  In d detections ->
  DetectorFacts.within_bounds detector d ->
  Forall (call_ok ts gps detections)
    (process_detection pytesseract preprocess_for_ocr min_confidence
       save_detection_image frame ts gps i d).
Proof.
  intros Hin Hd. unfold process_detection.
  destruct (OCR.recognize_armenian_text pytesseract preprocess_for_ocr
              (Some (Region.extract_symbol_region frame d))) as [e | r] eqn:Hr;
    [constructor|].
  destruct min_confidence as [e | threshold] eqn:Hmin; [constructor|].
  destruct (Qltb threshold (OCR.confidence r)) eqn:Hlt; [|constructor].
  apply Qltb_lt in Hlt. apply recognized_text in Hr as [Htext Hid].
  constructor; [|constructor].
  unfold call_ok. cbn.
  split; [exists threshold; split; [exact Hmin | exact Hlt]|].
  repeat (split; [reflexivity|]).
  split; [exact Htext|]. split; [exact Hid|].
  exists d. split; [exact Hin|]. split; [reflexivity | exact Hd].
Qed.

Lemma process_detection_length (frame : OCR.image) (ts : Q)
    (gps : Telemetry.gps_data) (i : nat) (d : Detector.detection) :
  length (process_detection pytesseract preprocess_for_ocr min_confidence
            save_detection_image frame ts gps i d) <= 1.
Proof.
  unfold process_detection.
  destruct (OCR.recognize_armenian_text _ _ _) as [e | r]; [simpl; lia|].
  destruct min_confidence as [e | threshold]; [simpl; lia|].
  destruct (Qltb threshold (OCR.confidence r)); simpl; lia.
Qed.

(** X27: [process_single_frame] logs nothing for a frame whose position
    snapshot does not validate, and at most one detection per candidate
    region of the detector.  Every detection it logs has a confidence
    strictly above [min_confidence], the latitude, longitude and altitude of
    the frame's (validated) snapshot, the frame's timestamp, the bounding box
    of a candidate that passed the detector's size and shape tests, a symbol
    made of characters of the Armenian block only, and as symbol_id the id
    of the first character of that symbol. *)
Theorem process_single_frame_calls
    (frame : OCR.image) (ts : Q) (gps_data : option Telemetry.gps_data) :
  let calls := process_single_frame' frame ts gps_data in
  (GPS.validate_gps_data gps_data = false -> calls = []) /\
  exists detections,
    Detector.detect_symbols preprocess_for_detection find_symbol_contours
      detector frame = Return detections /\
    length calls <= length detections /\
    Forall (fun c =>
              exists gps,
                gps_data = Some gps /\
                GPS.validate_gps_data gps_data = true /\
                call_ok ts gps detections c) calls.
Proof.
  cbv zeta. unfold process_single_frame.
  split; [intros ->; reflexivity|].
  destruct (Detector.detect_symbols preprocess_for_detection find_symbol_contours
              detector frame) as [e | detections] eqn:Hdet.
  { exfalso.
    destruct (DetectorFacts.detect_symbols_cases
                preprocess_for_detection find_symbol_contours detector frame)
      as [H | (? & ? & ? & _ & _ & _ & H)]; congruence. }
  exists detections. split; [reflexivity|].
  destruct (GPS.validate_gps_data gps_data) eqn:Hvalid; simpl;
    [|split; [lia | constructor]].
  destruct gps_data as [gps|]; [|split; [simpl; lia | constructor]].
  split.
  - apply length_concat_imap. intros i d. apply process_detection_length.
  - apply Forall_concat_imap. intros i d Hd.
    pose proof (detections_within_bounds frame detections Hdet) as Hall.
    assert (DetectorFacts.within_bounds detector d) as Hwb.
    { eapply (proj1 (List.Forall_forall _ _)) in Hall; [exact Hall|exact Hd]. }
    eapply List.Forall_impl; [|apply (process_detection_calls frame ts gps i d detections Hd Hwb)].
    intros c Hc. exists gps. split; [reflexivity|]. split; [reflexivity | exact Hc].
Qed.

End ProcessFacts.

End ControllerFacts.

Module ConfigFacts.
Import Py Config.

Lemma default_system_config :
  target_fps get_default_config = Found (JInt 3) /\
  min_confidence get_default_config = Found (JFloat 0.8).
Proof. split; vm_compute; reflexivity. Qed.

Lemma default_sections :
  exists camera detection ocr mavlink,
    camera_config get_default_config = Found (JObj camera) /\
    detection_config get_default_config = Found (JObj detection) /\
    ocr_config get_default_config = Found (JObj ocr) /\
    mavlink_config get_default_config = Found (JObj mavlink) /\
    detection !! "min_symbol_area" = Some (JInt 2000) /\
    detection !! "max_symbol_area" = Some (JInt 100000).
Proof.
  do 4 eexists. repeat split; vm_compute; reflexivity.
Qed.

(** X28: [load_config] always leaves a configuration: what [json.load]
    returned when the file exists and loads, and the default configuration
    in every other case; the default is written back only when the file
    does not exist.  With the default configuration every property of
    [Config] returns: [target_fps] is 3, [min_confidence] is 0.8 and the
    detection section gives the areas 2000 and 100000.  A loaded dictionary
    is taken as it is, without completion from the defaults: when it has no
    "system_config" section, or a section that is a dictionary without the
    key, [target_fps] and [min_confidence] raise KeyError. *)
Theorem load_config_falls_back_to_default (path_exists : exc bool) (loaded : exc json) :
  let r := load_config path_exists loaded in
  (match path_exists, loaded with
   | Return true, Return j => config r = j
   | _, _ => config r = get_default_config
   end) /\
  (saved r = true <-> path_exists = Return false) /\
  (config r = get_default_config ->
   target_fps (config r) = Found (JInt 3) /\
   min_confidence (config r) = Found (JFloat 0.8) /\
   exists camera detection ocr mavlink,
     camera_config (config r) = Found (JObj camera) /\
     detection_config (config r) = Found (JObj detection) /\
     ocr_config (config r) = Found (JObj ocr) /\
     mavlink_config (config r) = Found (JObj mavlink) /\
     detection !! "min_symbol_area" = Some (JInt 2000) /\
     detection !! "max_symbol_area" = Some (JInt 100000)) /\
  (forall m,
      config r = JObj m ->
      (m !! "system_config" = None ->
       target_fps (config r) = KeyError "system_config" /\
       min_confidence (config r) = KeyError "system_config") /\
      (forall section,
          m !! "system_config" = Some (JObj section) ->
          (section !! "target_fps" = None ->
           target_fps (config r) = KeyError "target_fps") /\
          (section !! "min_confidence" = None ->
           min_confidence (config r) = KeyError "min_confidence"))).
Proof.
  cbv zeta. split; [|split; [|split]].
  - destruct path_exists as [e | [|]]; try reflexivity.
    destruct loaded as [e | j]; reflexivity.
  - destruct path_exists as [e | [|]]; simpl;
      try destruct loaded as [e' | j]; simpl;
      split; (discriminate || reflexivity).
  - intros ->. split; [apply default_system_config|].
    split; [apply default_system_config | apply default_sections].
  - intros m ->. split.
    + intros Hm. unfold target_fps, min_confidence, getitem2, getitem.
      rewrite Hm. split; reflexivity.
    + intros section Hm. unfold target_fps, min_confidence, getitem2, getitem.
      rewrite Hm. split; intros ->; reflexivity.
Qed.

End ConfigFacts.
